(** * Outgoing HTTP request metrics: a shallow embedding of [lib/http-client.js]

    The development follows the source file top to bottom:
    - [Double]: binary64 arithmetic;
    - [JS]: the fragments of JavaScript semantics the code relies on
      (truthiness, [||], [parseInt], the conversion of strings to numbers,
      a few [String.prototype] methods);
    - [getDurationInMs], [urlToOptions], [httpOptions];
    - the class [HttpRequestMetrics], its event handlers and the event loop
      that dispatches request, socket, response and timer events to them;
    - the properties of the metrics record handed to the metrics callback. *)

From Stdlib Require Import ZArith QArith Qabs Qreduction Lia Lqa String Ascii.
From Stdlib Require Import List Bool SpecFloat.
From Stdlib Require Import DecimalString DecimalN DecimalZ.
From stdpp Require Import gmap strings list fin_maps.

Local Open Scope string_scope.
Local Open Scope Z_scope.

(** ** Double precision

    JavaScript numbers are IEEE 754 binary64 values. A finite one is kept
    as the rational it denotes (the two zeros are not told apart: the code
    neither divides by a zero nor prints one); an operation is the exact
    operation followed by rounding to the nearest value, ties to even. *)

Module Double.

Inductive t :=
| Fin (q : Q)
| Inf (negative : bool)
| NaN.

(** The integer part of the binary logarithm of [n / d], for positive [n]
    and [d]. *)
Definition ilog2 (n d : Z) : Z :=
  let l := Z.log2 n - Z.log2 d in
  if d * 2 ^ Z.max 0 l <=? n * 2 ^ Z.max 0 (- l) then l else l - 1.

(** [n / d] rounded to the nearest integer, to the even one in a tie. *)
Definition rne (n d : Z) : Z :=
  let k := n / d in
  let r := n mod d in
  if 2 * r <? d then k
  else if d <? 2 * r then k + 1
  else if Z.even k then k else k + 1.

(** [m * 2 ^ e], in lowest terms. *)
Definition scale (m e : Z) : Q :=
  Qred (Qmake (m * 2 ^ Z.max 0 e) (Z.to_pos (2 ^ Z.max 0 (- e)))).

(** Rounding of [n / d], positive, to 53 significant bits, the least
    exponent being -1074; a result of 2^1024 or more is infinite. *)
Definition roundp (negative : bool) (n d : Z) : t :=
  let e := Z.max (ilog2 n d - 52) (-1074) in
  let m := rne (n * 2 ^ Z.max 0 (- e)) (d * 2 ^ Z.max 0 e) in
  if 2 ^ 1024 <=? m * 2 ^ Z.max 0 e then Inf negative
  else Fin (scale (if negative then - m else m) e).

Definition round (x : Q) : t :=
  let x := Qred x in
  if Qnum x =? 0 then Fin 0
  else roundp (Qnum x <? 0) (Z.abs (Qnum x)) (Zpos (Qden x)).

Definition negative (q : Q) : bool := Qnum q <? 0.

Definition is_zero (q : Q) : bool := Qnum q =? 0.

Definition opp (x : t) : t :=
  match x with
  | Fin q => Fin (- q)
  | Inf s => Inf (negb s)
  | NaN => NaN
  end.

Definition add (x y : t) : t :=
  match x, y with
  | Fin a, Fin b => round (a + b)
  | NaN, _ | _, NaN => NaN
  | Inf s, Inf s' => if Bool.eqb s s' then Inf s else NaN
  | Inf s, Fin _ | Fin _, Inf s => Inf s
  end.

Definition sub (x y : t) : t := add x (opp y).

Definition mul (x y : t) : t :=
  match x, y with
  | Fin a, Fin b => round (a * b)
  | NaN, _ | _, NaN => NaN
  | Inf s, Inf s' => Inf (xorb s s')
  | Inf s, Fin q | Fin q, Inf s =>
      if is_zero q then NaN else Inf (xorb s (negative q))
  end.

(** The divisor is never a negative zero in the code. *)
Definition div (x y : t) : t :=
  match x, y with
  | Fin a, Fin b =>
      if is_zero b then (if is_zero a then NaN else Inf (negative a))
      else round (a / b)
  | NaN, _ | _, NaN => NaN
  | Inf _, Inf _ => NaN
  | Inf s, Fin q => Inf (xorb s (negative q))
  | Fin _, Inf _ => Fin 0
  end.

(** The number an integer literal or array element denotes. *)
Definition of_Z (z : Z) : t := round (inject_Z z).

(** The integer that the double nearest to the integer [z] is. An integer
    of 2^1024 or more has no finite double: the code has [Infinity] there,
    which the integral numbers below do not include, and [z] itself stands
    for it. *)
Definition nearestZ (z : Z) : Z :=
  match round (inject_Z z) with
  | Fin q => Qnum q
  | _ => z
  end.

(** The same values in the Standard Library's specification of IEEE 754
    arithmetic, against which the operations above are checked below. *)
Definition of_spec (x : spec_float) : t :=
  match x with
  | S754_zero _ => Fin 0
  | S754_infinity s => Inf s
  | S754_nan => NaN
  | S754_finite s m e => Fin (scale (cond_Zopp s (Z.pos m)) e)
  end.

Definition to_spec (z : Z) : spec_float := binary_normalize 53 1024 z 0 false.

End Double.

(** ** JavaScript primitives *)

Module JS.

(** The numbers of a metrics record are kept exact: an integer-valued
    double is the integer itself, and a duration is the rational that the
    quotient computed by [getDurationInMs] rounds ([Rounded.getDurationInMs]
    below is that computation, rounding included). *)
Inductive value :=
| VUndef
| VBool (b : bool)
| VNum (q : Q)
| VNaN
| VStr (s : string).

(** A number that stays integral (ports, sizes, parsed integers). *)
Inductive num :=
| Num (z : Z)
| NaN.

Definition of_num (n : num) : value :=
  match n with
  | Num z => VNum (inject_Z z)
  | NaN => VNaN
  end.

Definition of_str (o : option string) : value :=
  match o with
  | Some s => VStr s
  | None => VUndef
  end.

Definition str_truthy (s : string) : bool :=
  match s with
  | EmptyString => false
  | String _ _ => true
  end.

Definition num_truthy (n : num) : bool :=
  match n with
  | Num z => negb (z =? 0)
  | NaN => false
  end.

(** ToBoolean. *)
Definition truthy (v : value) : bool :=
  match v with
  | VUndef => false
  | VBool b => b
  | VNum q => negb (Qeq_bool q 0)
  | VNaN => false
  | VStr s => str_truthy s
  end.

(** [a || b] on values. *)
Definition or (a b : value) : value := if truthy a then a else b.

(** [a || b] when both sides are strings or undefined. *)
Definition sor (a b : option string) : option string :=
  match a with
  | Some s => if str_truthy s then a else b
  | None => b
  end.

(** [isNaN(v)]: ToNumber(undefined) is NaN. *)
Definition isNaN (v : value) : bool :=
  match v with
  | VUndef | VNaN => true
  | _ => false
  end.

(** White space and line terminators skipped by [parseInt], for code
    units below 256. *)
Definition isWhite (c : ascii) : bool :=
  let n := nat_of_ascii c in
  (Nat.eqb n 9 || Nat.eqb n 10 || Nat.eqb n 11 || Nat.eqb n 12
   || Nat.eqb n 13 || Nat.eqb n 32 || Nat.eqb n 160)%bool.

Fixpoint trimStart (s : string) : string :=
  match s with
  | String c r => if isWhite c then trimStart r else s
  | EmptyString => EmptyString
  end.

(** Value of a digit in the given radix, if it is one. *)
Definition digitVal (radix : Z) (c : ascii) : option Z :=
  let n := Z.of_nat (nat_of_ascii c) in
  let d :=
    if (48 <=? n) && (n <=? 57) then Some (n - 48)
    else if (97 <=? n) && (n <=? 122) then Some (n - 87)
    else if (65 <=? n) && (n <=? 90) then Some (n - 55)
    else None in
  match d with
  | Some v => if v <? radix then Some v else None
  | None => None
  end.

(** Longest prefix of digits, accumulated; [None] when there is none. *)
Fixpoint digits (radix : Z) (acc : option Z) (s : string) : option Z :=
  match s with
  | String c r =>
      match digitVal radix c with
      | Some d => digits radix (Some (default 0 acc * radix + d)) r
      | None => acc
      end
  | EmptyString => acc
  end.

Definition stripSign (s : string) : Z * string :=
  match s with
  | String "-" r => (-1, r)
  | String "+" r => (1, r)
  | _ => (1, s)
  end.

Definition hasHexPrefix (s : string) : bool :=
  match s with
  | String "0" (String "x" _) | String "0" (String "X" _) => true
  | _ => false
  end.

(** [parseInt(s, radix)]; radix [0] stands for an omitted radix. The
    result is the double nearest to the integer read (for a radix that
    is no power of 2 and is not 10 the language leaves the rounding to the
    implementation; the code uses 10 and 16 only). *)
Definition parseInt (s : string) (radix : Z) : num :=
  let '(sign, s1) := stripSign (trimStart s) in
  if negb (radix =? 0) && ((radix <? 2) || (36 <? radix)) then NaN
  else
    let strip := (radix =? 0) || (radix =? 16) in
    let R := if radix =? 0 then 10 else radix in
    let '(R, s2) :=
      if strip && hasHexPrefix s1
      then (16, substring 2 (String.length s1 - 2) s1)
      else (R, s1) in
    match digits R None s2 with
    | Some n => Num (Double.nearestZ (sign * n))
    | None => NaN
    end.

(** [Number(url.port)]: the port of a URL object is empty or the decimal
    digits of a number up to 65535, and this is the conversion of such
    strings only; [toNumber] below is the conversion of any string. *)
Definition Number (s : string) : num :=
  match NilEmpty.uint_of_string s with
  | Some d => Num (Z.of_uint d)
  | None => NaN
  end.

(** The leading digits of a list of characters: their value after [acc],
    how many there are after [count], and what follows them. *)
Fixpoint readDigits (radix acc count : Z) (l : list ascii)
    : Z * Z * list ascii :=
  match l with
  | c :: r =>
      match digitVal radix c with
      | Some d => readDigits radix (acc * radix + d) (count + 1) r
      | None => (acc, count, l)
      end
  | [] => (acc, count, l)
  end.

Fixpoint dropWhite (l : list ascii) : list ascii :=
  match l with
  | c :: r => if isWhite c then dropWhite r else l
  | [] => []
  end.

Definition readSign (l : list ascii) : bool * list ascii :=
  match l with
  | "-"%char :: r => (true, r)
  | "+"%char :: r => (false, r)
  | _ => (false, l)
  end.

(** [m * 10 ^ p] as a double, [m] being positive with at most [len]
    digits. Beyond the exponents of the doubles the result is known
    without the power. *)
Definition decimal (negative : bool) (m len p : Z) : Double.t :=
  if m =? 0 then Double.Fin 0
  else if 400 <? p then Double.Inf negative
  else if p + len <? -400 then Double.Fin 0
  else
    let s := if negative then - m else m in
    Double.round
      (if 0 <=? p then inject_Z (s * 10 ^ p)
       else Qmake s (Z.to_pos (10 ^ (- p)))).

(** StrDecimalLiteral: a sign, then [Infinity] or digits with an optional
    fraction and an optional exponent. *)
Definition readDecimal (l : list ascii) : Double.t :=
  let '(negative, l) := readSign l in
  if String.eqb (string_of_list_ascii l) "Infinity" then Double.Inf negative
  else
    let '(m1, k1, r1) := readDigits 10 0 0 l in
    let '(m, k2, r2) :=
      match r1 with
      | "."%char :: r => readDigits 10 m1 0 r
      | _ => (m1, 0, r1)
      end in
    if k1 + k2 =? 0 then Double.NaN
    else
      match r2 with
      | [] => decimal negative m (k1 + k2) (- k2)
      | c :: r =>
          if Ascii.eqb c "e" || Ascii.eqb c "E" then
            let '(eneg, r) := readSign r in
            let '(x, kx, r3) := readDigits 10 0 0 r in
            match r3 with
            | [] =>
                if kx =? 0 then Double.NaN
                else decimal negative m (k1 + k2)
                       ((if eneg then - x else x) - k2)
            | _ :: _ => Double.NaN
            end
          else Double.NaN
      end.

(** NonDecimalIntegerLiteral: [0x], [0o] or [0b] and digits of that
    radix, without a sign. *)
Definition readRadix (radix : Z) (l : list ascii) : Double.t :=
  match readDigits radix 0 0 l with
  | (v, k, []) => if k =? 0 then Double.NaN else Double.round (inject_Z v)
  | _ => Double.NaN
  end.

(** ToNumber on a string (StringToNumber): white space at both ends is
    dropped, the empty string is 0, and what is no numeric literal is
    NaN. *)
Definition toNumber (s : string) : Double.t :=
  let l := rev (dropWhite (rev (dropWhite (list_ascii_of_string s)))) in
  match l with
  | [] => Double.Fin 0
  | "0"%char :: c :: r =>
      if Ascii.eqb c "x" || Ascii.eqb c "X" then readRadix 16 r
      else if Ascii.eqb c "o" || Ascii.eqb c "O" then readRadix 8 r
      else if Ascii.eqb c "b" || Ascii.eqb c "B" then readRadix 2 r
      else readDecimal l
  | _ => readDecimal l
  end.

(** ToString on integral numbers, as a template literal applies it. *)
Definition showZ (z : Z) : string :=
  if z <? 0
  then "-" ++ NilZero.string_of_uint (N.to_uint (Z.to_N (- z)))
  else NilZero.string_of_uint (N.to_uint (Z.to_N z)).

Definition show (n : num) : string :=
  match n with
  | Num z => showZ z
  | NaN => "NaN"
  end.

(** [s.startsWith(p)] *)
Definition startsWith (p s : string) : bool := String.prefix p s.

(** [s.slice(1, -1)] *)
Definition slice_1_m1 (s : string) : string :=
  substring 1 (String.length s - 2) s.

(** [s.toUpperCase()] on ASCII letters. *)
Definition upper (c : ascii) : ascii :=
  let n := nat_of_ascii c in
  if (Nat.leb 97 n && Nat.leb n 122)%bool then ascii_of_nat (n - 32) else c.

Fixpoint toUpperCase (s : string) : string :=
  match s with
  | String c r => String (upper c) (toUpperCase r)
  | EmptyString => EmptyString
  end.

(** [s.split(".")] *)
Fixpoint split_dot (cur : string) (s : string) : list string :=
  match s with
  | String c r =>
      if Ascii.eqb c "."
      then cur :: split_dot EmptyString r
      else split_dot (cur ++ String c EmptyString) r
  | EmptyString => [cur]
  end.

(** [l.slice(-2)] *)
Definition last_two (l : list string) : list string :=
  skipn (List.length l - 2) l.

(** [l.join(".")] *)
Fixpoint join_dot (l : list string) : string :=
  match l with
  | [] => EmptyString
  | [x] => x
  | x :: r => x ++ "." ++ join_dot r
  end.

End JS.

Import JS.

(** ** Time stamps and durations *)

(** A [process.hrtime()] reading: [[seconds, nanoseconds]]. *)
Record hrtime := HR { secs : Z; nanos : Z }.

Definition NS_PER_SEC : Z := 1000000000.
Definition MS_PER_NS : Z := 1000000.

(** [undefined] timestamps are [None]; an hrtime array is always truthy.
    The metrics record carries the exact quotient; the double that the
    code computes is [Rounded.getDurationInMs] below. *)
Definition getDurationInMs (startTime endTime : option hrtime) : value :=
  match startTime, endTime with
  | Some s, Some e =>
      let deltaSec := secs e - secs s in
      let deltaNanos := nanos e - nanos s in
      VNum (inject_Z (deltaSec * NS_PER_SEC + deltaNanos) / inject_Z MS_PER_NS)
  | _, _ => VUndef
  end.


(** ** Request targets *)

(** A WHATWG [URL] object, as [new URL(str)] builds it: every component is
    a string. *)
Module Url.
Record t := Make {
  protocol : string;
  hostname : string;
  hash : string;
  search : string;
  pathname : string;
  href : string;
  port : string;
  username : string;
  password : string
}.
End Url.

(** A port as callers give it: a number or a numeric string. *)
Inductive portval :=
| PortNum (n : num)
| PortStr (s : string).

(** The request options the code reads, typed as Node documents them;
    [None] is a property that is not set. *)
Module Opt.
Record t := Make {
  protocol : option string;
  hostname : option string;
  host : option string;
  hash : option string;
  search : option string;
  pathname : option string;
  path : option string;
  href : option string;
  port : option portval;
  defaultPort : option portval;
  auth : option string
}.

(** [{}] *)
Definition empty : t :=
  Make None None None None None None None None None None None.

(** One property of [Object.assign(target, source)]. *)
Definition over {A} (target source : option A) : option A :=
  match source with
  | Some _ => source
  | None => target
  end.

(** [Object.assign(target, source)] *)
Definition assign (target source : t) : t :=
  {| protocol := over (protocol target) (protocol source);
     hostname := over (hostname target) (hostname source);
     host := over (host target) (host source);
     hash := over (hash target) (hash source);
     search := over (search target) (search source);
     pathname := over (pathname target) (pathname source);
     path := over (path target) (path source);
     href := over (href target) (href source);
     port := over (port target) (port source);
     defaultPort := over (defaultPort target) (defaultPort source);
     auth := over (auth target) (auth source) |}.
End Opt.

Definition urlToOptions (url : Url.t) : Opt.t :=
  {| Opt.protocol := Some (Url.protocol url);
     Opt.hostname :=
       Some (if startsWith "[" (Url.hostname url)
             then slice_1_m1 (Url.hostname url)
             else Url.hostname url);
     Opt.host := None;
     Opt.hash := Some (Url.hash url);
     Opt.search := Some (Url.search url);
     Opt.pathname := Some (Url.pathname url);
     Opt.path := Some (Url.pathname url +:+ Url.search url);
     Opt.href := Some (Url.href url);
     Opt.port :=
       if String.eqb (Url.port url) ""
       then None
       else Some (PortNum (Number (Url.port url)));
     Opt.defaultPort := None;
     Opt.auth :=
       if str_truthy (Url.username url) || str_truthy (Url.password url)
       then Some (Url.username url +:+ ":" +:+ Url.password url)
       else None |}.

(** First argument of [http.request]. *)
Inductive Input :=
| InStr (s : string)
| InURL (u : Url.t)
| InOpts (o : Opt.t)
| InUndef.

(** Second and third argument: an options object, a function, or nothing. *)
Inductive Arg :=
| ArgOpts (o : Opt.t)
| ArgFn (f : nat)
| ArgUndef.

(** [input || {}] *)
Definition or_empty (input : option Opt.t) : Opt.t := default Opt.empty input.

(** [new URL(str)] is the platform's parser; it throws on an invalid URL
    ([None]). *)
Definition httpOptions (parseURL : string -> option Url.t)
    (input : Input) (options : Arg) : option Opt.t :=
  match
    match input with
    | InStr urlStr =>
        match parseURL urlStr with
        | Some u => Some (Some (urlToOptions u), options)
        | None => None
        end
    | InURL u => Some (Some (urlToOptions u), options)
    | InOpts o => Some (Some o, ArgOpts o)
    | InUndef => Some (None, ArgUndef)
    end
  with
  | Some (input, ArgFn _) => Some (or_empty input)
  | Some (input, ArgOpts o) => Some (Opt.assign (or_empty input) o)
  | Some (input, ArgUndef) => Some (or_empty input)
  | None => None
  end.

(** ** Platform objects *)

(** What [request.getHeader(name)] can return. *)
Inductive header :=
| HUndef
| HStr (s : string)
| HNum (z : Z)
| HArr (l : list string).

(** The [http.ClientRequest] handle, by what the code reads from it. *)
Module Req.
Record t := Make {
  method : option string;
  getHeader : string -> header
}.
End Req.

(** The [http.IncomingMessage] of the response. *)
Module Res.
Record t := Make {
  statusCode : Z;
  statusMessage : string;
  headers : gmap string string
}.
End Res.

(** The error object of a request's [error] event. *)
Module Err.
Record t := Make {
  message : value;
  code : value
}.
End Err.

(** A function value: the default no-op of [withMetricsCallback] or a
    function of the embedding program, which returns normally. *)
Inductive fn :=
| Noop
| Extern (id : nat).

Record Args := MkArgs { input : Input; options : Arg; callback : Arg }.

(** ** The class [HttpRequestMetrics] *)

Module Ctx.
(** The fields of [this]; a field that was never assigned is [None]
    (or [false]), as [undefined] reads. *)
Record t := Make {
  timings : gmap string hrtime;
  requestFn : option (Input -> Arg -> Arg -> option Req.t);
  args : option Args;
  metricsCallback : option fn;
  httpOptions : option Opt.t;
  request : option Req.t;
  requestBodySize : option num;
  response : option Res.t;
  serverRequestId : option string;
  responseSize : option num;
  localAddress : option string;
  remoteAddress : option string;
  noResponseEndTimer : option nat;
  metricsTriggered : bool
}.

Definition with_timings (v : gmap string hrtime) (x : t) : t :=
  {| timings := v; requestFn := requestFn x; args := args x; metricsCallback := metricsCallback x; httpOptions := httpOptions x; request := request x; requestBodySize := requestBodySize x; response := response x; serverRequestId := serverRequestId x; responseSize := responseSize x; localAddress := localAddress x; remoteAddress := remoteAddress x; noResponseEndTimer := noResponseEndTimer x; metricsTriggered := metricsTriggered x |}.
Definition with_requestFn (v : option (Input -> Arg -> Arg -> option Req.t)) (x : t) : t :=
  {| timings := timings x; requestFn := v; args := args x; metricsCallback := metricsCallback x; httpOptions := httpOptions x; request := request x; requestBodySize := requestBodySize x; response := response x; serverRequestId := serverRequestId x; responseSize := responseSize x; localAddress := localAddress x; remoteAddress := remoteAddress x; noResponseEndTimer := noResponseEndTimer x; metricsTriggered := metricsTriggered x |}.
Definition with_args (v : option Args) (x : t) : t :=
  {| timings := timings x; requestFn := requestFn x; args := v; metricsCallback := metricsCallback x; httpOptions := httpOptions x; request := request x; requestBodySize := requestBodySize x; response := response x; serverRequestId := serverRequestId x; responseSize := responseSize x; localAddress := localAddress x; remoteAddress := remoteAddress x; noResponseEndTimer := noResponseEndTimer x; metricsTriggered := metricsTriggered x |}.
Definition with_metricsCallback (v : option fn) (x : t) : t :=
  {| timings := timings x; requestFn := requestFn x; args := args x; metricsCallback := v; httpOptions := httpOptions x; request := request x; requestBodySize := requestBodySize x; response := response x; serverRequestId := serverRequestId x; responseSize := responseSize x; localAddress := localAddress x; remoteAddress := remoteAddress x; noResponseEndTimer := noResponseEndTimer x; metricsTriggered := metricsTriggered x |}.
Definition with_httpOptions (v : option Opt.t) (x : t) : t :=
  {| timings := timings x; requestFn := requestFn x; args := args x; metricsCallback := metricsCallback x; httpOptions := v; request := request x; requestBodySize := requestBodySize x; response := response x; serverRequestId := serverRequestId x; responseSize := responseSize x; localAddress := localAddress x; remoteAddress := remoteAddress x; noResponseEndTimer := noResponseEndTimer x; metricsTriggered := metricsTriggered x |}.
Definition with_request (v : option Req.t) (x : t) : t :=
  {| timings := timings x; requestFn := requestFn x; args := args x; metricsCallback := metricsCallback x; httpOptions := httpOptions x; request := v; requestBodySize := requestBodySize x; response := response x; serverRequestId := serverRequestId x; responseSize := responseSize x; localAddress := localAddress x; remoteAddress := remoteAddress x; noResponseEndTimer := noResponseEndTimer x; metricsTriggered := metricsTriggered x |}.
Definition with_requestBodySize (v : option num) (x : t) : t :=
  {| timings := timings x; requestFn := requestFn x; args := args x; metricsCallback := metricsCallback x; httpOptions := httpOptions x; request := request x; requestBodySize := v; response := response x; serverRequestId := serverRequestId x; responseSize := responseSize x; localAddress := localAddress x; remoteAddress := remoteAddress x; noResponseEndTimer := noResponseEndTimer x; metricsTriggered := metricsTriggered x |}.
Definition with_response (v : option Res.t) (x : t) : t :=
  {| timings := timings x; requestFn := requestFn x; args := args x; metricsCallback := metricsCallback x; httpOptions := httpOptions x; request := request x; requestBodySize := requestBodySize x; response := v; serverRequestId := serverRequestId x; responseSize := responseSize x; localAddress := localAddress x; remoteAddress := remoteAddress x; noResponseEndTimer := noResponseEndTimer x; metricsTriggered := metricsTriggered x |}.
Definition with_serverRequestId (v : option string) (x : t) : t :=
  {| timings := timings x; requestFn := requestFn x; args := args x; metricsCallback := metricsCallback x; httpOptions := httpOptions x; request := request x; requestBodySize := requestBodySize x; response := response x; serverRequestId := v; responseSize := responseSize x; localAddress := localAddress x; remoteAddress := remoteAddress x; noResponseEndTimer := noResponseEndTimer x; metricsTriggered := metricsTriggered x |}.
Definition with_responseSize (v : option num) (x : t) : t :=
  {| timings := timings x; requestFn := requestFn x; args := args x; metricsCallback := metricsCallback x; httpOptions := httpOptions x; request := request x; requestBodySize := requestBodySize x; response := response x; serverRequestId := serverRequestId x; responseSize := v; localAddress := localAddress x; remoteAddress := remoteAddress x; noResponseEndTimer := noResponseEndTimer x; metricsTriggered := metricsTriggered x |}.
Definition with_localAddress (v : option string) (x : t) : t :=
  {| timings := timings x; requestFn := requestFn x; args := args x; metricsCallback := metricsCallback x; httpOptions := httpOptions x; request := request x; requestBodySize := requestBodySize x; response := response x; serverRequestId := serverRequestId x; responseSize := responseSize x; localAddress := v; remoteAddress := remoteAddress x; noResponseEndTimer := noResponseEndTimer x; metricsTriggered := metricsTriggered x |}.
Definition with_remoteAddress (v : option string) (x : t) : t :=
  {| timings := timings x; requestFn := requestFn x; args := args x; metricsCallback := metricsCallback x; httpOptions := httpOptions x; request := request x; requestBodySize := requestBodySize x; response := response x; serverRequestId := serverRequestId x; responseSize := responseSize x; localAddress := localAddress x; remoteAddress := v; noResponseEndTimer := noResponseEndTimer x; metricsTriggered := metricsTriggered x |}.
Definition with_noResponseEndTimer (v : option nat) (x : t) : t :=
  {| timings := timings x; requestFn := requestFn x; args := args x; metricsCallback := metricsCallback x; httpOptions := httpOptions x; request := request x; requestBodySize := requestBodySize x; response := response x; serverRequestId := serverRequestId x; responseSize := responseSize x; localAddress := localAddress x; remoteAddress := remoteAddress x; noResponseEndTimer := v; metricsTriggered := metricsTriggered x |}.
Definition with_metricsTriggered (v : bool) (x : t) : t :=
  {| timings := timings x; requestFn := requestFn x; args := args x; metricsCallback := metricsCallback x; httpOptions := httpOptions x; request := request x; requestBodySize := requestBodySize x; response := response x; serverRequestId := serverRequestId x; responseSize := responseSize x; localAddress := localAddress x; remoteAddress := remoteAddress x; noResponseEndTimer := noResponseEndTimer x; metricsTriggered := v |}.
End Ctx.

(** ** The event loop around one request *)

(** One invocation of the metrics callback: the function that was called,
    the record it received and the timers pending at that moment. *)
Record Call := MkCall {
  callee : fn;
  metrics : gmap string value;
  pending : gmap nat Double.t
}.

(** The request's context together with what the platform holds for it:
    the listeners registered on the request, its socket and its response
    (Node emits [socket] and [response] at most once per request, so a flag
    per listener group describes the tables), the timers, and the effects
    observed so far. *)
Module World.
Record t := Make {
  (** the request's context, [this] in every handler *)
  self : Ctx.t;
  (** [request.write] is the counting wrapper *)
  writeWrapped : bool;
  (** socket, finish, response and timeout listeners of the request *)
  reqListeners : bool;
  (** the one-shot error listener of the request *)
  reqErrorOnce : bool;
  (** lookup, connect and secureConnect listeners of the socket *)
  sockListeners : bool;
  (** the one-shot data listener of the socket *)
  sockDataOnce : bool;
  (** the byte-counting data listener of the response *)
  resDataListener : bool;
  (** the end listener of the response *)
  resEndListener : bool;
  (** pending [setTimeout] timers, each with its delay *)
  timers : gmap nat Double.t;
  (** the next timer handle *)
  nextTimer : nat;
  (** invocations of the metrics callback, oldest first *)
  calls : list Call;
  (** the delays printed by [console.log] *)
  console : list Double.t;
  (** exceptions thrown out of a handler *)
  uncaught : nat
}.

Definition with_self (v : Ctx.t) (x : t) : t :=
  {| self := v; writeWrapped := writeWrapped x; reqListeners := reqListeners x; reqErrorOnce := reqErrorOnce x; sockListeners := sockListeners x; sockDataOnce := sockDataOnce x; resDataListener := resDataListener x; resEndListener := resEndListener x; timers := timers x; nextTimer := nextTimer x; calls := calls x; console := console x; uncaught := uncaught x |}.
Definition with_writeWrapped (v : bool) (x : t) : t :=
  {| self := self x; writeWrapped := v; reqListeners := reqListeners x; reqErrorOnce := reqErrorOnce x; sockListeners := sockListeners x; sockDataOnce := sockDataOnce x; resDataListener := resDataListener x; resEndListener := resEndListener x; timers := timers x; nextTimer := nextTimer x; calls := calls x; console := console x; uncaught := uncaught x |}.
Definition with_reqListeners (v : bool) (x : t) : t :=
  {| self := self x; writeWrapped := writeWrapped x; reqListeners := v; reqErrorOnce := reqErrorOnce x; sockListeners := sockListeners x; sockDataOnce := sockDataOnce x; resDataListener := resDataListener x; resEndListener := resEndListener x; timers := timers x; nextTimer := nextTimer x; calls := calls x; console := console x; uncaught := uncaught x |}.
Definition with_reqErrorOnce (v : bool) (x : t) : t :=
  {| self := self x; writeWrapped := writeWrapped x; reqListeners := reqListeners x; reqErrorOnce := v; sockListeners := sockListeners x; sockDataOnce := sockDataOnce x; resDataListener := resDataListener x; resEndListener := resEndListener x; timers := timers x; nextTimer := nextTimer x; calls := calls x; console := console x; uncaught := uncaught x |}.
Definition with_sockListeners (v : bool) (x : t) : t :=
  {| self := self x; writeWrapped := writeWrapped x; reqListeners := reqListeners x; reqErrorOnce := reqErrorOnce x; sockListeners := v; sockDataOnce := sockDataOnce x; resDataListener := resDataListener x; resEndListener := resEndListener x; timers := timers x; nextTimer := nextTimer x; calls := calls x; console := console x; uncaught := uncaught x |}.
Definition with_sockDataOnce (v : bool) (x : t) : t :=
  {| self := self x; writeWrapped := writeWrapped x; reqListeners := reqListeners x; reqErrorOnce := reqErrorOnce x; sockListeners := sockListeners x; sockDataOnce := v; resDataListener := resDataListener x; resEndListener := resEndListener x; timers := timers x; nextTimer := nextTimer x; calls := calls x; console := console x; uncaught := uncaught x |}.
Definition with_resDataListener (v : bool) (x : t) : t :=
  {| self := self x; writeWrapped := writeWrapped x; reqListeners := reqListeners x; reqErrorOnce := reqErrorOnce x; sockListeners := sockListeners x; sockDataOnce := sockDataOnce x; resDataListener := v; resEndListener := resEndListener x; timers := timers x; nextTimer := nextTimer x; calls := calls x; console := console x; uncaught := uncaught x |}.
Definition with_resEndListener (v : bool) (x : t) : t :=
  {| self := self x; writeWrapped := writeWrapped x; reqListeners := reqListeners x; reqErrorOnce := reqErrorOnce x; sockListeners := sockListeners x; sockDataOnce := sockDataOnce x; resDataListener := resDataListener x; resEndListener := v; timers := timers x; nextTimer := nextTimer x; calls := calls x; console := console x; uncaught := uncaught x |}.
Definition with_timers (v : gmap nat Double.t) (x : t) : t :=
  {| self := self x; writeWrapped := writeWrapped x; reqListeners := reqListeners x; reqErrorOnce := reqErrorOnce x; sockListeners := sockListeners x; sockDataOnce := sockDataOnce x; resDataListener := resDataListener x; resEndListener := resEndListener x; timers := v; nextTimer := nextTimer x; calls := calls x; console := console x; uncaught := uncaught x |}.
Definition with_nextTimer (v : nat) (x : t) : t :=
  {| self := self x; writeWrapped := writeWrapped x; reqListeners := reqListeners x; reqErrorOnce := reqErrorOnce x; sockListeners := sockListeners x; sockDataOnce := sockDataOnce x; resDataListener := resDataListener x; resEndListener := resEndListener x; timers := timers x; nextTimer := v; calls := calls x; console := console x; uncaught := uncaught x |}.
Definition with_calls (v : list Call) (x : t) : t :=
  {| self := self x; writeWrapped := writeWrapped x; reqListeners := reqListeners x; reqErrorOnce := reqErrorOnce x; sockListeners := sockListeners x; sockDataOnce := sockDataOnce x; resDataListener := resDataListener x; resEndListener := resEndListener x; timers := timers x; nextTimer := nextTimer x; calls := v; console := console x; uncaught := uncaught x |}.
Definition with_console (v : list Double.t) (x : t) : t :=
  {| self := self x; writeWrapped := writeWrapped x; reqListeners := reqListeners x; reqErrorOnce := reqErrorOnce x; sockListeners := sockListeners x; sockDataOnce := sockDataOnce x; resDataListener := resDataListener x; resEndListener := resEndListener x; timers := timers x; nextTimer := nextTimer x; calls := calls x; console := v; uncaught := uncaught x |}.
Definition with_uncaught (v : nat) (x : t) : t :=
  {| self := self x; writeWrapped := writeWrapped x; reqListeners := reqListeners x; reqErrorOnce := reqErrorOnce x; sockListeners := sockListeners x; sockDataOnce := sockDataOnce x; resDataListener := resDataListener x; resEndListener := resEndListener x; timers := timers x; nextTimer := nextTimer x; calls := calls x; console := console x; uncaught := v |}.

Definition init (this : Ctx.t) : t :=
  {| self := this; writeWrapped := false; reqListeners := false;
     reqErrorOnce := false; sockListeners := false; sockDataOnce := false;
     resDataListener := false; resEndListener := false; timers := ∅;
     nextTimer := O; calls := []; console := []; uncaught := O |}.

(** Run a field update on [this]. *)
Definition this (f : Ctx.t -> Ctx.t) (w : t) : t := with_self (f (self w)) w.

(** [this.timings[slot] = process.hrtime()] *)
Definition mark (slot : string) (now : hrtime) : t -> t :=
  this (fun c => Ctx.with_timings (<[slot := now]> (Ctx.timings c)) c).

(** An exception leaves the running handler. *)
Definition throw (w : t) : t := with_uncaught (S (uncaught w)) w.
End World.

(** *** Builders *)

(** [new HttpRequestMetrics()] at the given clock reading. *)
Definition new (now : hrtime) : Ctx.t :=
  {| Ctx.timings := {[ "startAt" := now ]};
     Ctx.requestFn := None; Ctx.args := None; Ctx.metricsCallback := None;
     Ctx.httpOptions := None; Ctx.request := None;
     Ctx.requestBodySize := None; Ctx.response := None;
     Ctx.serverRequestId := None; Ctx.responseSize := None;
     Ctx.localAddress := None; Ctx.remoteAddress := None;
     Ctx.noResponseEndTimer := None; Ctx.metricsTriggered := false |}.

Definition withRequestFn (requestFn : Input -> Arg -> Arg -> option Req.t)
    (this : Ctx.t) : Ctx.t :=
  Ctx.with_requestFn (Some requestFn) this.

Definition withArgs (input : Input) (options callback : Arg)
    (this : Ctx.t) : Ctx.t :=
  Ctx.with_args (Some (MkArgs input options callback)) this.

(** [cb || (() => {})]: a function is truthy. *)
Definition withMetricsCallback (cb : option fn) (this : Ctx.t) : Ctx.t :=
  Ctx.with_metricsCallback (Some (default Noop cb)) this.

(** *** Derived metrics *)

(** [a || b] on timestamps. *)
Definition hor (a b : option hrtime) : option hrtime :=
  match a with
  | Some _ => a
  | None => b
  end.

Definition por (a b : option portval) : option portval :=
  match a with
  | Some (PortNum n) => if num_truthy n then a else b
  | Some (PortStr s) => if str_truthy s then a else b
  | None => b
  end.

(** [undefined.field] throws: [None]. *)
Definition getRequestMetrics (this : Ctx.t) : option (gmap string value) :=
  match Ctx.httpOptions this, Ctx.request this with
  | Some opts, Some req =>
      let protocol :=
        match sor (Opt.protocol opts) None with
        | Some p => p
        | None =>
            match sor (Opt.href opts) None with
            | Some href => if startsWith "https:" href then "https:" else "http:"
            | None => "http:"
            end
        end in
      let host :=
        default "localhost"
          (sor (sor (Opt.hostname opts) (Opt.host opts)) (Some "localhost")) in
      let port :=
        match
          por (por (Opt.port opts) (Opt.defaultPort opts))
              (Some (PortNum (Num
                 (match sor (Opt.protocol opts) None with
                  | None => 80
                  | Some p => if String.eqb p "http:" then 80 else 443
                  end))))
        with
        | Some (PortStr s) => parseInt s 0
        | Some (PortNum n) => n
        | None => NaN
        end in
      let portIs (n : Z) := match port with Num z => z =? n | NaN => false end in
      let portForUrl :=
        if (portIs 80 && String.eqb protocol "http:")
           || (portIs 443 && String.eqb protocol "https:")
        then ""
        else ":" +:+ show port in
      let path := default "/" (sor (Opt.path opts) (Some "/")) in
      Some (list_to_map
        [ ("protocol", VStr protocol);
          ("host", VStr host);
          ("port", of_num port);
          ("path", VStr path);
          ("url", VStr (protocol +:+ "//" +:+ host +:+ portForUrl +:+ path));
          ("method", VStr (toUpperCase
             (default "GET" (sor (Req.method req) (Some "GET")))));
          ("domain", VStr (join_dot (last_two (split_dot "" host)))) ])
  | _, _ => None
  end.

Definition getResponseMetrics (this : Ctx.t) : gmap string value :=
  match Ctx.response this with
  | None => ∅
  | Some res =>
      list_to_map
        [ ("responseCode", VNum (inject_Z (Res.statusCode res)));
          ("responseStatus", VStr (Res.statusMessage res));
          ("contentType", of_str (Res.headers res !! "content-type"));
          ("localIPAddress", of_str (Ctx.localAddress this));
          ("serverIPAddress", of_str (Ctx.remoteAddress this)) ]
  end.

Definition getTimingMetrics (this : Ctx.t) : gmap string value :=
  let t := Ctx.timings this in
  list_to_map
    [ ("duration",
        getDurationInMs (t !! "startAt") (hor (t !! "errorAt") (t !! "endAt")));
      ("durationBlocked", getDurationInMs (t !! "startAt") (t !! "socketAt"));
      ("durationDNS", getDurationInMs (t !! "socketAt") (t !! "dnsLookupAt"));
      ("durationConnect",
        getDurationInMs (hor (t !! "dnsLookupAt") (t !! "socketAt"))
                        (t !! "tcpConnectionAt"));
      ("durationSSL",
        getDurationInMs (t !! "tcpConnectionAt") (t !! "tlsHandshakeAt"));
      ("durationSend",
        getDurationInMs (hor (t !! "tlsHandshakeAt") (t !! "tcpConnectionAt"))
                        (t !! "sentRequestAt"));
      ("durationWait",
        getDurationInMs
          (hor (t !! "sentRequestAt")
               (hor (t !! "tlsHandshakeAt") (t !! "tcpConnectionAt")))
          (t !! "firstByteAt"));
      ("durationReceive", getDurationInMs (t !! "firstByteAt") (t !! "endAt")) ].

(** *** The durations as the code computes them

    [getDurationInMs] and [getTimingMetrics] once more, in the arithmetic
    of the code: a result is [None] for [undefined] and a double
    otherwise. *)

Module Rounded.

Definition getDurationInMs (startTime endTime : option hrtime)
    : option Double.t :=
  match startTime, endTime with
  | Some s, Some e =>
      let deltaSec := Double.sub (Double.of_Z (secs e)) (Double.of_Z (secs s)) in
      let deltaNanos :=
        Double.sub (Double.of_Z (nanos e)) (Double.of_Z (nanos s)) in
      Some (Double.div
              (Double.add (Double.mul deltaSec (Double.of_Z NS_PER_SEC))
                          deltaNanos)
              (Double.of_Z MS_PER_NS))
  | _, _ => None
  end.

Definition getTimingMetrics (this : Ctx.t) : gmap string (option Double.t) :=
  let t := Ctx.timings this in
  list_to_map
    [ ("duration",
        getDurationInMs (t !! "startAt") (hor (t !! "errorAt") (t !! "endAt")));
      ("durationBlocked", getDurationInMs (t !! "startAt") (t !! "socketAt"));
      ("durationDNS", getDurationInMs (t !! "socketAt") (t !! "dnsLookupAt"));
      ("durationConnect",
        getDurationInMs (hor (t !! "dnsLookupAt") (t !! "socketAt"))
                        (t !! "tcpConnectionAt"));
      ("durationSSL",
        getDurationInMs (t !! "tcpConnectionAt") (t !! "tlsHandshakeAt"));
      ("durationSend",
        getDurationInMs (hor (t !! "tlsHandshakeAt") (t !! "tcpConnectionAt"))
                        (t !! "sentRequestAt"));
      ("durationWait",
        getDurationInMs
          (hor (t !! "sentRequestAt")
               (hor (t !! "tlsHandshakeAt") (t !! "tcpConnectionAt")))
          (t !! "firstByteAt"));
      ("durationReceive", getDurationInMs (t !! "firstByteAt") (t !! "endAt")) ].

(** The subtraction, multiplication, addition and division of
    [getDurationInMs] in the Standard Library's binary64. *)
Definition binary64_duration (s e : hrtime) : spec_float :=
  SFdiv 53 1024
    (SFadd 53 1024
       (SFmul 53 1024
          (SFsub 53 1024 (Double.to_spec (secs e)) (Double.to_spec (secs s)))
          (Double.to_spec NS_PER_SEC))
       (SFsub 53 1024 (Double.to_spec (nanos e)) (Double.to_spec (nanos s))))
    (Double.to_spec MS_PER_NS).

End Rounded.

(** *** Reporting *)

(** [clearTimeout(h)] *)
Definition clearTimeout (h : nat) (w : World.t) : World.t :=
  World.with_timers (delete h (World.timers w)) w.

(** [{...request, ...response, ...timing, ...extra}]: a later spread wins,
    and the union of maps prefers its left operand. *)
Definition spread (request response timing extra : gmap string value)
    : gmap string value :=
  extra ∪ (timing ∪ (response ∪ request)).

Definition triggerMetrics (extraMetrics : gmap string value) (w : World.t)
    : World.t :=
  let w :=
    match Ctx.noResponseEndTimer (World.self w) with
    | Some h => clearTimeout h w
    | None => w
    end in
  let this := World.self w in
  if Ctx.metricsTriggered this then w
  else
    match getRequestMetrics this with
    | None => World.throw w
    | Some req =>
        let metrics :=
          spread req (getResponseMetrics this) (getTimingMetrics this)
                 extraMetrics in
        match Ctx.metricsCallback this with
        | None => World.throw w
        | Some f =>
            let w :=
              World.with_calls
                (World.calls w ++ [MkCall f metrics (World.timers w)]) w in
            World.this (Ctx.with_metricsTriggered true) w
        end
    end.

Definition of_size (n : option num) : value :=
  match n with
  | Some n => of_num n
  | None => VUndef
  end.

Definition onEnd (now : hrtime) (w : World.t) : World.t :=
  let w := World.mark "endAt" now w in
  let this := World.self w in
  triggerMetrics
    (list_to_map
       [ ("requestBodySize", of_size (Ctx.requestBodySize this));
         ("responseBodySize", of_size (Ctx.responseSize this));
         ("serverRequestId", of_str (Ctx.serverRequestId this)) ])
    w.

Definition onError (now : hrtime) (err : Err.t) (w : World.t) : World.t :=
  let w := World.mark "errorAt" now w in
  triggerMetrics
    (list_to_map
       [ ("error", VBool true);
         ("errorMessage", Err.message err);
         ("errorCode", Err.code err) ])
    w.

Definition onTimeout (now : hrtime) (w : World.t) : World.t :=
  let w := World.mark "errorAt" now w in
  triggerMetrics
    (list_to_map
       [ ("error", VBool true);
         ("errorMessage", VStr "Connection timed out");
         ("errorCode", VNum (inject_Z 110)) ])
    w.

(** *** Observers *)

(** [n += length] on a counter that may still be undefined. Byte counts
    stay far below 2^53, where the sum of two doubles is the exact one. *)
Definition add_size (n : option num) (length : Z) : option num :=
  match n with
  | Some (Num z) => Some (Num (z + length))
  | _ => Some NaN
  end.

(** The timer's callback is [console.log(...); this.onEnd()]; it is run by
    the [TimerFire] event below. [deadline] is [process.env.__OW_DEADLINE]
    and [dateNow] is [Date.now()]. *)
Definition startNoResponseEndTimer (deadline : option string) (dateNow : Z)
    (w : World.t) : World.t :=
  let waitTime :=
    match sor deadline None with
    | Some d =>
        Double.sub (Double.sub (toNumber d) (Double.of_Z dateNow))
                   (Double.of_Z 10000)
    | None => Double.of_Z (5 * 60 * 1000)
    end in
  let h := World.nextTimer w in
  let w := World.with_timers (<[h := waitTime]> (World.timers w)) w in
  let w := World.with_nextTimer (S h) w in
  World.this (Ctx.with_noResponseEndTimer (Some h)) w.

Definition onResponse (response : Res.t) (deadline : option string)
    (dateNow : Z) (w : World.t) : World.t :=
  let w := World.this (Ctx.with_response (Some response)) w in
  let w :=
    World.this
      (Ctx.with_serverRequestId
         (sor (Res.headers response !! "x-request-id")
              (Res.headers response !! "x-correlation-id"))) w in
  let w :=
    World.this
      (Ctx.with_responseSize
         (match Res.headers response !! "content-length" with
          | Some s => Some (parseInt s 10)
          | None => None
          end)) w in
  let w :=
    if isNaN (of_size (Ctx.responseSize (World.self w)))
    then
      World.with_resDataListener true
        (World.this (Ctx.with_responseSize (Some (Num 0))) w)
    else w in
  let w := World.with_resEndListener true w in
  startNoResponseEndTimer deadline dateNow w.

Definition onSocket (now : hrtime) (w : World.t) : World.t :=
  let w := World.mark "socketAt" now w in
  World.with_sockDataOnce true (World.with_sockListeners true w).

Definition trackRequestBody (w : World.t) : World.t :=
  World.with_writeWrapped true
    (World.this (Ctx.with_requestBodySize (Some (Num 0))) w).

Definition onRequest (w : World.t) : World.t :=
  let w := trackRequestBody w in
  World.with_reqErrorOnce true (World.with_reqListeners true w).

(** *** Events *)

Inductive Event :=
| Write (chunkLength : option Z)
| ReqSocket (now : hrtime)
| SockLookup (now : hrtime)
| SockConnect (now : hrtime) (localAddress remoteAddress : option string)
| SockSecureConnect (now : hrtime)
| SockData (now : hrtime)
| ReqFinish (now : hrtime)
| ReqResponse (response : Res.t) (deadline : option string) (dateNow : Z)
| ResData (chunkLength : Z)
| ResEnd (now : hrtime)
| ReqError (now : hrtime) (err : Err.t)
| ReqTimeout (now : hrtime)
| TimerFire (h : nat) (now : hrtime).

(** The platform delivers an event to the listeners registered for it; the
    bodies are those of the listeners in [trackRequestBody], [onRequest],
    [onSocket], [onResponse] and [startNoResponseEndTimer]. [now] is what
    [process.hrtime()] returns inside the listener. *)
Definition step (w : World.t) (e : Event) : World.t :=
  match e with
  | Write chunkLength =>
      if World.writeWrapped w then
        match chunkLength with
        | Some n =>
            if n =? 0 then w
            else
              World.this
                (fun c =>
                   Ctx.with_requestBodySize
                     (add_size (Ctx.requestBodySize c) n) c) w
        | None => w
        end
      else w
  | ReqSocket now => if World.reqListeners w then onSocket now w else w
  | SockLookup now =>
      if World.sockListeners w then World.mark "dnsLookupAt" now w else w
  | SockConnect now localAddress remoteAddress =>
      if World.sockListeners w then
        let w := World.mark "tcpConnectionAt" now w in
        let w :=
          World.this
            (fun c =>
               Ctx.with_timings (delete "sentRequestAt" (Ctx.timings c)) c)
            w in
        let w := World.this (Ctx.with_localAddress localAddress) w in
        World.this (Ctx.with_remoteAddress remoteAddress) w
      else w
  | SockSecureConnect now =>
      if World.sockListeners w then World.mark "tlsHandshakeAt" now w else w
  | SockData now =>
      if World.sockDataOnce w
      then World.mark "firstByteAt" now (World.with_sockDataOnce false w)
      else w
  | ReqFinish now =>
      if World.reqListeners w then World.mark "sentRequestAt" now w else w
  | ReqResponse response deadline dateNow =>
      if World.reqListeners w then onResponse response deadline dateNow w
      else w
  | ResData chunkLength =>
      if World.resDataListener w then
        World.this
          (fun c =>
             Ctx.with_responseSize
               (add_size (Ctx.responseSize c) chunkLength) c) w
      else w
  | ResEnd now => if World.resEndListener w then onEnd now w else w
  | ReqError now err =>
      if World.reqErrorOnce w
      then onError now err (World.with_reqErrorOnce false w)
      else w
  | ReqTimeout now => if World.reqListeners w then onTimeout now w else w
  | TimerFire h now =>
      match World.timers w !! h with
      | Some waitTime =>
          let w := World.with_timers (delete h (World.timers w)) w in
          let w := World.with_console (World.console w ++ [waitTime]) w in
          onEnd now w
      | None => w
      end
  end.

Definition run (w : World.t) (events : list Event) : World.t :=
  fold_left step events w.

(** *** The instrumented [request] function *)

Definition ignoreRequest (USER_AGENT : string) (this : Ctx.t) : option bool :=
  match Ctx.request this with
  | None => None
  | Some request =>
      let ua := Req.getHeader request "User-Agent" in
      let truthy :=
        match ua with
        | HUndef => false
        | HStr s => str_truthy s
        | HNum z => negb (z =? 0)
        | HArr _ => true
        end in
      if truthy then
        let ua :=
          match ua with
          | HArr (first :: _) => HStr first
          | _ => ua
          end in
        match ua with
        | HStr s => Some (String.eqb s USER_AGENT)
        | _ => Some false
        end
      else Some false
  end.

(** [None] when [new URL] or the original request function throws. *)
Definition getRequest (parseURL : string -> option Url.t)
    (USER_AGENT : string) (this : Ctx.t) : option (Req.t * World.t) :=
  match Ctx.args this, Ctx.requestFn this with
  | Some a, Some requestFn =>
      match httpOptions parseURL (input a) (options a) with
      | Some opts =>
          let this := Ctx.with_httpOptions (Some opts) this in
          match requestFn (input a) (options a) (callback a) with
          | Some request =>
              let this := Ctx.with_request (Some request) this in
              let w := World.init this in
              match ignoreRequest USER_AGENT this with
              | Some true => Some (request, w)
              | Some false => Some (request, onRequest w)
              | None => None
              end
          | None => None
          end
      | None => None
      end
  | _, _ => None
  end.

(** The function installed in place of [http.request]; [now] is the clock
    reading taken by the constructor. *)
Definition requestWithMetrics (parseURL : string -> option Url.t)
    (USER_AGENT : string)
    (originalRequestFn : Input -> Arg -> Arg -> option Req.t)
    (metricsCallback : option fn) (now : hrtime)
    (input : Input) (options callback : Arg) : option (Req.t * World.t) :=
  getRequest parseURL USER_AGENT
    (withMetricsCallback metricsCallback
       (withArgs input options callback
          (withRequestFn originalRequestFn (new now)))).

(** ** Traces *)

Definition reported (w : World.t) : bool :=
  Ctx.metricsTriggered (World.self w).

(** The event reaches one of the four reporting listeners in state [w]:
    the response's [end], the request's [error] or [timeout], or the
    callback of a pending timer. *)
Definition terminal (w : World.t) (e : Event) : bool :=
  match e with
  | ResEnd _ => World.resEndListener w
  | ReqError _ _ => World.reqErrorOnce w
  | ReqTimeout _ => World.reqListeners w
  | TimerFire h _ => bool_decide (is_Some (World.timers w !! h))
  | _ => false
  end.

(** Events that neither report nor deliver a response. *)
Definition quiet (e : Event) : bool :=
  match e with
  | ReqResponse _ _ _ | ResEnd _ | ReqError _ _ | ReqTimeout _
  | TimerFire _ _ => false
  | _ => true
  end.

Definition isResponse (e : Event) : bool :=
  match e with
  | ReqResponse _ _ _ => true
  | _ => false
  end.

(** Number of [response] events of a trace. *)
Definition responses (events : list Event) : nat :=
  List.length (List.filter isResponse events).

(** Bytes of the response body streamed by a trace. *)
Fixpoint streamed (events : list Event) : Z :=
  match events with
  | ResData n :: rest => n + streamed rest
  | _ :: rest => streamed rest
  | [] => 0
  end.

(** The elapsed time between two clock readings, as the specification puts
    it: the later instant minus the earlier one, in milliseconds. *)
Definition nanoseconds (t : hrtime) : Z := secs t * 1000000000 + nanos t.

Definition elapsed_ms (a b : hrtime) : Q :=
  Qmake (nanoseconds b - nanoseconds a) 1000000.

(** What [process.hrtime()] returns: whole seconds that a double holds
    exactly, and the nanoseconds left over. *)
Definition reading (t : hrtime) : Prop :=
  0 <= secs t <= 2 ^ 53 /\ 0 <= nanos t < 1000000000.

(** Readings taken one after the other: the clock does not run backwards
    from one to the next. *)
Fixpoint clockwise (l : list hrtime) : Prop :=
  match l with
  | a :: (b :: _) as rest => nanoseconds a <= nanoseconds b /\ clockwise rest
  | _ => True
  end.

(** The fields no handler assigns. *)
Definition static (w : World.t) :=
  (Ctx.httpOptions (World.self w), Ctx.request (World.self w),
   Ctx.metricsCallback (World.self w)).

(** The report can be assembled and delivered: [this.httpOptions],
    [this.request] and [this.metricsCallback] are set. *)
Definition ready (w : World.t) : Prop :=
  is_Some (getRequestMetrics (World.self w)) /\
  is_Some (Ctx.metricsCallback (World.self w)).

(** The first statement of [triggerMetrics]: the timer held in
    [this.noResponseEndTimer], if any, is cleared. *)
Definition cleared (w : World.t) : World.t :=
  match Ctx.noResponseEndTimer (World.self w) with
  | Some h => clearTimeout h w
  | None => w
  end.

(** As many callback invocations as the [metricsTriggered] latch says. *)
Definition once (w : World.t) : Prop :=
  List.length (World.calls w) = if reported w then 1%nat else 0%nat.

(** Events whose listener writes the [errorAt] slot. *)
Definition isError (e : Event) : bool :=
  match e with
  | ReqError _ _ | ReqTimeout _ => true
  | _ => false
  end.

(** Events whose listener writes the [endAt] slot. *)
Definition isEnd (e : Event) : bool :=
  match e with
  | ResEnd _ | TimerFire _ _ => true
  | _ => false
  end.

(** [this.timings[name]] *)
Definition slot (w : World.t) (name : string) : option hrtime :=
  Ctx.timings (World.self w) !! name.

(** Every pending timer is the one [this.noResponseEndTimer] holds. *)
Definition holds_timers (w : World.t) : Prop :=
  forall h, is_Some (World.timers w !! h) ->
            Ctx.noResponseEndTimer (World.self w) = Some h.

(** No timer was pending at any invocation of the callback. *)
Definition calls_clear (w : World.t) : Prop :=
  Forall (fun c => pending c = ∅) (World.calls w).

Definition requestKeys : list string :=
  ["protocol"; "host"; "port"; "path"; "url"; "method"; "domain"].

(** What [onEnd] hands to the callback when it is the first to report. *)
Definition endReport (now : hrtime) (w : World.t)
    (rm : gmap string value) : gmap string value :=
  let this := World.self (World.mark "endAt" now w) in
  spread rm (getResponseMetrics this) (getTimingMetrics this)
    (list_to_map
       [ ("requestBodySize", of_size (Ctx.requestBodySize this));
         ("responseBodySize", of_size (Ctx.responseSize this));
         ("serverRequestId", of_str (Ctx.serverRequestId this)) ]).

(** What a quiet event leaves alone. *)
Definition frame (w : World.t) :=
  (World.calls w, reported w, World.timers w,
   Ctx.noResponseEndTimer (World.self w), World.reqListeners w,
   World.resEndListener w, World.resDataListener w,
   Ctx.response (World.self w)).

(** The size [onResponse] and the data listener arrive at for a response
    whose body is streamed by [mid]: the parsed [content-length] when
    [parseInt] yields a number, the bytes counted otherwise. *)
Definition bodySize (res : Res.t) (mid : list Event) : Z :=
  match Res.headers res !! "content-length" with
  | Some s =>
      match parseInt s 10 with
      | Num z => z
      | NaN => streamed mid
      end
  | None => streamed mid
  end.

(** [hostname] without the brackets of an IPv6 literal, as [urlToOptions]
    stores it. *)
Definition unbracket (hostname : string) : string :=
  if startsWith "[" hostname then slice_1_m1 hostname else hostname.







(** No listener is registered and no timer is pending. *)
Definition unobserved (w : World.t) : Prop :=
  World.writeWrapped w = false /\ World.reqListeners w = false /\
  World.reqErrorOnce w = false /\ World.sockListeners w = false /\
  World.sockDataOnce w = false /\ World.resDataListener w = false /\
  World.resEndListener w = false /\ World.timers w = ∅.

(** ** A concrete request

    One https request to [https://example.com/api], with the values used to
    instantiate the statements below. *)

Module Scenario.

Definition USER_AGENT : string := "metrics-sink".

Definition apiURL : Url.t :=
  Url.Make "https:" "example.com" "" "" "/api" "https://example.com/api"
    "" "" "".

(** [new URL("http://example.com:0/x")]: port 0 is not the default port,
    so the parser keeps it. *)
Definition portZeroURL : Url.t :=
  Url.Make "http:" "example.com" "" "" "/x" "http://example.com:0/x"
    "0" "" "".

Definition parseURL (s : string) : option Url.t :=
  if String.eqb s "https://example.com/api" then Some apiURL
  else if String.eqb s "http://example.com:0/x" then Some portZeroURL
  else None.

Definition request : Req.t := Req.Make (Some "GET") (fun _ => HUndef).

(** A request of the metrics sink itself. *)
Definition sinkRequest : Req.t :=
  Req.Make (Some "POST")
    (fun name =>
       if String.eqb name "User-Agent" then HStr USER_AGENT else HUndef).

Definition httpRequest (_ : Input) (_ _ : Arg) : option Req.t :=
  Some request.

Definition sinkHttpRequest (_ : Input) (_ _ : Arg) : option Req.t :=
  Some sinkRequest.

Definition startAt : hrtime := HR 0 0.

Definition started : option (Req.t * World.t) :=
  requestWithMetrics parseURL USER_AGENT httpRequest (Some (Extern 1))
    startAt (InStr "https://example.com/api") ArgUndef ArgUndef.

(** The state [started] leaves behind. *)
Definition world : World.t :=
  onRequest
    (World.init
       (Ctx.with_request (Some request)
          (Ctx.with_httpOptions (Some (urlToOptions apiURL))
             (withMetricsCallback (Some (Extern 1))
                (withArgs (InStr "https://example.com/api") ArgUndef
                   ArgUndef (withRequestFn httpRequest (new startAt))))))).

Definition response : Res.t :=
  Res.Make 200 "OK"
    (list_to_map [("content-length", "42"); ("content-type", "text/plain")]).

(** A response whose size header has a numeric prefix only. *)
Definition oddResponse : Res.t :=
  Res.Make 200 "OK" (list_to_map [("content-length", "12abc")]).

Definition refused : Err.t :=
  Err.Make (VStr "connect ECONNREFUSED") (VStr "ECONNREFUSED").

End Scenario.

(** ** Further trace functions *)

(** Bytes of the request body passed to [request.write] by a trace. *)
Fixpoint written (events : list Event) : Z :=
  match events with
  | Write (Some n) :: rest => n + written rest
  | _ :: rest => written rest
  | [] => 0
  end.

(** What the listener of an event, when it is registered, does to
    [this.timings]. *)
Definition effect (e : Event) (tm : gmap string hrtime)
    : gmap string hrtime :=
  match e with
  | ReqSocket now => <["socketAt" := now]> tm
  | SockLookup now => <["dnsLookupAt" := now]> tm
  | SockConnect now _ _ =>
      delete "sentRequestAt" (<["tcpConnectionAt" := now]> tm)
  | SockSecureConnect now => <["tlsHandshakeAt" := now]> tm
  | SockData now => <["firstByteAt" := now]> tm
  | ReqFinish now => <["sentRequestAt" := now]> tm
  | ResEnd now | TimerFire _ now => <["endAt" := now]> tm
  | ReqError now _ | ReqTimeout now => <["errorAt" := now]> tm
  | Write _ | ReqResponse _ _ _ | ResData _ => tm
  end.

(** The keys a terminal handler passes to [triggerMetrics]. *)
Definition extraKeys : list string :=
  ["requestBodySize"; "responseBodySize"; "serverRequestId";
   "error"; "errorMessage"; "errorCode"].

(** The clock reading an event's listener takes, if it takes one. *)
Definition instant (e : Event) : option hrtime :=
  match e with
  | ReqSocket now | SockLookup now | SockConnect now _ _
  | SockSecureConnect now | SockData now | ReqFinish now | ResEnd now
  | ReqError now _ | ReqTimeout now | TimerFire _ now => Some now
  | Write _ | ReqResponse _ _ _ | ResData _ => None
  end.

(** The clock of a trace never runs backwards from [last] (nanoseconds). *)
Fixpoint monotone (last : Z) (events : list Event) : Prop :=
  match events with
  | [] => True
  | e :: rest =>
      match instant e with
      | Some now =>
          last <= nanoseconds now /\ monotone (nanoseconds now) rest
      | None => monotone last rest
      end
  end.

(** No [secureConnect] is delivered once a [finish] has been. *)
Fixpoint handshake_before_finish (finished : bool) (events : list Event)
    : bool :=
  match events with
  | [] => true
  | ReqFinish _ :: rest => handshake_before_finish true rest
  | SockSecureConnect _ :: rest =>
      negb finished && handshake_before_finish finished rest
  | _ :: rest => handshake_before_finish finished rest
  end.

Definition isFinish (e : Event) : bool :=
  match e with
  | ReqFinish _ => true
  | _ => false
  end.

Definition isSocket (e : Event) : bool :=
  match e with
  | ReqSocket _ => true
  | _ => false
  end.

(** A reported duration is undefined or not negative. *)
Definition not_negative (v : option value) : Prop :=
  v = Some VUndef \/ exists q, v = Some (VNum q) /\ (0 <= q)%Q.

(** The latest clock reading once an event has been delivered. *)
Definition after_instant (last : Z) (e : Event) : Z :=
  match instant e with
  | Some now => nanoseconds now
  | None => last
  end.

(** What keeps [durationSend] from being negative: the connect and
    handshake readings are not later than [last], no request-sent reading
    exists before a finish signal, and a request-sent reading is not
    earlier than the reading [durationSend] is measured from. *)
Definition send_inv (tm : gmap string hrtime) (last : Z) (finished : bool)
    : Prop :=
  (forall b, tm !! "tlsHandshakeAt" = Some b -> nanoseconds b <= last) /\
  (forall b, tm !! "tcpConnectionAt" = Some b -> nanoseconds b <= last) /\
  (finished = false -> tm !! "sentRequestAt" = None) /\
  (forall s b,
     tm !! "sentRequestAt" = Some s ->
     hor (tm !! "tlsHandshakeAt") (tm !! "tcpConnectionAt") = Some b ->
     nanoseconds b <= nanoseconds s).

(** The header marks a request of the sink: it is the constant itself, or
    a list of values that starts with it. *)
Definition marksSink (USER_AGENT : string) (h : header) : Prop :=
  (USER_AGENT <> "" /\ h = HStr USER_AGENT) \/
  exists rest, h = HArr (USER_AGENT :: rest).

(** The number a decimal numeral denotes, read digit by digit after
    [acc]. *)
Fixpoint uval (d : Decimal.uint) (acc : Z) : Z :=
  match d with
  | Decimal.Nil => acc
  | Decimal.D0 d => uval d (acc * 10 + 0)
  | Decimal.D1 d => uval d (acc * 10 + 1)
  | Decimal.D2 d => uval d (acc * 10 + 2)
  | Decimal.D3 d => uval d (acc * 10 + 3)
  | Decimal.D4 d => uval d (acc * 10 + 4)
  | Decimal.D5 d => uval d (acc * 10 + 5)
  | Decimal.D6 d => uval d (acc * 10 + 6)
  | Decimal.D7 d => uval d (acc * 10 + 7)
  | Decimal.D8 d => uval d (acc * 10 + 8)
  | Decimal.D9 d => uval d (acc * 10 + 9)
  end.

(** A host label: no dot in it. *)
Fixpoint dotfree (s : string) : bool :=
  match s with
  | String c r => negb (Ascii.eqb c ".") && dotfree r
  | EmptyString => true
  end.

(** The delay [startNoResponseEndTimer] computes. *)
Definition delayOf (deadline : option string) (dateNow : Z) : Double.t :=
  match deadline with
  | Some (String c r) =>
      Double.sub (Double.sub (toNumber (String c r)) (Double.of_Z dateNow))
                 (Double.of_Z 10000)
  | _ => Double.Fin 300000
  end.

(** A call added by [triggerMetrics] to the calls of [w0]: made from the
    request metrics, the state [this] and a record of extra keys. *)
Definition added (w0 w' : World.t) (this : Ctx.t) : Prop :=
  exists f rm extra p,
    World.calls w' =
      (World.calls w0
       ++ [MkCall f
             (spread rm (getResponseMetrics this) (getTimingMetrics this)
                extra) p])%list /\
    getRequestMetrics this = Some rm /\
    (forall k, k ∉ extraKeys -> extra !! k = None).

(** Each phase duration of [getTimingMetrics] with the milestone that
    closes it. *)
Definition phases : list (string * string) :=
  [("durationBlocked", "socketAt"); ("durationDNS", "dnsLookupAt");
   ("durationConnect", "tcpConnectionAt"); ("durationSSL", "tlsHandshakeAt");
   ("durationSend", "sentRequestAt"); ("durationWait", "firstByteAt");
   ("durationReceive", "endAt")].

(** The milestone an event's listener records. *)
Definition milestone (e : Event) : option string :=
  match e with
  | ReqSocket _ => Some "socketAt"
  | SockLookup _ => Some "dnsLookupAt"
  | SockConnect _ _ _ => Some "tcpConnectionAt"
  | SockSecureConnect _ => Some "tlsHandshakeAt"
  | SockData _ => Some "firstByteAt"
  | ReqFinish _ => Some "sentRequestAt"
  | ResEnd _ | TimerFire _ _ => Some "endAt"
  | ReqError _ _ | ReqTimeout _ => Some "errorAt"
  | Write _ | ReqResponse _ _ _ | ResData _ => None
  end.

Definition isConnect (e : Event) : bool :=
  match e with
  | SockConnect _ _ _ => true
  | _ => false
  end.

(** The response end is listened for only once a response is held. *)
Definition holds_response (w : World.t) : Prop :=
  World.resEndListener w = true ->
  exists res, Ctx.response (World.self w) = Some res.

(** * Properties *)

Arguments getRequestMetrics : simpl never.
Arguments getResponseMetrics : simpl never.
Arguments getTimingMetrics : simpl never.
Arguments spread : simpl never.
Arguments triggerMetrics : simpl never.
Arguments onEnd : simpl never.
Arguments onError : simpl never.
Arguments onTimeout : simpl never.
Arguments onResponse : simpl never.

(** ** The duration calculator *)

Lemma getDurationInMs_unset_l b : getDurationInMs None b = VUndef.
Proof. reflexivity. Qed.

Lemma getDurationInMs_unset_r a : getDurationInMs a None = VUndef.
Proof. destruct a; reflexivity. Qed.

Lemma getDurationInMs_elapsed a b :
  exists q, getDurationInMs (Some a) (Some b) = VNum q /\ Qeq q (elapsed_ms a b).
Proof.
  eexists; split; [reflexivity|].
  unfold elapsed_ms, nanoseconds, NS_PER_SEC, MS_PER_NS, Qeq, Qdiv, Qmult,
    Qinv, inject_Z.
  simpl. lia.
Qed.

(** ** Rounding *)

Section Rounding.
Import Double.

Lemma rne_exact n d : 0 < d -> n mod d = 0 -> rne n d = n / d.
Proof.
  intros Hd H. unfold rne. rewrite H.
  destruct (2 * 0 <? d) eqn:E; [reflexivity|]. apply Z.ltb_ge in E. lia.
Qed.

Lemma rne_half n d : 0 < d -> 2 * Z.abs (rne n d * d - n) <= d.
Proof.
  intros Hd. unfold rne.
  pose proof (Z.div_mod n d ltac:(lia)) as E.
  pose proof (Z.mod_pos_bound n d Hd) as B.
  destruct (2 * (n mod d) <? d) eqn:E1; [apply Z.ltb_lt in E1; nia|].
  apply Z.ltb_ge in E1.
  destruct (d <? 2 * (n mod d)) eqn:E2; [apply Z.ltb_lt in E2; nia|].
  apply Z.ltb_ge in E2.
  destruct (Z.even (n / d)); nia.
Qed.

Lemma rne_nonneg n d : 0 <= n -> 0 < d -> 0 <= rne n d.
Proof.
  intros Hn Hd. unfold rne.
  pose proof (Z.div_pos n d Hn Hd).
  repeat destruct (_ <? _); try destruct (Z.even _); lia.
Qed.

Lemma ilog2_lower n d :
  0 < n -> 0 < d ->
  d * 2 ^ Z.max 0 (ilog2 n d) <= n * 2 ^ Z.max 0 (- ilog2 n d).
Proof.
  intros Hn Hd. unfold ilog2.
  destruct (Z.log2_spec n Hn) as [Ha1 Ha2].
  destruct (Z.log2_spec d Hd) as [Hb1 Hb2].
  pose proof (Z.log2_nonneg n) as Ha0. pose proof (Z.log2_nonneg d) as Hb0.
  set (a := Z.log2 n) in *. set (b := Z.log2 d) in *.
  destruct (d * 2 ^ Z.max 0 (a - b) <=? n * 2 ^ Z.max 0 (- (a - b))) eqn:E;
    [apply Z.leb_le in E; exact E|].
  clear E.
  destruct (Z_le_gt_dec 1 (a - b)) as [H|H].
  - replace (Z.max 0 (a - b - 1)) with (a - b - 1) by lia.
    replace (Z.max 0 (- (a - b - 1))) with 0 by lia.
    rewrite Z.pow_0_r, Z.mul_1_r.
    assert (2 ^ a = 2 ^ (b + 1) * 2 ^ (a - b - 1))
      by (rewrite <- Z.pow_add_r by lia; f_equal; lia).
    assert (0 < 2 ^ (a - b - 1)) by (apply Z.pow_pos_nonneg; lia).
    nia.
  - replace (Z.max 0 (a - b - 1)) with 0 by lia.
    replace (Z.max 0 (- (a - b - 1))) with (b + 1 - a) by lia.
    rewrite Z.pow_0_r, Z.mul_1_r.
    assert (2 ^ (b + 1) = 2 ^ a * 2 ^ (b + 1 - a))
      by (rewrite <- Z.pow_add_r by lia; f_equal; lia).
    assert (0 < 2 ^ (b + 1 - a)) by (apply Z.pow_pos_nonneg; lia).
    nia.
Qed.

Lemma ilog2_int n : 0 < n -> ilog2 n 1 = Z.log2 n.
Proof.
  intros Hn. unfold ilog2. change (Z.log2 1) with 0. rewrite Z.sub_0_r.
  pose proof (Z.log2_nonneg n).
  replace (Z.max 0 (Z.log2 n)) with (Z.log2 n) by lia.
  replace (Z.max 0 (- Z.log2 n)) with 0 by lia.
  destruct (Z.log2_spec n Hn) as [H1 _].
  destruct (1 * 2 ^ Z.log2 n <=? n * 2 ^ 0) eqn:E; [reflexivity|].
  apply Z.leb_gt in E. lia.
Qed.

Lemma Qred_inject_Z z : Qred (inject_Z z) = inject_Z z.
Proof.
  pose proof (gcd_Qred (inject_Z z)) as G.
  pose proof (Qred_correct (inject_Z z)) as C.
  destruct (Qred (inject_Z z)) as [a b]. unfold Qeq, inject_Z in *.
  simpl in *. rewrite Z.mul_1_r in C. subst a.
  rewrite Z.mul_comm, Z.gcd_comm, Z.gcd_mul_diag_l in G by lia.
  injection G as ->. rewrite ?Z.mul_1_l, ?Z.mul_1_r. reflexivity.
Qed.

Lemma round_compat x y : x == y -> round x = round y.
Proof. intros H. unfold round. rewrite (Qred_complete x y H). reflexivity. Qed.

(** A value [z * a / a] in lowest terms. *)
Lemma scale_cancel m e z :
  m * 2 ^ Z.max 0 e = z * 2 ^ Z.max 0 (- e) -> scale m e = inject_Z z.
Proof.
  intros H. unfold scale. rewrite H, <- Qred_inject_Z.
  apply Qred_complete. unfold Qeq, inject_Z. simpl.
  assert (0 < 2 ^ Z.max 0 (- e)) by (apply Z.pow_pos_nonneg; lia).
  rewrite Z2Pos.id by assumption. lia.
Qed.

(** An integer of at most 53 bits is a double. *)
Lemma round_Z z :
  Z.abs z <= 2 ^ 53 -> round (inject_Z z) = Fin (inject_Z z).
Proof.
  intros Hz. unfold round. rewrite Qred_inject_Z. simpl Qnum. simpl Qden.
  destruct (z =? 0) eqn:E0; [apply Z.eqb_eq in E0; subst; reflexivity|].
  apply Z.eqb_neq in E0.
  assert (Hn : 0 < Z.abs z) by lia.
  unfold roundp. rewrite ilog2_int by exact Hn.
  set (n := Z.abs z) in *.
  pose proof (Z.log2_nonneg n) as Ha0.
  destruct (Z.log2_spec n Hn) as [Ha1 Ha2].
  assert (Ha : Z.log2 n <= 53).
  { change 53 with (Z.log2 (2 ^ 53)). apply Z.log2_le_mono, Hz. }
  set (a := Z.log2 n) in *.
  replace (Z.max (a - 52) (-1074)) with (a - 52) by lia.
  set (e := a - 52).
  set (A := 2 ^ Z.max 0 (- e)). set (B := 2 ^ Z.max 0 e).
  assert (HA : 0 < A) by (apply Z.pow_pos_nonneg; lia).
  assert (HB : 0 < B) by (apply Z.pow_pos_nonneg; lia).
  assert (Hm : rne (n * A) (1 * B) * B = n * A).
  { destruct (Z.eq_dec a 53) as [E|E].
    - assert (n = 2 ^ 53) by (rewrite E in Ha1; lia).
      subst A B e. rewrite E, H. vm_compute. reflexivity.
    - assert (B = 1) by (subst B e; replace (Z.max 0 (a - 52)) with 0 by lia;
                          reflexivity).
      rewrite H, rne_exact by (rewrite ?Zmod_1_r; lia).
      rewrite Z.div_1_r. lia. }
  set (m := rne (n * A) (1 * B)) in *.
  assert (Hlt : n * A < 2 ^ 1024).
  { assert (A <= 2 ^ 52).
    { subst A. apply Z.pow_le_mono_r; lia. }
    assert (2 ^ 53 * 2 ^ 52 < 2 ^ 1024) by (vm_compute; reflexivity).
    nia. }
  destruct (2 ^ 1024 <=? m * B) eqn:Eo; [apply Z.leb_le in Eo; lia|].
  f_equal. apply scale_cancel. fold A B.
  destruct (z <? 0) eqn:Es.
  - apply Z.ltb_lt in Es. subst n. rewrite Z.abs_neq in Hm by lia. lia.
  - apply Z.ltb_ge in Es. subst n. rewrite Z.abs_eq in Hm by lia. lia.
Qed.

Lemma ilog2_upper n d :
  0 < n -> 0 < d ->
  n * 2 ^ Z.max 0 (- (ilog2 n d + 1)) < d * 2 ^ Z.max 0 (ilog2 n d + 1).
Proof.
  intros Hn Hd. unfold ilog2.
  destruct (Z.log2_spec n Hn) as [Ha1 Ha2].
  destruct (Z.log2_spec d Hd) as [Hb1 Hb2].
  pose proof (Z.log2_nonneg n) as Ha0. pose proof (Z.log2_nonneg d) as Hb0.
  set (a := Z.log2 n) in *. set (b := Z.log2 d) in *.
  destruct (d * 2 ^ Z.max 0 (a - b) <=? n * 2 ^ Z.max 0 (- (a - b))) eqn:E.
  - clear E. destruct (Z_le_gt_dec 0 (a - b)) as [H|H].
    + replace (Z.max 0 (a - b + 1)) with (a - b + 1) by lia.
      replace (Z.max 0 (- (a - b + 1))) with 0 by lia.
      rewrite Z.pow_0_r, Z.mul_1_r.
      assert (2 ^ Z.succ a = 2 ^ b * 2 ^ (a - b + 1))
        by (rewrite <- Z.pow_add_r by lia; f_equal; lia).
      assert (0 < 2 ^ (a - b + 1)) by (apply Z.pow_pos_nonneg; lia).
      nia.
    + replace (Z.max 0 (a - b + 1)) with 0 by lia.
      replace (Z.max 0 (- (a - b + 1))) with (b - a - 1) by lia.
      rewrite Z.pow_0_r, Z.mul_1_r.
      assert (2 ^ b = 2 ^ Z.succ a * 2 ^ (b - a - 1))
        by (rewrite <- Z.pow_add_r by lia; f_equal; lia).
      assert (0 < 2 ^ (b - a - 1)) by (apply Z.pow_pos_nonneg; lia).
      nia.
  - apply Z.leb_gt in E.
    replace (a - b - 1 + 1) with (a - b) by lia. exact E.
Qed.

(** Rounding in the normal range: the result is [m * 2 ^ e], within half
    a unit of the last place, which is at most 2^-53 of the value. *)
Lemma roundp_normal s n d :
  0 < n -> 0 < d -> d <= n * 2 ^ 1022 -> n < d * 2 ^ 1023 ->
  exists m e,
    roundp s n d = Fin (scale (if s then - m else m) e) /\
    2 ^ 53 * Z.abs (m * (d * 2 ^ Z.max 0 e) - n * 2 ^ Z.max 0 (- e))
      <= n * 2 ^ Z.max 0 (- e).
Proof.
  intros Hn Hd Hlo Hhi. unfold roundp.
  pose proof (ilog2_lower n d Hn Hd) as Hl.
  pose proof (ilog2_upper n d Hn Hd) as Hu.
  set (l := ilog2 n d) in *.
  assert (Hl1 : -1022 <= l).
  { destruct (Z_le_gt_dec (-1022) l) as [H|H]; [exact H|exfalso].
    replace (Z.max 0 (l + 1)) with 0 in Hu by lia.
    replace (Z.max 0 (- (l + 1))) with (- l - 1) in Hu by lia.
    rewrite Z.pow_0_r, Z.mul_1_r in Hu.
    assert (2 ^ 1022 <= 2 ^ (- l - 1)) by (apply Z.pow_le_mono_r; lia).
    nia. }
  assert (Hl2 : l <= 1022).
  { destruct (Z_le_gt_dec l 1022) as [H|H]; [exact H|exfalso].
    replace (Z.max 0 l) with l in Hl by lia.
    replace (Z.max 0 (- l)) with 0 in Hl by lia.
    rewrite Z.pow_0_r, Z.mul_1_r in Hl.
    assert (2 ^ 1023 <= 2 ^ l) by (apply Z.pow_le_mono_r; lia).
    nia. }
  replace (Z.max (l - 52) (-1074)) with (l - 52) by lia.
  set (e := l - 52).
  set (A := 2 ^ Z.max 0 (- e)). set (B := 2 ^ Z.max 0 e).
  assert (HA : 0 < A) by (apply Z.pow_pos_nonneg; lia).
  assert (HB : 0 < B) by (apply Z.pow_pos_nonneg; lia).
  pose proof (rne_half (n * A) (d * B) ltac:(nia)) as Hh.
  set (m := rne (n * A) (d * B)) in *.
  (* d * B * 2^52 <= n * A < d * B * 2^53 *)
  assert (Hlow : d * B * 2 ^ 52 <= n * A).
  { subst A B e.
    destruct (Z_le_gt_dec 52 l) as [H|H].
    - replace (Z.max 0 (l - 52)) with (l - 52) by lia.
      replace (Z.max 0 (- (l - 52))) with 0 by lia.
      replace (Z.max 0 l) with l in Hl by lia.
      replace (Z.max 0 (- l)) with 0 in Hl by lia.
      rewrite Z.pow_0_r, Z.mul_1_r in *.
      rewrite <- Z.mul_assoc, <- Z.pow_add_r by lia.
      replace (l - 52 + 52) with l by lia. exact Hl.
    - replace (Z.max 0 (l - 52)) with 0 by lia.
      replace (Z.max 0 (- (l - 52))) with (52 - l) by lia.
      rewrite Z.pow_0_r, Z.mul_1_r.
      destruct (Z_le_gt_dec 0 l) as [H0|H0].
      + replace (Z.max 0 l) with l in Hl by lia.
        replace (Z.max 0 (- l)) with 0 in Hl by lia.
        rewrite Z.pow_0_r, Z.mul_1_r in Hl.
        assert (2 ^ 52 = 2 ^ l * 2 ^ (52 - l))
          by (rewrite <- Z.pow_add_r by lia; f_equal; lia).
        assert (0 < 2 ^ (52 - l)) by (apply Z.pow_pos_nonneg; lia).
        nia.
      + replace (Z.max 0 l) with 0 in Hl by lia.
        replace (Z.max 0 (- l)) with (- l) in Hl by lia.
        rewrite Z.pow_0_r, Z.mul_1_r in Hl.
        assert (2 ^ (52 - l) = 2 ^ (- l) * 2 ^ 52)
          by (rewrite <- Z.pow_add_r by lia; f_equal; lia).
        nia. }
  assert (Hupp : n * A < d * B * 2 ^ 53).
  { subst A B e.
    destruct (Z_le_gt_dec 52 l) as [H|H].
    - replace (Z.max 0 (l - 52)) with (l - 52) by lia.
      replace (Z.max 0 (- (l - 52))) with 0 by lia.
      replace (Z.max 0 (l + 1)) with (l + 1) in Hu by lia.
      replace (Z.max 0 (- (l + 1))) with 0 in Hu by lia.
      rewrite Z.pow_0_r, Z.mul_1_r in *.
      rewrite <- Z.mul_assoc, <- Z.pow_add_r by lia.
      replace (l - 52 + 53) with (l + 1) by lia. exact Hu.
    - replace (Z.max 0 (l - 52)) with 0 by lia.
      replace (Z.max 0 (- (l - 52))) with (52 - l) by lia.
      rewrite Z.pow_0_r, Z.mul_1_r.
      destruct (Z_le_gt_dec 0 (l + 1)) as [H0|H0].
      + replace (Z.max 0 (l + 1)) with (l + 1) in Hu by lia.
        replace (Z.max 0 (- (l + 1))) with 0 in Hu by lia.
        rewrite Z.pow_0_r, Z.mul_1_r in Hu.
        assert (2 ^ 53 = 2 ^ (l + 1) * 2 ^ (52 - l))
          by (rewrite <- Z.pow_add_r by lia; f_equal; lia).
        assert (0 < 2 ^ (52 - l)) by (apply Z.pow_pos_nonneg; lia).
        nia.
      + replace (Z.max 0 (l + 1)) with 0 in Hu by lia.
        replace (Z.max 0 (- (l + 1))) with (- l - 1) in Hu by lia.
        rewrite Z.pow_0_r, Z.mul_1_r in Hu.
        assert (2 ^ (52 - l) = 2 ^ (- l - 1) * 2 ^ 53)
          by (rewrite <- Z.pow_add_r by lia; f_equal; lia).
        nia. }
  assert (Hm : m <= 2 ^ 53).
  { assert (2 ^ 53 = 9007199254740992) by reflexivity.
    assert (2 ^ 52 = 4503599627370496) by reflexivity.
    assert (0 < d * B) by nia. nia. }
  assert (HBle : B <= 2 ^ 970).
  { subst B e. apply Z.pow_le_mono_r; lia. }
  destruct (2 ^ 1024 <=? m * B) eqn:Eo.
  { apply Z.leb_le in Eo. exfalso.
    assert (2 ^ 53 * 2 ^ 970 < 2 ^ 1024) by (vm_compute; reflexivity).
    nia. }
  exists m, e. split; [reflexivity|]. fold A B.
  assert (2 ^ 53 = 2 * 2 ^ 52) by reflexivity. nia.
Qed.

Lemma scale_value m e :
  scale m e == Qmake (m * 2 ^ Z.max 0 e) (Z.to_pos (2 ^ Z.max 0 (- e))).
Proof. apply Qred_correct. Qed.

(** Rounding a value of the normal range keeps it within 2^-53 of
    itself. *)
Lemma round_error x :
  (1 <= Qabs x * inject_Z (2 ^ 1022))%Q ->
  (Qabs x < inject_Z (2 ^ 1023))%Q ->
  exists r,
    round x = Fin r /\
    (Qabs (r - x) * inject_Z (2 ^ 53) <= Qabs x)%Q.
Proof.
  intros Hlo Hhi. unfold round.
  pose proof (Qred_correct x) as Hx.
  destruct (Qred x) as [a b]. cbn [Qnum Qden].
  rewrite <- Hx in Hlo, Hhi.
  change (Qabs (a # b)) with (Z.abs a # b) in Hlo, Hhi.
  unfold Qle, Qlt, Qmult, inject_Z in Hlo, Hhi. cbn [Qnum Qden] in Hlo, Hhi.
  rewrite ?Pos.mul_1_r, ?Z.mul_1_r, ?Z.mul_1_l in Hlo, Hhi.
  destruct (a =? 0) eqn:E0;
    [apply Z.eqb_eq in E0; subst a; rewrite Z.mul_0_l in Hlo; lia|].
  apply Z.eqb_neq in E0.
  destruct (roundp_normal (a <? 0) (Z.abs a) (Z.pos b))
    as (m & e & Hr & Hm); [lia | lia | lia | lia |].
  rewrite Hr. eexists. split; [reflexivity|].
  rewrite <- Hx, scale_value.
  set (A := 2 ^ Z.max 0 (- e)) in *. set (B := 2 ^ Z.max 0 e) in *.
  assert (HA : 0 < A) by (apply Z.pow_pos_nonneg; lia).
  unfold Qminus, Qplus, Qopp, inject_Z. cbn [Qnum Qden].
  match goal with
  | |- (Qabs (?p # ?q) * ?c <= ?y)%Q =>
      change (Qabs (p # q)) with (Z.abs p # q)
  end.
  change (Qabs (a # b)) with (Z.abs a # b).
  unfold Qle, Qmult. cbn [Qnum Qden].
  rewrite ?Pos.mul_1_r, ?Z.mul_1_r, ?Z.mul_1_l.
  rewrite Pos2Z.inj_mul, Z2Pos.id by exact HA.
  destruct (a <? 0) eqn:Es.
  - apply Z.ltb_lt in Es. rewrite Z.abs_neq in * by lia.
    replace (- m * B * Z.pos b + - a * A)
      with (- (m * (Z.pos b * B) - - a * A)) by ring.
    rewrite Z.abs_opp. nia.
  - apply Z.ltb_ge in Es. rewrite (Z.abs_eq a) in * by lia.
    replace (m * B * Z.pos b + - a * A)
      with (m * (Z.pos b * B) - a * A) by ring.
    nia.
Qed.

End Rounding.

(** ** The duration calculator in double precision *)

Section Durations.
Import Double.

Lemma of_Z_exact z : Z.abs z <= 2 ^ 53 -> of_Z z = Fin (inject_Z z).
Proof. apply round_Z. Qed.

Lemma sub_exact x y :
  Z.abs (x - y) <= 2 ^ 53 ->
  sub (Fin (inject_Z x)) (Fin (inject_Z y)) = Fin (inject_Z (x - y)).
Proof.
  intros H. unfold sub, opp, add.
  rewrite <- (round_Z (x - y)) by exact H.
  apply round_compat. rewrite <- inject_Z_opp, <- inject_Z_plus. reflexivity.
Qed.

Lemma add_exact x y :
  Z.abs (x + y) <= 2 ^ 53 ->
  add (Fin (inject_Z x)) (Fin (inject_Z y)) = Fin (inject_Z (x + y)).
Proof.
  intros H. unfold add. rewrite <- (round_Z (x + y)) by exact H.
  apply round_compat. rewrite <- inject_Z_plus. reflexivity.
Qed.

Lemma mul_exact x y :
  Z.abs (x * y) <= 2 ^ 53 ->
  mul (Fin (inject_Z x)) (Fin (inject_Z y)) = Fin (inject_Z (x * y)).
Proof.
  intros H. unfold mul. rewrite <- (round_Z (x * y)) by exact H.
  apply round_compat. rewrite <- inject_Z_mult. reflexivity.
Qed.

Lemma div_MS_PER_NS x :
  div (Fin (inject_Z x)) (of_Z MS_PER_NS) = round (Qmake x 1000000).
Proof.
  rewrite of_Z_exact by (vm_compute; discriminate).
  unfold div. change (is_zero (inject_Z MS_PER_NS)) with false. cbv iota.
  apply round_compat. unfold MS_PER_NS. symmetry. apply Qmake_Qdiv.
Qed.

Lemma nearestZ_exact z : Z.abs z <= 2 ^ 53 -> nearestZ z = z.
Proof. intros H. unfold nearestZ. rewrite round_Z by exact H. reflexivity. Qed.

(** Readings less than 9007199 seconds apart: every intermediate result
    is an integer of at most 53 bits, and only the division rounds. *)
Lemma getDurationInMs_round a b :
  reading a -> reading b -> Z.abs (secs b - secs a) < 9007199 ->
  Rounded.getDurationInMs (Some a) (Some b) = Some (round (elapsed_ms a b)).
Proof.
  intros [Ha1 Ha2] [Hb1 Hb2] Hs. unfold Rounded.getDurationInMs.
  assert (H53 : 2 ^ 53 = 9007199254740992) by reflexivity.
  rewrite !of_Z_exact by (unfold NS_PER_SEC; lia).
  rewrite !sub_exact by lia.
  rewrite mul_exact by (unfold NS_PER_SEC; lia).
  rewrite add_exact by (unfold NS_PER_SEC; lia).
  rewrite div_MS_PER_NS. f_equal. apply round_compat.
  unfold elapsed_ms, nanoseconds, NS_PER_SEC, Qeq. simpl. lia.
Qed.

(** The rounding of an elapsed time keeps it within 2^-53 of itself. *)
Lemma elapsed_round_error a b :
  Z.abs (nanoseconds b - nanoseconds a) <= 2 ^ 53 ->
  exists q,
    round (elapsed_ms a b) = Fin q /\
    (Qabs (q - elapsed_ms a b) * inject_Z (2 ^ 53)
     <= Qabs (elapsed_ms a b))%Q.
Proof.
  intros H. unfold elapsed_ms. set (n := nanoseconds b - nanoseconds a) in *.
  destruct (Z.eq_dec n 0) as [->|Hn].
  - exists 0%Q. split; [reflexivity|]. vm_compute. discriminate.
  - apply round_error.
    + change (Qabs (n # 1000000)) with (Z.abs n # 1000000).
      unfold Qle, Qmult, inject_Z. cbn [Qnum Qden].
      rewrite ?Pos.mul_1_r, ?Z.mul_1_l.
      assert (1000000 <= 2 ^ 1022) by (vm_compute; discriminate).
      nia.
    + change (Qabs (n # 1000000)) with (Z.abs n # 1000000).
      unfold Qlt, inject_Z. cbn [Qnum Qden].
      assert (2 ^ 53 < 2 ^ 1023) by (vm_compute; reflexivity).
      nia.
Qed.

End Durations.

(** *** Readings further apart *)

Lemma round_error_bounds q x :
  (Qabs (q - x) * inject_Z (2 ^ 53) <= Qabs x)%Q ->
  (- Qabs x <= (q - x) * (9007199254740992 # 1) <= Qabs x)%Q.
Proof.
  intros H. apply Qabs_Qle_condition. rewrite Qabs_Qmult.
  change (Qabs (9007199254740992 # 1)) with (inject_Z (2 ^ 53)). exact H.
Qed.

(** A value between 1 and 2^100 in magnitude is in the normal range. *)
Lemma round_error_mid x :
  (1 <= Qabs x)%Q ->
  (Qabs x <= 1267650600228229401496703205376 # 1)%Q ->
  exists r,
    Double.round x = Double.Fin r /\
    (- Qabs x <= (r - x) * (9007199254740992 # 1) <= Qabs x)%Q.
Proof.
  intros H1 H2.
  destruct (round_error x) as (r & Hr & He).
  - apply Qmult_le_1_compat; [exact H1|].
    unfold Qle, inject_Z; cbn [Qnum Qden]. rewrite !Z.mul_1_r.
    vm_compute. discriminate.
  - eapply Qle_lt_trans; [exact H2|].
    unfold Qlt, inject_Z. cbn [Qnum Qden]. rewrite !Z.mul_1_r.
    vm_compute. reflexivity.
  - exists r. split; [exact Hr|]. apply round_error_bounds, He.
Qed.

Lemma round_mid_pos x :
  (1 <= x)%Q -> (x <= 1267650600228229401496703205376 # 1)%Q ->
  exists r,
    Double.round x = Double.Fin r /\
    (- x <= (r - x) * (9007199254740992 # 1) <= x)%Q.
Proof.
  intros H1 H2. assert (H0 : (0 <= x)%Q) by lra.
  destruct (round_error_mid x) as (r & Hr & He);
    rewrite ?(Qabs_pos x H0); try assumption.
  exists r. split; [exact Hr|]. rewrite (Qabs_pos x H0) in He. exact He.
Qed.

Lemma round_mid_neg x :
  (x <= -1)%Q -> (- (1267650600228229401496703205376 # 1) <= x)%Q ->
  exists r,
    Double.round x = Double.Fin r /\
    (x <= (r - x) * (9007199254740992 # 1) <= - x)%Q.
Proof.
  intros H1 H2. assert (H0 : (x <= 0)%Q) by lra.
  destruct (round_error_mid x) as (r & Hr & He);
    rewrite ?(Qabs_neg x H0); try lra.
  exists r. split; [exact Hr|]. rewrite (Qabs_neg x H0) in He. lra.
Qed.

(** Between any two readings the code computes a number within 2^-51 of
    the exact elapsed time. *)
Lemma getDurationInMs_error a b :
  reading a -> reading b ->
  exists q,
    Rounded.getDurationInMs (Some a) (Some b) = Some (Double.Fin q) /\
    (Qabs (q - elapsed_ms a b) * inject_Z (2 ^ 51)
     <= Qabs (elapsed_ms a b))%Q.
Proof.
  intros Ha Hb.
  assert (H53 : 2 ^ 53 = 9007199254740992) by reflexivity.
  destruct (Z_lt_ge_dec (Z.abs (secs b - secs a)) 9007199) as [Hs|Hs].
  { destruct (elapsed_round_error a b) as (q & Hq & He).
    { destruct Ha as [Ha1 Ha2], Hb as [Hb1 Hb2]. unfold nanoseconds. lia. }
    exists q. rewrite getDurationInMs_round, Hq by assumption.
    split; [reflexivity|].
    eapply Qle_trans; [|exact He].
    apply Qmult_le_compat_nonneg.
    - split; [apply Qabs_nonneg | apply Qle_refl].
    - split; unfold Qle, inject_Z; cbn [Qnum Qden]; rewrite !Z.mul_1_r;
        vm_compute; discriminate. }
  destruct Ha as [Ha1 Ha2], Hb as [Hb1 Hb2].
  unfold Rounded.getDurationInMs.
  rewrite !of_Z_exact by (unfold NS_PER_SEC, MS_PER_NS; lia).
  rewrite !sub_exact by lia.
  set (ds := secs b - secs a) in *. set (dn := nanos b - nanos a) in *.
  unfold Double.mul, Double.add, Double.div.
  assert (Eel : (elapsed_ms a b
                 == (inject_Z ds * inject_Z NS_PER_SEC + inject_Z dn)
                    * (1 # 1000000))%Q).
  { unfold elapsed_ms, nanoseconds, NS_PER_SEC, Qeq, Qmult, Qplus, inject_Z.
    cbn [Qnum Qden]. subst ds dn. lia. }
  assert (Hdn : (- (1000000000 # 1) <= inject_Z dn <= 1000000000 # 1)%Q).
  { split; unfold Qle, inject_Z, Qopp; cbn [Qnum Qden]; lia. }
  assert (HA : (inject_Z ds * inject_Z NS_PER_SEC
                == inject_Z (ds * 1000000000))%Q)
    by (rewrite inject_Z_mult; reflexivity).
  set (A := (inject_Z ds * inject_Z NS_PER_SEC)%Q) in *.
  destruct (Z_le_gt_dec 0 ds) as [Hpos|Hneg].
  - assert (HA1 : (9007199000000000 # 1 <= A)%Q)
      by (rewrite HA; unfold Qle, inject_Z; cbn [Qnum Qden]; lia).
    assert (HA2 : (A <= 9007199254740992000000000 # 1)%Q)
      by (rewrite HA; unfold Qle, inject_Z; cbn [Qnum Qden]; lia).
    destruct (round_mid_pos A) as (p & Hp & Ep); [lra | lra |].
    rewrite Hp.
    destruct (round_mid_pos (p + inject_Z dn)) as (s & Hs' & Es);
      [lra | lra |].
    rewrite Hs'.
    change (Double.is_zero (inject_Z MS_PER_NS)) with false. cbv iota.
    assert (Ediv : (s / inject_Z MS_PER_NS == s * (1 # 1000000))%Q)
      by reflexivity.
    rewrite (round_compat _ _ Ediv).
    destruct (round_mid_pos (s * (1 # 1000000))) as (r & Hr & Er);
      [lra | lra |].
    rewrite Hr. exists r. split; [reflexivity|].
    rewrite Eel.
    change (inject_Z (2 ^ 51)) with (2251799813685248 # 1).
    assert (0 <= (A + inject_Z dn) * (1 # 1000000))%Q by lra.
    rewrite (Qabs_pos ((A + inject_Z dn) * (1 # 1000000))) by assumption.
    apply Qabs_case; intros _; lra.
  - assert (HA1 : (A <= - (9007199000000000 # 1))%Q)
      by (rewrite HA; unfold Qle, inject_Z, Qopp; cbn [Qnum Qden]; lia).
    assert (HA2 : (- (9007199254740992000000000 # 1) <= A)%Q)
      by (rewrite HA; unfold Qle, inject_Z, Qopp; cbn [Qnum Qden]; lia).
    destruct (round_mid_neg A) as (p & Hp & Ep); [lra | lra |].
    rewrite Hp.
    destruct (round_mid_neg (p + inject_Z dn)) as (s & Hs' & Es);
      [lra | lra |].
    rewrite Hs'.
    change (Double.is_zero (inject_Z MS_PER_NS)) with false. cbv iota.
    assert (Ediv : (s / inject_Z MS_PER_NS == s * (1 # 1000000))%Q)
      by reflexivity.
    rewrite (round_compat _ _ Ediv).
    destruct (round_mid_neg (s * (1 # 1000000))) as (r & Hr & Er);
      [lra | lra |].
    rewrite Hr. exists r. split; [reflexivity|].
    rewrite Eel.
    change (inject_Z (2 ^ 51)) with (2251799813685248 # 1).
    assert ((A + inject_Z dn) * (1 # 1000000) <= 0)%Q by lra.
    rewrite (Qabs_neg ((A + inject_Z dn) * (1 # 1000000))) by assumption.
    apply Qabs_case; intros _; lra.
Qed.

(** C9: the duration calculator returns the undefined value when either
    clock reading is unset. For two readings of [process.hrtime()] it
    returns the time elapsed from the first to the second in milliseconds
    with their fraction: a double within 2^-51 of the exact quotient, and,
    when the readings are less than 9007199 seconds apart, the rounding of
    the exact quotient to a double, within 2^-53 of it. The exact quotient
    is the value that the records of this development carry. The
    calculator is a function of its two arguments and touches nothing
    else. *)
Theorem getDurationInMs_spec a b :
  reading a -> reading b ->
  (forall t, Rounded.getDurationInMs None t = None) /\
  (forall t, Rounded.getDurationInMs t None = None) /\
  (forall t, getDurationInMs None t = VUndef) /\
  (forall t, getDurationInMs t None = VUndef) /\
  exists q x,
    Rounded.getDurationInMs (Some a) (Some b) = Some (Double.Fin q) /\
    (Qabs (q - elapsed_ms a b) * inject_Z (2 ^ 51)
     <= Qabs (elapsed_ms a b))%Q /\
    (Z.abs (secs b - secs a) < 9007199 ->
     Double.round (elapsed_ms a b) = Double.Fin q /\
     (Qabs (q - elapsed_ms a b) * inject_Z (2 ^ 53)
      <= Qabs (elapsed_ms a b))%Q) /\
    getDurationInMs (Some a) (Some b) = VNum x /\
    (x == elapsed_ms a b)%Q.
Proof.
  intros Ha Hb.
  split; [reflexivity|]. split; [intros [t|]; reflexivity|].
  split; [exact getDurationInMs_unset_l|].
  split; [exact getDurationInMs_unset_r|].
  destruct (getDurationInMs_error a b Ha Hb) as (q & Hq & He).
  destruct (getDurationInMs_elapsed a b) as (x & Hx & Ex).
  exists q, x. split; [exact Hq|]. split; [exact He|].
  split; [|split; assumption].
  intros Hs.
  destruct (elapsed_round_error a b) as (q' & Hq' & He').
  { destruct Ha as [Ha1 Ha2], Hb as [Hb1 Hb2]. unfold nanoseconds.
    assert (2 ^ 53 = 9007199254740992) by reflexivity. lia. }
  rewrite getDurationInMs_round, Hq' in Hq by assumption.
  injection Hq as <-. split; assumption.
Qed.

Ltac reading_ok :=
  split; cbn [secs nanos]; change (2 ^ 53) with 9007199254740992; lia.

Ltac clock_ok := unfold nanoseconds; cbn [secs nanos]; lia.

Lemma getDurationInMs_spec_witness :
  exists q,
    Rounded.getDurationInMs (Some (HR 5 999999000)) (Some (HR 7 250))
      = Some (Double.Fin q) /\
    Double.round (1000001250 # 1000000) = Double.Fin q /\
    (Qabs (q - (1000001250 # 1000000)) * inject_Z (2 ^ 53)
     <= 1000001250 # 1000000)%Q.
Proof.
  destruct (getDurationInMs_spec (HR 5 999999000) (HR 7 250))
    as (_ & _ & _ & _ & q & x & H1 & _ & H3 & _);
    [reading_ok | reading_ok |].
  exists q. split; [exact H1|].
  apply H3. cbn [secs]. lia.
Defined.

(** Further apart the intermediate results are rounded too: between
    these two readings the code returns 9007199254.740992 (the double
    written so), which is not the rounding of the exact
    9007199254.740993. *)
Lemma getDurationInMs_long_span :
  let a := HR 0 0 in
  let b := HR 9007199 254740993 in
  Rounded.getDurationInMs (Some a) (Some b)
    = Some (Double.round (9007199254740992 # 1000000)) /\
  elapsed_ms a b = 9007199254740993 # 1000000 /\
  Double.round (9007199254740992 # 1000000)
    <> Double.round (9007199254740993 # 1000000).
Proof.
  split; [vm_compute; reflexivity|]. split; [reflexivity|].
  vm_compute. discriminate.
Qed.

(** The rounding and the duration agree with the Standard Library's
    binary64 division and arithmetic on these values. *)
Lemma round_agrees_with_binary64 :
  Forall (fun p =>
            Double.round (Qmake (fst p) (Z.to_pos (snd p)))
            = Double.of_spec
                (SFdiv 53 1024 (Double.to_spec (fst p))
                   (Double.to_spec (snd p))))
    [(1, 10); (-100, 1000000); (300, 1000000);
     (9007199254740992, 1000000); (1, 3); (2, 3); (123456789, 1000000);
     (-987654321987, 1000000); (4503599627370497, 2);
     (9007199254740991, 4503599627370496)].
Proof.
  repeat (apply List.Forall_cons; [vm_compute; reflexivity|]).
  apply List.Forall_nil.
Qed.

Lemma getDurationInMs_agrees_with_binary64 :
  Forall (fun p =>
            Rounded.getDurationInMs (Some (fst p)) (Some (snd p))
            = Some (Double.of_spec
                      (Rounded.binary64_duration (fst p) (snd p))))
    [(HR 0 0, HR 9007199 254740993); (HR 0 300, HR 0 400);
     (HR 12345678901 5, HR 99999999999 999999999); (HR 5 999999999, HR 6 0);
     (HR 7 250, HR 5 999999000)].
Proof.
  repeat (apply List.Forall_cons; [vm_compute; reflexivity|]).
  apply List.Forall_nil.
Qed.

(** ** Runs *)

Lemma run_cons w e tr : run w (e :: tr) = run (step w e) tr.
Proof. reflexivity. Qed.

Lemma run_app w tr1 tr2 : run w (tr1 ++ tr2) = run (run w tr1) tr2.
Proof. apply fold_left_app. Qed.

(** ** What the handlers leave alone *)

Lemma triggerMetrics_static extra w : static (triggerMetrics extra w) = static w.
Proof.
  unfold triggerMetrics, static. repeat case_match; simpl; congruence.
Qed.

Lemma onResponse_static res dl dn w : static (onResponse res dl dn w) = static w.
Proof.
  unfold onResponse, startNoResponseEndTimer, static.
  repeat case_match; reflexivity.
Qed.

Lemma step_static w e : static (step w e) = static w.
Proof.
  destruct e; simpl; repeat case_match;
    unfold onEnd, onError, onTimeout;
    rewrite ?triggerMetrics_static, ?onResponse_static; reflexivity.
Qed.

Lemma run_static w tr : static (run w tr) = static w.
Proof.
  revert w; induction tr as [|e tr IH]; intros w; [reflexivity|].
  rewrite run_cons, IH. apply step_static.
Qed.

Lemma getRequestMetrics_ext c c' :
  Ctx.httpOptions c = Ctx.httpOptions c' -> Ctx.request c = Ctx.request c' ->
  getRequestMetrics c = getRequestMetrics c'.
Proof. unfold getRequestMetrics. intros -> ->. reflexivity. Qed.

Lemma ready_static w w' : static w = static w' -> ready w -> ready w'.
Proof.
  unfold static, ready. intros H [Hm Hc]. injection H as Ho Hr Hcb.
  rewrite <- (getRequestMetrics_ext _ _ Ho Hr), <- Hcb. auto.
Qed.

Lemma step_ready w e : ready w -> ready (step w e).
Proof. apply ready_static. symmetry. apply step_static. Qed.

Lemma run_ready w tr : ready w -> ready (run w tr).
Proof. apply ready_static. symmetry. apply run_static. Qed.

Lemma mark_ready name now w : ready w -> ready (World.mark name now w).
Proof. apply ready_static. reflexivity. Qed.

(** ** [triggerMetrics] *)

Lemma triggerMetrics_unfold extra w :
  triggerMetrics extra w =
    let w1 := cleared w in
    let this := World.self w1 in
    if Ctx.metricsTriggered this then w1
    else
      match getRequestMetrics this with
      | None => World.throw w1
      | Some req =>
          match Ctx.metricsCallback this with
          | None => World.throw w1
          | Some f =>
              World.this (Ctx.with_metricsTriggered true)
                (World.with_calls
                   (World.calls w1 ++
                      [MkCall f
                         (spread req (getResponseMetrics this)
                            (getTimingMetrics this) extra)
                         (World.timers w1)]) w1)
          end
      end.
Proof. reflexivity. Qed.

Lemma cleared_self w : World.self (cleared w) = World.self w.
Proof. unfold cleared. case_match; reflexivity. Qed.

Lemma cleared_calls w : World.calls (cleared w) = World.calls w.
Proof. unfold cleared. case_match; reflexivity. Qed.

Lemma cleared_uncaught w : World.uncaught (cleared w) = World.uncaught w.
Proof. unfold cleared. case_match; reflexivity. Qed.

Lemma triggerMetrics_ready extra w rm f :
  getRequestMetrics (World.self w) = Some rm ->
  Ctx.metricsCallback (World.self w) = Some f ->
  triggerMetrics extra w =
    if reported w then cleared w
    else
      World.this (Ctx.with_metricsTriggered true)
        (World.with_calls
           (World.calls w ++
              [MkCall f
                 (spread rm (getResponseMetrics (World.self w))
                    (getTimingMetrics (World.self w)) extra)
                 (World.timers (cleared w))])
           (cleared w)).
Proof.
  intros Hrm Hf. rewrite triggerMetrics_unfold. cbv zeta.
  rewrite cleared_self, cleared_calls, Hrm, Hf. reflexivity.
Qed.

Lemma triggerMetrics_reported extra w :
  ready w -> reported (triggerMetrics extra w) = true.
Proof.
  intros [[rm Hrm] [f Hf]]. rewrite (triggerMetrics_ready _ _ _ _ Hrm Hf).
  destruct (reported w) eqn:Hr; [|reflexivity].
  unfold reported in *. rewrite cleared_self. exact Hr.
Qed.

Lemma triggerMetrics_once extra w :
  ready w -> once w -> once (triggerMetrics extra w).
Proof.
  intros [[rm Hrm] [f Hf]]. rewrite (triggerMetrics_ready _ _ _ _ Hrm Hf).
  unfold once. destruct (reported w) eqn:Hr.
  - unfold reported in *. rewrite cleared_self, cleared_calls, Hr. auto.
  - intros H. simpl. rewrite length_app, H. reflexivity.
Qed.

Lemma triggerMetrics_reported_mono extra w :
  reported w = true -> reported (triggerMetrics extra w) = true.
Proof.
  intros H. rewrite triggerMetrics_unfold. cbv zeta. unfold reported in *.
  rewrite cleared_self, H. rewrite cleared_self. exact H.
Qed.

Lemma triggerMetrics_calls_reported extra w :
  reported w = true -> World.calls (triggerMetrics extra w) = World.calls w.
Proof.
  intros H. rewrite triggerMetrics_unfold. cbv zeta. unfold reported in *.
  rewrite cleared_self, H. apply cleared_calls.
Qed.

Lemma triggerMetrics_uncaught extra w :
  ready w -> World.uncaught (triggerMetrics extra w) = World.uncaught w.
Proof.
  intros [[rm Hrm] [f Hf]]. rewrite (triggerMetrics_ready _ _ _ _ Hrm Hf).
  destruct (reported w); simpl; apply cleared_uncaught.
Qed.

Lemma triggerMetrics_timings extra w :
  Ctx.timings (World.self (triggerMetrics extra w)) = Ctx.timings (World.self w).
Proof.
  rewrite triggerMetrics_unfold. cbv zeta.
  repeat case_match; simpl; rewrite cleared_self; reflexivity.
Qed.

Lemma triggerMetrics_callee extra w f :
  Ctx.metricsCallback (World.self w) = Some f ->
  Forall (fun c => callee c = f) (World.calls w) ->
  Forall (fun c => callee c = f) (World.calls (triggerMetrics extra w)).
Proof.
  intros Hf Hc. rewrite triggerMetrics_unfold. cbv zeta.
  rewrite cleared_self, Hf.
  repeat case_match; simpl; rewrite ?cleared_calls; try exact Hc.
  apply Forall_app. split; [exact Hc|]. constructor; [reflexivity|constructor].
Qed.

(** ** [onResponse] *)

Lemma onResponse_effect res dl dn w :
  let w' := onResponse res dl dn w in
  World.calls w' = World.calls w /\ reported w' = reported w /\
  World.uncaught w' = World.uncaught w /\
  Ctx.timings (World.self w') = Ctx.timings (World.self w) /\
  (exists waitTime,
     World.timers w' = <[World.nextTimer w := waitTime]> (World.timers w)) /\
  Ctx.noResponseEndTimer (World.self w') = Some (World.nextTimer w) /\
  World.resEndListener w' = true /\
  World.reqListeners w' = World.reqListeners w /\
  Ctx.response (World.self w') = Some res /\
  match Res.headers res !! "content-length" with
  | Some s =>
      match parseInt s 10 with
      | Num z =>
          Ctx.responseSize (World.self w') = Some (Num z) /\
          World.resDataListener w' = World.resDataListener w
      | NaN =>
          Ctx.responseSize (World.self w') = Some (Num 0) /\
          World.resDataListener w' = true
      end
  | None =>
      Ctx.responseSize (World.self w') = Some (Num 0) /\
      World.resDataListener w' = true
  end.
Proof.
  unfold onResponse, startNoResponseEndTimer. simpl.
  destruct (Res.headers res !! "content-length") as [s|]; simpl;
    [destruct (parseInt s 10); simpl|];
    repeat split; eauto.
Qed.

Lemma onResponse_once res dl dn w : once w -> once (onResponse res dl dn w).
Proof.
  destruct (onResponse_effect res dl dn w) as (Hc & Hr & _).
  unfold once. rewrite Hc, Hr. auto.
Qed.

(** ** One step *)

(** Reduce a goal about [step w e] to goals about the handler that runs. *)
Ltac handlers :=
  simpl; repeat case_match; unfold onEnd, onError, onTimeout.

Lemma step_once w e : ready w -> once w -> once (step w e).
Proof.
  intros Hr Ho. destruct e; handlers;
    lazymatch goal with
    | |- once (triggerMetrics _ _) =>
        apply triggerMetrics_once;
        [apply (ready_static w); [reflexivity | exact Hr] | exact Ho]
    | |- once (onResponse _ _ _ _) => apply onResponse_once; exact Ho
    | |- _ => exact Ho
    end.
Qed.

Lemma step_reported_mono w e : reported w = true -> reported (step w e) = true.
Proof.
  intros H. destruct e; handlers;
    lazymatch goal with
    | |- reported (triggerMetrics _ _) = _ =>
        apply triggerMetrics_reported_mono; exact H
    | |- reported (onResponse ?r ?d ?n ?w') = _ =>
        destruct (onResponse_effect r d n w') as (_ & -> & _); exact H
    | |- _ => exact H
    end.
Qed.

Lemma step_calls_reported w e :
  reported w = true -> World.calls (step w e) = World.calls w.
Proof.
  intros H. destruct e; handlers;
    lazymatch goal with
    | |- World.calls (triggerMetrics _ _) = _ =>
        rewrite triggerMetrics_calls_reported; [reflexivity | exact H]
    | |- World.calls (onResponse ?r ?d ?n ?w') = _ =>
        destruct (onResponse_effect r d n w') as (-> & _); reflexivity
    | |- _ => reflexivity
    end.
Qed.

Lemma step_uncaught w e :
  ready w -> World.uncaught (step w e) = World.uncaught w.
Proof.
  intros Hr. destruct e; handlers;
    lazymatch goal with
    | |- World.uncaught (triggerMetrics _ _) = _ =>
        rewrite triggerMetrics_uncaught;
        [reflexivity | apply (ready_static w); [reflexivity | exact Hr]]
    | |- World.uncaught (onResponse ?r ?d ?n ?w') = _ =>
        destruct (onResponse_effect r d n w') as (_ & _ & -> & _); reflexivity
    | |- _ => reflexivity
    end.
Qed.

Lemma step_callee w e f :
  Ctx.metricsCallback (World.self w) = Some f ->
  Forall (fun c => callee c = f) (World.calls w) ->
  Forall (fun c => callee c = f) (World.calls (step w e)).
Proof.
  intros Hf Hc. destruct e; handlers;
    lazymatch goal with
    | |- Forall _ (World.calls (triggerMetrics _ _)) =>
        apply triggerMetrics_callee; [exact Hf | exact Hc]
    | |- Forall _ (World.calls (onResponse ?r ?d ?n ?w')) =>
        destruct (onResponse_effect r d n w') as (-> & _); exact Hc
    | |- _ => exact Hc
    end.
Qed.

Lemma step_terminal_reported w e :
  ready w -> terminal w e = true -> reported (step w e) = true.
Proof.
  intros Hr Ht. destruct e; simpl in Ht; try discriminate; simpl.
  - rewrite Ht. apply triggerMetrics_reported, mark_ready, Hr.
  - rewrite Ht. apply triggerMetrics_reported, mark_ready.
    apply (ready_static w); [reflexivity | exact Hr].
  - rewrite Ht. apply triggerMetrics_reported, mark_ready, Hr.
  - apply bool_decide_eq_true in Ht. destruct Ht as [d Hd]. rewrite Hd.
    apply triggerMetrics_reported, mark_ready.
    apply (ready_static w); [reflexivity | exact Hr].
Qed.

(** ** Whole runs *)

Lemma run_reported_mono w tr : reported w = true -> reported (run w tr) = true.
Proof.
  revert w; induction tr as [|e tr IH]; intros w H; [exact H|].
  rewrite run_cons. apply IH, step_reported_mono, H.
Qed.

Lemma run_calls_reported w tr :
  reported w = true -> World.calls (run w tr) = World.calls w.
Proof.
  revert w; induction tr as [|e tr IH]; intros w H; [reflexivity|].
  rewrite run_cons, IH by (apply step_reported_mono, H).
  apply step_calls_reported, H.
Qed.

Lemma run_once w tr : ready w -> once w -> once (run w tr).
Proof.
  revert w; induction tr as [|e tr IH]; intros w Hr Ho; [exact Ho|].
  rewrite run_cons.
  apply IH; [apply step_ready, Hr | apply step_once; assumption].
Qed.

Lemma run_uncaught w tr :
  ready w -> World.uncaught (run w tr) = World.uncaught w.
Proof.
  revert w; induction tr as [|e tr IH]; intros w Hr; [reflexivity|].
  rewrite run_cons, IH by (apply step_ready, Hr). apply step_uncaught, Hr.
Qed.

Lemma run_callee w tr f :
  Ctx.metricsCallback (World.self w) = Some f ->
  Forall (fun c => callee c = f) (World.calls w) ->
  Forall (fun c => callee c = f) (World.calls (run w tr)).
Proof.
  revert w; induction tr as [|e tr IH]; intros w Hf Hc; [exact Hc|].
  rewrite run_cons. apply IH.
  - pose proof (step_static w e) as Hs. unfold static in Hs. congruence.
  - apply step_callee; assumption.
Qed.

(** ** The instrumented request *)

Lemma requestWithMetrics_inv parseURL UA requestFn cb now input options
    callback req w0 :
  requestWithMetrics parseURL UA requestFn cb now input options callback
    = Some (req, w0) ->
  exists opts ign,
    httpOptions parseURL input options = Some opts /\
    requestFn input options callback = Some req /\
    let this :=
      Ctx.with_request (Some req)
        (Ctx.with_httpOptions (Some opts)
           (withMetricsCallback cb
              (withArgs input options callback
                 (withRequestFn requestFn (new now))))) in
    ignoreRequest UA this = Some ign /\
    w0 = if ign then World.init this else onRequest (World.init this).
Proof.
  unfold requestWithMetrics, getRequest. simpl.
  destruct (httpOptions parseURL input options) as [opts|]; [|discriminate].
  destruct (requestFn input options callback) as [r|]; [|discriminate].
  match goal with
  | |- context [ignoreRequest UA ?c] =>
      destruct (ignoreRequest UA c) as [[|]|] eqn:Hign
  end;
    intros H; inversion H; subst; eexists _, _;
    repeat split; try exact Hign; reflexivity.
Qed.

Lemma requestWithMetrics_ready parseURL UA requestFn cb now input options
    callback req w0 :
  requestWithMetrics parseURL UA requestFn cb now input options callback
    = Some (req, w0) ->
  ready w0 /\ World.calls w0 = [] /\ reported w0 = false /\
  World.timers w0 = ∅ /\
  Ctx.metricsCallback (World.self w0) = Some (default Noop cb) /\
  World.uncaught w0 = O /\
  Ctx.timings (World.self w0) = {[ "startAt" := now ]}.
Proof.
  intros H. apply requestWithMetrics_inv in H as (opts & ign & _ & _ & _ & ->).
  destruct ign;
    (split;
     [split; [unfold getRequestMetrics; simpl; eauto | simpl; eauto]
     | repeat split]).
Qed.

(** A terminal signal in a run that starts unreported leaves exactly one
    invocation, whatever follows. *)
Lemma exactly_one_call w0 pre e post :
  ready w0 -> World.calls w0 = [] -> reported w0 = false ->
  terminal (run w0 pre) e = true ->
  exists c, World.calls (run w0 (pre ++ e :: post)) = [c].
Proof.
  intros Hr Hc Hrep Ht.
  assert (Ho : once w0) by (unfold once; rewrite Hc, Hrep; reflexivity).
  pose proof (run_once w0 (pre ++ e :: post) Hr Ho) as Hlen.
  unfold once in Hlen. rewrite run_app, run_cons in Hlen.
  rewrite run_reported_mono in Hlen
    by (apply step_terminal_reported; [apply run_ready, Hr | exact Ht]).
  rewrite <- run_cons, <- run_app in Hlen.
  destruct (World.calls (run w0 (pre ++ e :: post))) as [|c [|c' l]];
    simpl in Hlen; try discriminate.
  exists c. reflexivity.
Qed.



(** ** Self-exclusion *)

Lemma ignoreRequest_sink UA this req :
  UA <> "" ->
  Ctx.request this = Some req ->
  Req.getHeader req "User-Agent" = HStr UA ->
  ignoreRequest UA this = Some true.
Proof.
  intros Hne Hreq Hua. unfold ignoreRequest. rewrite Hreq, Hua.
  assert (Ht : str_truthy UA = true)
    by (destruct UA; [contradiction | reflexivity]).
  cbv beta iota. rewrite Ht, String.eqb_refl. reflexivity.
Qed.

Lemma step_unobserved w e : unobserved w -> step w e = w.
Proof.
  intros (H1 & H2 & H3 & H4 & H5 & H6 & H7 & H8).
  destruct e; simpl; rewrite ?H1, ?H2, ?H3, ?H4, ?H5, ?H6, ?H7, ?H8;
    reflexivity.
Qed.

Lemma run_unobserved w tr : unobserved w -> run w tr = w.
Proof.
  intros H. induction tr as [|e tr IH]; [reflexivity|].
  rewrite run_cons, step_unobserved; assumption.
Qed.

(** C7: a request whose User-Agent header equals the sink's constant is
    created by the original request function and returned, no listener is
    attached to it, and no sequence of events makes the metrics callback
    run. *)
Theorem sink_request_is_not_observed parseURL UA requestFn cb now input
    options callback req tr :
  UA <> "" ->
  is_Some (httpOptions parseURL input options) ->
  requestFn input options callback = Some req ->
  Req.getHeader req "User-Agent" = HStr UA ->
  exists w0,
    requestWithMetrics parseURL UA requestFn cb now input options callback
      = Some (req, w0) /\
    unobserved w0 /\
    run w0 tr = w0 /\
    World.calls (run w0 tr) = [].
Proof.
  intros Hne [opts Hopts] Hreq Hua.
  unfold requestWithMetrics, getRequest. simpl. rewrite Hopts, Hreq.
  erewrite ignoreRequest_sink; [| exact Hne | reflexivity | exact Hua].
  eexists. split; [reflexivity|].
  assert (Hu : unobserved
    (World.init
       (Ctx.with_request (Some req)
          (Ctx.with_httpOptions (Some opts)
             (withMetricsCallback cb
                (withArgs input options callback
                   (withRequestFn requestFn (new now))))))))
    by (repeat split).
  split; [exact Hu|]. rewrite (run_unobserved _ tr Hu).
  split; reflexivity.
Qed.

Lemma sink_request_is_not_observed_witness :
  Scenario.USER_AGENT <> "" /\
  is_Some (httpOptions Scenario.parseURL (InStr "https://example.com/api")
             ArgUndef) /\
  exists w0,
    requestWithMetrics Scenario.parseURL Scenario.USER_AGENT
      Scenario.sinkHttpRequest (Some (Extern 1)) Scenario.startAt
      (InStr "https://example.com/api") ArgUndef ArgUndef
      = Some (Scenario.sinkRequest, w0) /\
    unobserved w0 /\
    run w0 [ReqSocket (HR 0 5); ReqError (HR 1 0) Scenario.refused] = w0 /\
    World.calls
      (run w0 [ReqSocket (HR 0 5); ReqError (HR 1 0) Scenario.refused]) = [].
Proof.
  split; [discriminate|]. split; [eexists; reflexivity|].
  apply (sink_request_is_not_observed Scenario.parseURL Scenario.USER_AGENT
           Scenario.sinkHttpRequest (Some (Extern 1)) Scenario.startAt
           (InStr "https://example.com/api") ArgUndef ArgUndef
           Scenario.sinkRequest);
    [discriminate | eexists; reflexivity | reflexivity | reflexivity].
Defined.

(** ** The default callback *)

(** Without [withMetricsCallback] the report throws and nothing is
    delivered. *)
Lemma triggerMetrics_without_callback extra w :
  reported w = false ->
  Ctx.metricsCallback (World.self w) = None ->
  World.uncaught (triggerMetrics extra w) = S (World.uncaught w) /\
  World.calls (triggerMetrics extra w) = World.calls w /\
  reported (triggerMetrics extra w) = false.
Proof.
  intros Hr Hc. rewrite triggerMetrics_unfold. cbv zeta.
  unfold reported in *. rewrite cleared_self, Hr, Hc.
  destruct (getRequestMetrics (World.self w)); simpl;
    rewrite cleared_self, cleared_calls, cleared_uncaught; auto.
Qed.

(** C10: when no metrics callback is supplied, [withMetricsCallback]
    installs the no-op function, it stays installed, and no sequence of
    events makes a handler throw; the reports go to the no-op. *)
Theorem missing_callback_defaults_to_noop parseURL UA requestFn now input
    options callback req w0 tr :
  requestWithMetrics parseURL UA requestFn None now input options callback
    = Some (req, w0) ->
  (forall this, Ctx.metricsCallback (withMetricsCallback None this)
                = Some Noop) /\
  Ctx.metricsCallback (World.self (run w0 tr)) = Some Noop /\
  World.uncaught (run w0 tr) = O /\
  Forall (fun c => callee c = Noop) (World.calls (run w0 tr)).
Proof.
  intros H.
  apply requestWithMetrics_ready in H as (Hr & Hc & _ & _ & Hcb & Hu & _).
  simpl in Hcb. repeat split.
  - pose proof (run_static w0 tr) as Hs. unfold static in Hs. congruence.
  - rewrite run_uncaught; assumption.
  - apply run_callee; [exact Hcb | rewrite Hc; constructor].
Qed.

Lemma missing_callback_defaults_to_noop_witness :
  let w0 :=
    onRequest
      (World.init
         (Ctx.with_request (Some Scenario.request)
            (Ctx.with_httpOptions (Some (urlToOptions Scenario.apiURL))
               (withMetricsCallback None
                  (withArgs (InStr "https://example.com/api") ArgUndef
                     ArgUndef
                     (withRequestFn Scenario.httpRequest
                        (new Scenario.startAt))))))) in
  let tr := [ReqError (HR 1 0) Scenario.refused; ReqTimeout (HR 2 0)] in
  requestWithMetrics Scenario.parseURL Scenario.USER_AGENT
    Scenario.httpRequest None Scenario.startAt
    (InStr "https://example.com/api") ArgUndef ArgUndef
    = Some (Scenario.request, w0) /\
  Ctx.metricsCallback (World.self (run w0 tr)) = Some Noop /\
  World.uncaught (run w0 tr) = O.
Proof.
  intros w0 tr. split; [reflexivity|].
  destruct (missing_callback_defaults_to_noop Scenario.parseURL
              Scenario.USER_AGENT Scenario.httpRequest Scenario.startAt
              (InStr "https://example.com/api") ArgUndef ArgUndef
              Scenario.request w0 tr eq_refl) as (_ & H1 & H2 & _).
  split; assumption.
Defined.

(** ** The safety-net timer *)

Lemma empty_holds w : World.timers w = ∅ -> holds_timers w.
Proof. intros H h [x Hx]. rewrite H, lookup_empty in Hx. discriminate. Qed.

Lemma cleared_timers w : holds_timers w -> World.timers (cleared w) = ∅.
Proof.
  intros H. apply map_eq. intros h. rewrite lookup_empty.
  unfold cleared.
  destruct (Ctx.noResponseEndTimer (World.self w)) as [h0|] eqn:E.
  - simpl. destruct (decide (h0 = h)) as [->|Hne].
    + apply lookup_delete_eq.
    + rewrite lookup_delete_ne by exact Hne.
      destruct (World.timers w !! h) eqn:El; [|reflexivity].
      specialize (H h (ex_intro _ _ El)). congruence.
  - destruct (World.timers w !! h) eqn:El; [|reflexivity].
    specialize (H h (ex_intro _ _ El)). congruence.
Qed.

Lemma triggerMetrics_timers extra w :
  holds_timers w ->
  World.timers (triggerMetrics extra w) = ∅ /\
  (calls_clear w -> calls_clear (triggerMetrics extra w)).
Proof.
  intros H. pose proof (cleared_timers w H) as Hc.
  rewrite triggerMetrics_unfold. cbv zeta. unfold calls_clear.
  repeat case_match; simpl; rewrite ?cleared_calls; (split; [exact Hc|]);
    auto.
  intros Hf. apply Forall_app. split; [exact Hf|].
  constructor; [exact Hc|constructor].
Qed.

Lemma delete_holds h w :
  holds_timers w ->
  holds_timers (World.with_timers (delete h (World.timers w)) w).
Proof.
  intros H h' [x Hx]. simpl in *. apply H.
  destruct (decide (h = h')) as [->|Hne].
  - rewrite lookup_delete_eq in Hx. discriminate.
  - rewrite lookup_delete_ne in Hx by exact Hne. eauto.
Qed.

Lemma step_timers w e :
  isResponse e = false -> holds_timers w ->
  holds_timers (step w e) /\
  (World.timers w = ∅ -> World.timers (step w e) = ∅) /\
  (calls_clear w -> calls_clear (step w e)).
Proof.
  intros He H. destruct e; try discriminate; handlers;
    lazymatch goal with
    | |- context [triggerMetrics ?x ?w'] =>
        assert (Hw : holds_timers w') by
          (first [ exact H | apply delete_holds, H ]);
        destruct (triggerMetrics_timers x w' Hw) as [Ht Hc];
        split; [apply empty_holds, Ht | split; [intros _; exact Ht | exact Hc]]
    | |- _ => split; [exact H | split; [intros E; exact E | intros C; exact C]]
    end.
Qed.

Lemma step_response_timers w res dl dn :
  World.timers w = ∅ ->
  holds_timers (step w (ReqResponse res dl dn)) /\
  World.calls (step w (ReqResponse res dl dn)) = World.calls w.
Proof.
  intros H. simpl.
  destruct (World.reqListeners w);
    [|split; [apply empty_holds, H|reflexivity]].
  destruct (onResponse_effect res dl dn w)
    as (Hc & _ & _ & _ & (wt & Ht) & Hh & _).
  split; [|exact Hc].
  intros h [x Hx]. rewrite Ht, H in Hx. rewrite Hh.
  destruct (decide (World.nextTimer w = h)) as [->|Hne]; [reflexivity|].
  rewrite lookup_insert_ne, lookup_empty in Hx by exact Hne. discriminate.
Qed.

Lemma responses_cons e tr :
  responses (e :: tr)
    = ((if isResponse e then 1 else 0) + responses tr)%nat.
Proof. unfold responses. simpl. destruct (isResponse e); reflexivity. Qed.

Lemma run_calls_clear tr : forall w,
  calls_clear w ->
  (World.timers w = ∅ /\ (responses tr <= 1)%nat) \/
  (holds_timers w /\ responses tr = O) ->
  calls_clear (run w tr).
Proof.
  induction tr as [|e tr IH]; intros w Hc Hinv; [exact Hc|].
  rewrite run_cons. rewrite responses_cons in Hinv.
  destruct (isResponse e) eqn:He.
  - destruct Hinv as [[Ht Hn]|[_ Hn]]; [|discriminate].
    destruct e; try discriminate.
    destruct (step_response_timers w response deadline dateNow Ht)
      as [Hh Hcalls].
    apply IH.
    + unfold calls_clear. rewrite Hcalls. exact Hc.
    + right. split; [exact Hh | lia].
  - assert (Hh : holds_timers w)
      by (destruct Hinv as [[Ht _]|[Hh _]];
          [apply empty_holds, Ht | exact Hh]).
    destruct (step_timers w e He Hh) as (Hh' & Ht' & Hc').
    apply IH; [apply Hc', Hc|].
    destruct Hinv as [[Ht Hn]|[_ Hn]]; [left | right]; simpl in Hn; auto.
Qed.

(** C6: whichever terminal signal makes the report (response end, error,
    timeout or the timer itself firing), no safety-net timer is pending at
    the moment the metrics callback is invoked; Node delivers at most one
    [response] event per request. *)
Theorem timer_cancelled_before_callback parseURL UA requestFn cb now input
    options callback req w0 pre e post :
  requestWithMetrics parseURL UA requestFn cb now input options callback
    = Some (req, w0) ->
  (responses (pre ++ e :: post) <= 1)%nat ->
  terminal (run w0 pre) e = true ->
  exists c,
    World.calls (run w0 (pre ++ e :: post)) = [c] /\ pending c = ∅.
Proof.
  intros H Hn Ht.
  apply requestWithMetrics_ready in H as (Hr & Hc & Hrep & Htm & _).
  destruct (exactly_one_call w0 pre e post Hr Hc Hrep Ht) as [c Hcalls].
  exists c. split; [exact Hcalls|].
  assert (Hcl : calls_clear (run w0 (pre ++ e :: post))).
  { apply run_calls_clear;
      [unfold calls_clear; rewrite Hc; constructor | left; auto]. }
  unfold calls_clear in Hcl. rewrite Hcalls in Hcl.
  inversion Hcl; assumption.
Qed.

Lemma timer_cancelled_before_callback_witness :
  let pre := [ReqSocket (HR 0 100); SockData (HR 0 900);
              ReqResponse Scenario.response None 0] in
  let e := TimerFire 0 (HR 300 0) in
  let post := [ResEnd (HR 301 0)] in
  Scenario.started = Some (Scenario.request, Scenario.world) /\
  (responses (pre ++ e :: post) <= 1)%nat /\
  terminal (run Scenario.world pre) e = true /\
  exists c,
    World.calls (run Scenario.world (pre ++ e :: post)) = [c] /\
    pending c = ∅.
Proof.
  intros pre e post. subst pre e post.
  split; [reflexivity|]. split; [vm_compute; lia|].
  split; [reflexivity|].
  apply (timer_cancelled_before_callback Scenario.parseURL
           Scenario.USER_AGENT Scenario.httpRequest (Some (Extern 1))
           Scenario.startAt (InStr "https://example.com/api") ArgUndef
           ArgUndef Scenario.request Scenario.world);
    [reflexivity | vm_compute; lia | reflexivity].
Defined.

(** ** Timestamp slots *)

Ltac slots :=
  unfold slot; handlers;
  rewrite ?triggerMetrics_timings;
  repeat lazymatch goal with
    | |- context [onResponse ?r ?d ?n ?w'] =>
        let H := fresh in
        destruct (onResponse_effect r d n w') as (_ & _ & _ & H & _);
        rewrite H; clear H
    end;
  simpl;
  repeat first [ rewrite lookup_insert_ne by discriminate
               | rewrite lookup_delete_ne by discriminate ];
  try reflexivity.

Lemma step_startAt w e : slot (step w e) "startAt" = slot w "startAt".
Proof. destruct e; slots. Qed.

Lemma step_errorAt w e :
  isError e = false -> slot (step w e) "errorAt" = slot w "errorAt".
Proof. destruct e; try discriminate; intros _; slots. Qed.

Lemma step_endAt w e :
  isEnd e = false -> slot (step w e) "endAt" = slot w "endAt".
Proof. destruct e; try discriminate; intros _; slots. Qed.

Lemma run_startAt w tr : slot (run w tr) "startAt" = slot w "startAt".
Proof.
  revert w; induction tr as [|e tr IH]; intros w; [reflexivity|].
  rewrite run_cons, IH. apply step_startAt.
Qed.

Lemma run_errorAt w tr :
  Forall (fun e => isError e = false) tr ->
  slot (run w tr) "errorAt" = slot w "errorAt".
Proof.
  intros H; revert w; induction H as [|e tr He _ IH]; intros w;
    [reflexivity|].
  rewrite run_cons, IH. apply step_errorAt, He.
Qed.

Lemma run_endAt w tr :
  Forall (fun e => isEnd e = false) tr ->
  slot (run w tr) "endAt" = slot w "endAt".
Proof.
  intros H; revert w; induction H as [|e tr He _ IH]; intros w;
    [reflexivity|].
  rewrite run_cons, IH. apply step_endAt, He.
Qed.

(** C5 as stated fails: a timeout signal followed by the response and its
    end leaves both terminal slots set. *)
Lemma timeout_then_end_sets_both_slots :
  let tr := [ReqTimeout (HR 1 0); ReqResponse Scenario.response None 0;
             ResEnd (HR 2 0)] in
  Scenario.started = Some (Scenario.request, Scenario.world) /\
  slot (run Scenario.world tr) "errorAt" = Some (HR 1 0) /\
  slot (run Scenario.world tr) "endAt" = Some (HR 2 0).
Proof. repeat split. Qed.

(** ** Reports made by [onEnd] *)

Lemma getRequestMetrics_other c rm k :
  getRequestMetrics c = Some rm -> k ∉ requestKeys -> rm !! k = None.
Proof.
  unfold getRequestMetrics.
  destruct (Ctx.httpOptions c), (Ctx.request c); try discriminate.
  intros H Hk. injection H as <-.
  unfold requestKeys in Hk. rewrite !not_elem_of_cons in Hk.
  destruct Hk as (? & ? & ? & ? & ? & ? & ? & _).
  rewrite !lookup_insert_ne by congruence. apply lookup_empty.
Qed.

Lemma onEnd_first now w rm f :
  getRequestMetrics (World.self w) = Some rm ->
  Ctx.metricsCallback (World.self w) = Some f ->
  reported w = false ->
  World.calls (onEnd now w) =
    (World.calls w
     ++ [MkCall f (endReport now w rm) (World.timers (cleared w))])%list
  /\ reported (onEnd now w) = true.
Proof.
  intros Hrm Hf Hr. unfold onEnd.
  rewrite (triggerMetrics_ready _ _ rm f) by assumption.
  change (reported (World.mark "endAt" now w)) with (reported w). rewrite Hr.
  split; [|reflexivity]. simpl. unfold endReport, cleared. simpl.
  destruct (Ctx.noResponseEndTimer (World.self w)); reflexivity.
Qed.

Lemma endReport_timing now w rm k v :
  k ∉ ["requestBodySize"; "responseBodySize"; "serverRequestId"] ->
  getTimingMetrics (World.self (World.mark "endAt" now w)) !! k = Some v ->
  endReport now w rm !! k = Some v.
Proof.
  intros Hk Hv. unfold endReport, spread.
  rewrite lookup_union_r by (apply not_elem_of_list_to_map_1; exact Hk).
  apply lookup_union_Some_l. exact Hv.
Qed.

Lemma endReport_size now w rm :
  endReport now w rm !! "responseBodySize"
    = Some (of_size (Ctx.responseSize (World.self w))).
Proof. unfold endReport, spread. apply lookup_union_Some_l. reflexivity. Qed.

Lemma getTimingMetrics_durationReceive c :
  getTimingMetrics c !! "durationReceive"
    = Some (getDurationInMs (Ctx.timings c !! "firstByteAt")
              (Ctx.timings c !! "endAt")).
Proof. reflexivity. Qed.

Lemma getTimingMetrics_durationSend c :
  getTimingMetrics c !! "durationSend"
    = Some (getDurationInMs
              (hor (Ctx.timings c !! "tlsHandshakeAt")
                   (Ctx.timings c !! "tcpConnectionAt"))
              (Ctx.timings c !! "sentRequestAt")).
Proof. reflexivity. Qed.

(** A literal key is none of the listed literal keys. *)
Ltac not_in_keys :=
  rewrite !not_elem_of_cons; repeat split; try discriminate;
  apply not_elem_of_nil.

Lemma endReport_durationReceive now w rm :
  endReport now w rm !! "durationReceive"
    = Some (getDurationInMs (slot w "firstByteAt") (Some now)).
Proof.
  apply endReport_timing.
  - not_in_keys.
  - rewrite getTimingMetrics_durationReceive. unfold slot. cbn.
    rewrite lookup_insert_eq, lookup_insert_ne by discriminate. reflexivity.
Qed.

(** ** Quiet events *)

Lemma step_frame w e : quiet e = true -> frame (step w e) = frame w.
Proof.
  destruct e; try discriminate; intros _; simpl; unfold onSocket;
    repeat case_match; reflexivity.
Qed.

Lemma run_frame w tr :
  Forall (fun e => quiet e = true) tr -> frame (run w tr) = frame w.
Proof.
  intros H; revert w; induction H as [|e tr He _ IH]; intros w;
    [reflexivity|].
  rewrite run_cons, IH. apply step_frame, He.
Qed.

Lemma step_quiet_size w e :
  quiet e = true ->
  Ctx.responseSize (World.self (step w e)) =
    match e with
    | ResData n =>
        if World.resDataListener w
        then add_size (Ctx.responseSize (World.self w)) n
        else Ctx.responseSize (World.self w)
    | _ => Ctx.responseSize (World.self w)
    end.
Proof.
  destruct e; try discriminate; intros _; simpl; unfold onSocket;
    repeat case_match; reflexivity.
Qed.

Lemma run_quiet_size tr : forall w z,
  Forall (fun e => quiet e = true) tr ->
  Ctx.responseSize (World.self w) = Some (Num z) ->
  Ctx.responseSize (World.self (run w tr))
    = Some (Num (if World.resDataListener w then z + streamed tr else z)).
Proof.
  induction tr as [|e tr IH]; intros w z H Hz.
  - simpl. rewrite Hz. destruct (World.resDataListener w); f_equal; f_equal; lia.
  - inversion H as [|? ? He Htr]; subst. rewrite run_cons.
    pose proof (step_frame w e He) as Hfr. unfold frame in Hfr.
    assert (Hl : World.resDataListener (step w e) = World.resDataListener w)
      by congruence.
    pose proof (step_quiet_size w e He) as Hs.
    destruct (World.resDataListener w) eqn:El.
    + destruct e; try discriminate He;
        try (rewrite (IH _ z Htr), Hl by (rewrite Hs; exact Hz); reflexivity).
      rewrite (IH _ (z + chunkLength) Htr), Hl
        by (rewrite Hs, Hz; reflexivity).
      simpl. f_equal; f_equal; lia.
    + rewrite (IH _ z Htr), Hl; [reflexivity|].
      rewrite Hs. destruct e; exact Hz.
Qed.

Lemma requestWithMetrics_observed parseURL UA requestFn cb now input options
    callback req w0 :
  requestWithMetrics parseURL UA requestFn cb now input options callback
    = Some (req, w0) ->
  World.reqListeners w0 = true ->
  frame w0 = ([], false, ∅, None, true, false, false, None).
Proof.
  intros H Hl.
  apply requestWithMetrics_inv in H as (opts & ign & _ & _ & _ & ->).
  destruct ign; [discriminate Hl | reflexivity].
Qed.

(** The state of an observed request once its response has arrived and
    part of the body has been streamed. *)
Lemma after_response parseURL UA requestFn cb now input options callback
    req w0 pre res dl dn mid :
  requestWithMetrics parseURL UA requestFn cb now input options callback
    = Some (req, w0) ->
  World.reqListeners w0 = true ->
  Forall (fun e => quiet e = true) pre ->
  Forall (fun e => quiet e = true) mid ->
  let w := run w0 (pre ++ ReqResponse res dl dn :: mid) in
  ready w /\ Ctx.metricsCallback (World.self w) = Some (default Noop cb) /\
  reported w = false /\ World.calls w = [] /\
  (exists h waitTime,
     Ctx.noResponseEndTimer (World.self w) = Some h /\
     World.timers w = {[ h := waitTime ]}) /\
  World.resEndListener w = true /\
  Ctx.response (World.self w) = Some res /\
  Ctx.responseSize (World.self w) = Some (Num (bodySize res mid)).
Proof.
  intros H Hl Hpre Hmid w.
  pose proof (requestWithMetrics_observed _ _ _ _ _ _ _ _ _ _ H Hl) as Hf0.
  apply requestWithMetrics_ready in H as (Hr & _ & _ & _ & Hcb & _).
  assert (Hrw : ready w) by (apply run_ready, Hr).
  assert (Hcw : Ctx.metricsCallback (World.self w) = Some (default Noop cb)).
  { pose proof (run_static w0 (pre ++ ReqResponse res dl dn :: mid)) as Hs.
    unfold static in Hs. fold w in Hs. congruence. }
  subst w. rewrite run_app, run_cons in *.
  set (w1 := run w0 pre) in *.
  assert (Hf1 : frame w1 = ([], false, ∅, None, true, false, false, None))
    by (unfold w1; rewrite run_frame; assumption).
  unfold frame in Hf1. injection Hf1 as Hc1 Hr1 Ht1 Hh1 Hl1 He1 Hd1 Hres1.
  simpl step in *. rewrite Hl1 in *.
  pose proof (onResponse_effect res dl dn w1) as Heff. cbv zeta in Heff.
  set (w2 := onResponse res dl dn w1) in *.
  destruct Heff
    as (Hc2 & Hr2 & _ & _ & (wt & Ht2) & Hh2 & He2 & _ & Hres2 & Hsz).
  clearbody w2.
  pose proof (run_frame w2 mid Hmid) as Hf3. unfold frame in Hf3.
  injection Hf3 as Hc3 Hr3 Ht3 Hh3 Hl3 He3 Hd3 Hres3.
  split; [exact Hrw|]. split; [exact Hcw|].
  split; [congruence|]. split; [congruence|].
  split.
  { exists (World.nextTimer w1), wt. split; [congruence|].
    rewrite Ht3, Ht2, Ht1. reflexivity. }
  split; [congruence|]. split; [congruence|].
  unfold bodySize.
  destruct (Res.headers res !! "content-length") as [s|];
    [destruct (parseInt s 10) as [z|]|];
    destruct Hsz as [Hsz Hd2];
    rewrite (run_quiet_size mid w2 _ Hmid Hsz), Hd2, ?Hd1;
    f_equal; f_equal; lia.
Qed.

(** The first report, made by [onEnd], is the only one of the run. *)
Lemma onEnd_only_call now w rm f post :
  getRequestMetrics (World.self w) = Some rm ->
  Ctx.metricsCallback (World.self w) = Some f ->
  reported w = false -> World.calls w = [] ->
  World.calls (run (onEnd now w) post)
    = [MkCall f (endReport now w rm) (World.timers (cleared w))].
Proof.
  intros Hrm Hf Hr Hc.
  destruct (onEnd_first now w rm f Hrm Hf Hr) as [Hcalls Hrep].
  rewrite run_calls_reported by exact Hrep. rewrite Hcalls, Hc. reflexivity.
Qed.

(** C2, as the code has it: when the response has arrived and its end has
    not, the firing safety-net timer makes the one report of the request,
    from the state accumulated so far; the timer's firing time is recorded
    as the response end, so [durationReceive] is the time from the first
    response byte to the firing of the timer, and is undefined only when no
    first byte was recorded. *)
Theorem safety_net_reports_partial_metrics parseURL UA requestFn cb now
    input options callback req w0 pre res dl dn mid t post :
  requestWithMetrics parseURL UA requestFn cb now input options callback
    = Some (req, w0) ->
  World.reqListeners w0 = true ->
  Forall (fun e => quiet e = true) pre ->
  Forall (fun e => quiet e = true) mid ->
  let w := run w0 (pre ++ ReqResponse res dl dn :: mid) in
  exists h c rm,
    Ctx.noResponseEndTimer (World.self w) = Some h /\
    getRequestMetrics (World.self w) = Some rm /\
    World.calls (run w (TimerFire h t :: post)) = [c] /\
    metrics c = endReport t w rm /\
    metrics c !! "durationReceive"
      = Some (getDurationInMs (slot w "firstByteAt") (Some t)).
Proof.
  intros H Hl Hpre Hmid w.
  destruct (after_response _ _ _ _ _ _ _ _ _ _ pre res dl dn mid H Hl Hpre Hmid)
    as ([[rm Hrm] _] & Hcb & Hrep & Hc & (h & wt & Hh & Ht) & _).
  fold w in Hrm, Hcb, Hrep, Hc, Hh, Ht.
  exists h. eexists. exists rm.
  split; [exact Hh|]. split; [exact Hrm|].
  rewrite run_cons. simpl step. rewrite Ht, lookup_singleton_eq.
  split; [|split].
  - apply (onEnd_only_call t _ rm (default Noop cb)); assumption.
  - reflexivity.
  - apply (endReport_durationReceive t w rm).
Qed.

Lemma safety_net_reports_partial_metrics_witness :
  let pre := [ReqSocket (HR 0 100)] in
  let mid := [ResData 10] in
  let w :=
    run Scenario.world (pre ++ ReqResponse Scenario.response None 0 :: mid) in
  Scenario.started = Some (Scenario.request, Scenario.world) /\
  World.reqListeners Scenario.world = true /\
  Forall (fun e => quiet e = true) pre /\
  Forall (fun e => quiet e = true) mid /\
  exists h c rm,
    Ctx.noResponseEndTimer (World.self w) = Some h /\
    getRequestMetrics (World.self w) = Some rm /\
    World.calls (run w (TimerFire h (HR 300 0) :: [ResEnd (HR 301 0)])) = [c]
    /\ metrics c = endReport (HR 300 0) w rm /\
    metrics c !! "durationReceive"
      = Some (getDurationInMs (slot w "firstByteAt") (Some (HR 300 0))).
Proof.
  intros pre mid w. split; [reflexivity|]. split; [reflexivity|].
  split; [repeat constructor|]. split; [repeat constructor|].
  apply (safety_net_reports_partial_metrics Scenario.parseURL
           Scenario.USER_AGENT Scenario.httpRequest (Some (Extern 1))
           Scenario.startAt (InStr "https://example.com/api") ArgUndef
           ArgUndef Scenario.request Scenario.world pre Scenario.response
           None 0 mid (HR 300 0) [ResEnd (HR 301 0)]);
    [reflexivity | reflexivity | repeat constructor | repeat constructor].
Defined.

(** C2 as stated fails: the first byte arrives at 1 s, the response headers
    follow, the body is never read and the timer fires at 301 s; the report
    carries [durationReceive] = 300000 ms, not an undefined value. *)
Lemma safety_net_durationReceive_is_a_number :
  let tr := [ReqSocket (HR 0 100); SockData (HR 1 0);
             ReqResponse Scenario.response None 0;
             TimerFire 0 (HR 301 0)] in
  Scenario.started = Some (Scenario.request, Scenario.world) /\
  exists c q,
    World.calls (run Scenario.world tr) = [c] /\
    metrics c !! "durationReceive" = Some (VNum q) /\
    Qeq q 300000 /\
    metrics c !! "durationReceive" <> Some VUndef.
Proof.
  intros tr. split; [reflexivity|].
  eexists. eexists. split; [vm_compute; reflexivity|].
  split; [vm_compute; reflexivity|]. split; [reflexivity|].
  vm_compute. discriminate.
Qed.

(** C3, as the code has it: the reported [responseBodySize] is
    [parseInt(header, 10)] whenever that is a number, whatever is streamed,
    and the sum of the streamed chunk lengths when the header is absent or
    [parseInt] yields NaN. *)
Theorem responseBodySize_header_or_streamed parseURL UA requestFn cb now
    input options callback req w0 pre res dl dn mid t post :
  requestWithMetrics parseURL UA requestFn cb now input options callback
    = Some (req, w0) ->
  World.reqListeners w0 = true ->
  Forall (fun e => quiet e = true) pre ->
  Forall (fun e => quiet e = true) mid ->
  exists c,
    World.calls
      (run w0 (pre ++ ReqResponse res dl dn :: mid ++ ResEnd t :: post))
      = [c] /\
    metrics c !! "responseBodySize"
      = Some (VNum (inject_Z
          match Res.headers res !! "content-length" with
          | Some s =>
              match parseInt s 10 with
              | Num z => z
              | NaN => streamed mid
              end
          | None => streamed mid
          end)).
Proof.
  intros H Hl Hpre Hmid.
  destruct (after_response _ _ _ _ _ _ _ _ _ _ pre res dl dn mid H Hl Hpre Hmid)
    as ([[rm Hrm] _] & Hcb & Hrep & Hc & _ & He & _ & Hsz).
  replace (pre ++ ReqResponse res dl dn :: mid ++ ResEnd t :: post)%list
    with ((pre ++ ReqResponse res dl dn :: mid) ++ ResEnd t :: post)%list
    by (rewrite <- app_assoc; reflexivity).
  rewrite run_app, run_cons.
  set (w := run w0 (pre ++ ReqResponse res dl dn :: mid)) in *.
  simpl step. rewrite He.
  eexists. split.
  - apply (onEnd_only_call t w rm (default Noop cb)); assumption.
  - simpl. rewrite endReport_size, Hsz. reflexivity.
Qed.

Lemma responseBodySize_header_or_streamed_witness :
  let pre := [ReqSocket (HR 0 100)] in
  let mid := [ResData 10; ResData 5] in
  Scenario.started = Some (Scenario.request, Scenario.world) /\
  World.reqListeners Scenario.world = true /\
  Forall (fun e => quiet e = true) pre /\
  Forall (fun e => quiet e = true) mid /\
  exists c,
    World.calls
      (run Scenario.world
         (pre ++ ReqResponse Scenario.response None 0
              :: mid ++ ResEnd (HR 2 0) :: []))
      = [c] /\
    metrics c !! "responseBodySize"
      = Some (VNum (inject_Z
          match Res.headers Scenario.response !! "content-length" with
          | Some s =>
              match parseInt s 10 with
              | Num z => z
              | NaN => streamed mid
              end
          | None => streamed mid
          end)).
Proof.
  intros pre mid. split; [reflexivity|]. split; [reflexivity|].
  split; [repeat constructor|]. split; [repeat constructor|].
  apply (responseBodySize_header_or_streamed Scenario.parseURL
           Scenario.USER_AGENT Scenario.httpRequest (Some (Extern 1))
           Scenario.startAt (InStr "https://example.com/api") ArgUndef
           ArgUndef Scenario.request Scenario.world pre Scenario.response
           None 0 mid (HR 2 0) []);
    [reflexivity | reflexivity | repeat constructor | repeat constructor].
Defined.

(** C3 as stated fails: the header "12abc" is not a number, three bytes are
    streamed, and the report says 12. *)
Lemma numeric_prefix_header_is_not_counted :
  let tr := [ReqResponse Scenario.oddResponse None 0; ResData 3;
             ResEnd (HR 2 0)] in
  Scenario.started = Some (Scenario.request, Scenario.world) /\
  Res.headers Scenario.oddResponse !! "content-length" = Some "12abc" /\
  Number "12abc" = NaN /\
  streamed tr = 3 /\
  exists c,
    World.calls (run Scenario.world tr) = [c] /\
    metrics c !! "responseBodySize" = Some (VNum (inject_Z 12)).
Proof.
  intros tr. repeat split.
  eexists. split; vm_compute; reflexivity.
Qed.

(** C4 fails on the code: the request's finish signal arrives after the
    socket's connect and before its secureConnect; nothing clears
    [sentRequestAt] then, and the reported [durationSend] is negative. *)
Lemma finish_before_secureConnect_negative_send :
  let tr := [ReqSocket (HR 0 100); SockConnect (HR 0 200) None None;
             ReqFinish (HR 0 300); SockSecureConnect (HR 0 400);
             SockData (HR 0 500); ReqResponse Scenario.response None 0;
             ResEnd (HR 0 600)] in
  Scenario.started = Some (Scenario.request, Scenario.world) /\
  exists c q,
    World.calls (run Scenario.world tr) = [c] /\
    metrics c !! "durationSend" = Some (VNum q) /\
    (q < 0)%Q.
Proof.
  intros tr. split; [reflexivity|].
  eexists. eexists. split; [vm_compute; reflexivity|].
  split; [vm_compute; reflexivity|]. reflexivity.
Qed.

(** ** The request target *)

Lemma to_uint_nonnil n : N.to_uint n <> Decimal.Nil.
Proof.
  destruct n; simpl; [discriminate|]. apply DecimalPos.Unsigned.to_uint_nonnil.
Qed.

Lemma Number_showZ n : 0 <= n -> Number (showZ n) = Num n.
Proof.
  intros Hn. unfold showZ, Number.
  destruct (n <? 0) eqn:E; [apply Z.ltb_lt in E; lia|].
  pose proof (to_uint_nonnil (Z.to_N n)) as Hnil.
  unfold NilZero.string_of_uint.
  destruct (N.to_uint (Z.to_N n)) eqn:Ed; try contradiction;
    rewrite <- Ed, NilEmpty.usu; unfold Z.of_uint;
    change (Pos.of_uint (N.to_uint (Z.to_N n)))
      with (N.of_uint (N.to_uint (Z.to_N n)));
    rewrite DecimalN.Unsigned.of_to, Z2N.id by exact Hn; reflexivity.
Qed.

Lemma showZ_nonempty n : showZ n <> "".
Proof.
  unfold showZ. destruct (n <? 0); [discriminate|].
  pose proof (to_uint_nonnil (Z.to_N n)) as Hnil.
  unfold NilZero.string_of_uint.
  destruct (N.to_uint (Z.to_N n)); try contradiction; discriminate.
Qed.

Lemma str_truthy_true s : s <> "" -> str_truthy s = true.
Proof. destruct s; [contradiction | reflexivity]. Qed.

Lemma sor_truthy s b : s <> "" -> sor (Some s) b = Some s.
Proof. intros H. unfold sor. rewrite str_truthy_true by exact H. reflexivity. Qed.


Lemma eqb_empty_false s : s <> "" -> String.eqb s "" = false.
Proof. destruct s; [contradiction | reflexivity]. Qed.














(** A bracketed IPv6 literal is outside that statement: the brackets are
    taken off for the connection and [url] is built from what is left. *)
Lemma ipv6_literal_loses_brackets :
  let u :=
    Url.Make "https:" "[::1]" "" "" "/api" "https://[::1]:8443/api"
      "8443" "" "" in
  exists w0 c,
    requestWithMetrics Scenario.parseURL Scenario.USER_AGENT
      Scenario.httpRequest (Some (Extern 1)) Scenario.startAt (InURL u)
      ArgUndef ArgUndef = Some (Scenario.request, w0) /\
    World.calls (run w0 [ReqError (HR 1 0) Scenario.refused]) = [c] /\
    metrics c !! "host" = Some (VStr "::1") /\
    metrics c !! "url" = Some (VStr "https://::1:8443/api").
Proof.
  intros u. eexists. eexists. split; [reflexivity|].
  split; [vm_compute; reflexivity|]. split; vm_compute; reflexivity.
Qed.


(** * Further properties of the code *)

(** ** Durations compose *)

Lemma elapsed_ms_add a b c :
  (elapsed_ms a b + elapsed_ms b c == elapsed_ms a c)%Q.
Proof.
  unfold elapsed_ms, Qeq, Qplus. simpl. lia.
Qed.

Lemma elapsed_ms_nonneg a b :
  nanoseconds a <= nanoseconds b -> (0 <= elapsed_ms a b)%Q.
Proof.
  intros H. unfold elapsed_ms, Qle. simpl. lia.
Qed.

(** An error bound in the form linear arithmetic takes. *)
Lemma round_error_interval q x :
  (0 <= x)%Q ->
  (Qabs (q - x) * inject_Z (2 ^ 53) <= Qabs x)%Q ->
  (- x <= (q - x) * (9007199254740992 # 1) <= x)%Q.
Proof.
  intros Hx H. rewrite (Qabs_pos x Hx) in H.
  apply Qabs_Qle_condition.
  rewrite Qabs_Qmult.
  change (Qabs (9007199254740992 # 1)) with (inject_Z (2 ^ 53)). exact H.
Qed.

Lemma reading_order a b :
  reading a -> reading b -> nanoseconds a <= nanoseconds b ->
  secs a <= secs b.
Proof. intros [_ Ha] [_ Hb]. unfold nanoseconds. lia. Qed.

(** What the code computes between two readings in clock order: a number
    that is not negative, within 2^-53 of the exact elapsed time. *)
Lemma getDurationInMs_ordered a b :
  reading a -> reading b -> nanoseconds a <= nanoseconds b ->
  secs b - secs a < 9007199 ->
  exists q,
    Rounded.getDurationInMs (Some a) (Some b) = Some (Double.Fin q) /\
    (0 <= elapsed_ms a b)%Q /\
    (- elapsed_ms a b <= (q - elapsed_ms a b) * (9007199254740992 # 1)
     <= elapsed_ms a b)%Q.
Proof.
  intros Ha Hb Ho Hs.
  pose proof (reading_order a b Ha Hb Ho) as Hsec.
  destruct (elapsed_round_error a b) as (q & Hq & H3).
  { destruct Ha as [Ha1 Ha2], Hb as [Hb1 Hb2]. unfold nanoseconds in *.
    assert (2 ^ 53 = 9007199254740992) by reflexivity. lia. }
  exists q. rewrite getDurationInMs_round, Hq by (assumption || lia).
  split; [reflexivity|].
  pose proof (elapsed_ms_nonneg a b Ho) as Hn.
  split; [exact Hn|]. apply round_error_interval; assumption.
Qed.

(** For three readings in clock order, less than 9007199 seconds apart,
    each duration is a number that is not negative, and the durations of
    the two parts add up to the duration of the whole within 2^-52 of the
    exact elapsed time (the sum being the exact one of the two doubles). *)
Theorem getDurationInMs_compose a b c :
  reading a -> reading b -> reading c ->
  nanoseconds a <= nanoseconds b -> nanoseconds b <= nanoseconds c ->
  secs c - secs a < 9007199 ->
  exists p q r,
    Rounded.getDurationInMs (Some a) (Some b) = Some (Double.Fin p) /\
    Rounded.getDurationInMs (Some b) (Some c) = Some (Double.Fin q) /\
    Rounded.getDurationInMs (Some a) (Some c) = Some (Double.Fin r) /\
    (0 <= p)%Q /\ (0 <= q)%Q /\ (0 <= r)%Q /\
    (Qabs (p + q - r) * inject_Z (2 ^ 52) <= elapsed_ms a c)%Q.
Proof.
  intros Ha Hb Hc Hab Hbc Hs.
  pose proof (reading_order a b Ha Hb Hab) as Sab.
  pose proof (reading_order b c Hb Hc Hbc) as Sbc.
  destruct (getDurationInMs_ordered a b Ha Hb Hab ltac:(lia))
    as (p & Hp & Pp & Ep).
  destruct (getDurationInMs_ordered b c Hb Hc Hbc ltac:(lia))
    as (q & Hq & Pq & Eq).
  destruct (getDurationInMs_ordered a c Ha Hc ltac:(lia) Hs)
    as (r & Hr & Pr & Er).
  exists p, q, r. repeat (split; [assumption|]).
  pose proof (elapsed_ms_add a b c) as Hadd.
  set (x := elapsed_ms a b) in *. set (y := elapsed_ms b c) in *.
  set (z := elapsed_ms a c) in *.
  change (inject_Z (2 ^ 52)) with (4503599627370496 # 1).
  split; [lra|]. split; [lra|]. split; [lra|].
  apply Qabs_case; intros _; lra.
Qed.

Lemma getDurationInMs_compose_witness :
  exists p q r,
    Rounded.getDurationInMs (Some (HR 1 0)) (Some (HR 1 100))
      = Some (Double.Fin p) /\
    Rounded.getDurationInMs (Some (HR 1 100)) (Some (HR 1 300))
      = Some (Double.Fin q) /\
    Rounded.getDurationInMs (Some (HR 1 0)) (Some (HR 1 300))
      = Some (Double.Fin r) /\
    (Qabs (p + q - r) * inject_Z (2 ^ 52) <= 300 # 1000000)%Q.
Proof.
  destruct (getDurationInMs_compose (HR 1 0) (HR 1 100) (HR 1 300))
    as (p & q & r & H1 & H2 & H3 & _ & _ & _ & H7);
    [reading_ok | reading_ok | reading_ok | clock_ok | clock_ok | clock_ok |].
  exists p, q, r. repeat split; assumption.
Defined.

(** The two parts need not add up exactly: 0.0001 and 0.0002 ms against
    0.0003 ms. *)
Lemma getDurationInMs_sum_is_rounded :
  exists p q r,
    Rounded.getDurationInMs (Some (HR 1 0)) (Some (HR 1 100))
      = Some (Double.Fin p) /\
    Rounded.getDurationInMs (Some (HR 1 100)) (Some (HR 1 300))
      = Some (Double.Fin q) /\
    Rounded.getDurationInMs (Some (HR 1 0)) (Some (HR 1 300))
      = Some (Double.Fin r) /\
    ~ (p + q == r)%Q.
Proof.
  eexists _, _, _. split; [vm_compute; reflexivity|].
  split; [vm_compute; reflexivity|]. split; [vm_compute; reflexivity|].
  vm_compute. discriminate.
Qed.

Lemma getTimingMetrics_lookups c :
  let t := Ctx.timings c in
  getTimingMetrics c !! "duration"
    = Some (getDurationInMs (t !! "startAt")
              (hor (t !! "errorAt") (t !! "endAt"))) /\
  getTimingMetrics c !! "durationBlocked"
    = Some (getDurationInMs (t !! "startAt") (t !! "socketAt")) /\
  getTimingMetrics c !! "durationDNS"
    = Some (getDurationInMs (t !! "socketAt") (t !! "dnsLookupAt")) /\
  getTimingMetrics c !! "durationConnect"
    = Some (getDurationInMs (hor (t !! "dnsLookupAt") (t !! "socketAt"))
              (t !! "tcpConnectionAt")) /\
  getTimingMetrics c !! "durationSSL"
    = Some (getDurationInMs (t !! "tcpConnectionAt")
              (t !! "tlsHandshakeAt")) /\
  getTimingMetrics c !! "durationSend"
    = Some (getDurationInMs
              (hor (t !! "tlsHandshakeAt") (t !! "tcpConnectionAt"))
              (t !! "sentRequestAt")) /\
  getTimingMetrics c !! "durationWait"
    = Some (getDurationInMs
              (hor (t !! "sentRequestAt")
                 (hor (t !! "tlsHandshakeAt") (t !! "tcpConnectionAt")))
              (t !! "firstByteAt")) /\
  getTimingMetrics c !! "durationReceive"
    = Some (getDurationInMs (t !! "firstByteAt") (t !! "endAt")).
Proof. repeat split. Qed.

Lemma Rounded_getTimingMetrics_lookups c :
  let t := Ctx.timings c in
  Rounded.getTimingMetrics c !! "duration"
    = Some (Rounded.getDurationInMs (t !! "startAt")
              (hor (t !! "errorAt") (t !! "endAt"))) /\
  Rounded.getTimingMetrics c !! "durationBlocked"
    = Some (Rounded.getDurationInMs (t !! "startAt") (t !! "socketAt")) /\
  Rounded.getTimingMetrics c !! "durationDNS"
    = Some (Rounded.getDurationInMs (t !! "socketAt") (t !! "dnsLookupAt")) /\
  Rounded.getTimingMetrics c !! "durationConnect"
    = Some (Rounded.getDurationInMs
              (hor (t !! "dnsLookupAt") (t !! "socketAt"))
              (t !! "tcpConnectionAt")) /\
  Rounded.getTimingMetrics c !! "durationSSL"
    = Some (Rounded.getDurationInMs (t !! "tcpConnectionAt")
              (t !! "tlsHandshakeAt")) /\
  Rounded.getTimingMetrics c !! "durationSend"
    = Some (Rounded.getDurationInMs
              (hor (t !! "tlsHandshakeAt") (t !! "tcpConnectionAt"))
              (t !! "sentRequestAt")) /\
  Rounded.getTimingMetrics c !! "durationWait"
    = Some (Rounded.getDurationInMs
              (hor (t !! "sentRequestAt")
                 (hor (t !! "tlsHandshakeAt") (t !! "tcpConnectionAt")))
              (t !! "firstByteAt")) /\
  Rounded.getTimingMetrics c !! "durationReceive"
    = Some (Rounded.getDurationInMs (t !! "firstByteAt") (t !! "endAt")).
Proof. repeat split. Qed.

(** When every milestone of an https request was recorded, one after the
    other and less than 9007199 seconds from first to last, and no error
    was, the seven phases the code computes are numbers that add up to the
    total duration it computes within 2^-52 of the exact elapsed time (the
    sum being the exact one of the seven doubles). *)
Theorem phases_add_up_to_duration (this : Ctx.t) t0 t1 t2 t3 t4 t5 t6 t7 :
  Ctx.timings this !! "startAt" = Some t0 ->
  Ctx.timings this !! "socketAt" = Some t1 ->
  Ctx.timings this !! "dnsLookupAt" = Some t2 ->
  Ctx.timings this !! "tcpConnectionAt" = Some t3 ->
  Ctx.timings this !! "tlsHandshakeAt" = Some t4 ->
  Ctx.timings this !! "sentRequestAt" = Some t5 ->
  Ctx.timings this !! "firstByteAt" = Some t6 ->
  Ctx.timings this !! "endAt" = Some t7 ->
  Ctx.timings this !! "errorAt" = None ->
  Forall reading [t0; t1; t2; t3; t4; t5; t6; t7] ->
  clockwise [t0; t1; t2; t3; t4; t5; t6; t7] ->
  secs t7 - secs t0 < 9007199 ->
  exists d b n k s x w r,
    Rounded.getTimingMetrics this !! "duration"
      = Some (Some (Double.Fin d)) /\
    Rounded.getTimingMetrics this !! "durationBlocked"
      = Some (Some (Double.Fin b)) /\
    Rounded.getTimingMetrics this !! "durationDNS"
      = Some (Some (Double.Fin n)) /\
    Rounded.getTimingMetrics this !! "durationConnect"
      = Some (Some (Double.Fin k)) /\
    Rounded.getTimingMetrics this !! "durationSSL"
      = Some (Some (Double.Fin s)) /\
    Rounded.getTimingMetrics this !! "durationSend"
      = Some (Some (Double.Fin x)) /\
    Rounded.getTimingMetrics this !! "durationWait"
      = Some (Some (Double.Fin w)) /\
    Rounded.getTimingMetrics this !! "durationReceive"
      = Some (Some (Double.Fin r)) /\
    (Qabs (d - (b + n + k + s + x + w + r)) * inject_Z (2 ^ 52)
     <= elapsed_ms t0 t7)%Q.
Proof.
  intros H0 H1 H2 H3 H4 H5 H6 H7 He Hr Hc Hs.
  destruct (Rounded_getTimingMetrics_lookups this)
    as (Ld & Lb & Ln & Lk & Ls & Lx & Lw & Lr).
  cbv zeta in *.
  rewrite H0, H1, H2, H3, H4, H5, H6, H7, He in *. simpl hor in *.
  repeat match goal with
         | H : Forall _ (_ :: _) |- _ =>
             let R := fresh "R" in
             apply List.Forall_cons_iff in H as [R H]
         end.
  destruct Hc as (C01 & C12 & C23 & C34 & C45 & C56 & C67 & _).
  pose proof (reading_order t0 t1 R R0 C01).
  pose proof (reading_order t1 t2 R0 R1 C12).
  pose proof (reading_order t2 t3 R1 R2 C23).
  pose proof (reading_order t3 t4 R2 R3 C34).
  pose proof (reading_order t4 t5 R3 R4 C45).
  pose proof (reading_order t5 t6 R4 R5 C56).
  pose proof (reading_order t6 t7 R5 R6 C67).
  destruct (getDurationInMs_ordered t0 t7 R R6 ltac:(lia) Hs)
    as (d & Hd & Pd & Ed).
  destruct (getDurationInMs_ordered t0 t1 R R0 C01 ltac:(lia))
    as (b & Hb & Pb & Eb).
  destruct (getDurationInMs_ordered t1 t2 R0 R1 C12 ltac:(lia))
    as (n & Hn & Pn & En).
  destruct (getDurationInMs_ordered t2 t3 R1 R2 C23 ltac:(lia))
    as (k & Hk & Pk & Ek).
  destruct (getDurationInMs_ordered t3 t4 R2 R3 C34 ltac:(lia))
    as (s & Hs' & Ps & Es).
  destruct (getDurationInMs_ordered t4 t5 R3 R4 C45 ltac:(lia))
    as (x & Hx & Px & Ex).
  destruct (getDurationInMs_ordered t5 t6 R4 R5 C56 ltac:(lia))
    as (w & Hw & Pw & Ew).
  destruct (getDurationInMs_ordered t6 t7 R5 R6 C67 ltac:(lia))
    as (r & Hr' & Pr & Er).
  exists d, b, n, k, s, x, w, r.
  rewrite Ld, Lb, Ln, Lk, Ls, Lx, Lw, Lr, Hd, Hb, Hn, Hk, Hs', Hx, Hw, Hr'.
  repeat (split; [reflexivity|]).
  pose proof (elapsed_ms_add t0 t1 t2) as A1.
  pose proof (elapsed_ms_add t0 t2 t3) as A2.
  pose proof (elapsed_ms_add t0 t3 t4) as A3.
  pose proof (elapsed_ms_add t0 t4 t5) as A4.
  pose proof (elapsed_ms_add t0 t5 t6) as A5.
  pose proof (elapsed_ms_add t0 t6 t7) as A6.
  change (inject_Z (2 ^ 52)) with (4503599627370496 # 1).
  repeat match goal with
         | |- context [elapsed_ms ?a ?b] =>
             let v := fresh "e" in
             generalize dependent (elapsed_ms a b); intros v; intros
         end.
  apply Qabs_case; intros _; lra.
Qed.

Lemma phases_add_up_to_duration_witness :
  let this :=
    Ctx.with_timings
      (list_to_map
         [("startAt", HR 0 0); ("socketAt", HR 0 100);
          ("dnsLookupAt", HR 0 300); ("tcpConnectionAt", HR 0 600);
          ("tlsHandshakeAt", HR 0 1000); ("sentRequestAt", HR 0 1500);
          ("firstByteAt", HR 0 2100); ("endAt", HR 1 800)])
      (new (HR 0 0)) in
  exists d b n k s x w r,
    Rounded.getTimingMetrics this !! "duration"
      = Some (Some (Double.Fin d)) /\
    Rounded.getTimingMetrics this !! "durationBlocked"
      = Some (Some (Double.Fin b)) /\
    Rounded.getTimingMetrics this !! "durationDNS"
      = Some (Some (Double.Fin n)) /\
    Rounded.getTimingMetrics this !! "durationConnect"
      = Some (Some (Double.Fin k)) /\
    Rounded.getTimingMetrics this !! "durationSSL"
      = Some (Some (Double.Fin s)) /\
    Rounded.getTimingMetrics this !! "durationSend"
      = Some (Some (Double.Fin x)) /\
    Rounded.getTimingMetrics this !! "durationWait"
      = Some (Some (Double.Fin w)) /\
    Rounded.getTimingMetrics this !! "durationReceive"
      = Some (Some (Double.Fin r)) /\
    (Qabs (d - (b + n + k + s + x + w + r)) * inject_Z (2 ^ 52)
     <= 1000000800 # 1000000)%Q.
Proof.
  intros this.
  apply (phases_add_up_to_duration this (HR 0 0) (HR 0 100) (HR 0 300)
           (HR 0 600) (HR 0 1000) (HR 0 1500) (HR 0 2100) (HR 1 800));
    try reflexivity.
  - repeat (apply List.Forall_cons; [reading_ok|]). apply List.Forall_nil.
  - repeat split; clock_ok.
Defined.

(** ** What a step does to the timings and to the list of calls *)

Lemma step_timings w e :
  Ctx.timings (World.self (step w e)) = Ctx.timings (World.self w) \/
  Ctx.timings (World.self (step w e)) = effect e (Ctx.timings (World.self w)).
Proof.
  destruct e; handlers; rewrite ?triggerMetrics_timings;
    repeat lazymatch goal with
      | |- context [onResponse ?r ?d ?n ?w'] =>
          let H := fresh in
          destruct (onResponse_effect r d n w') as (_ & _ & _ & H & _);
          rewrite H; clear H
      end;
    simpl; auto.
Qed.

(** The three records the terminal handlers pass to [triggerMetrics]. *)
Lemma extra_keys_onEnd (a b c : value) k :
  k ∉ extraKeys ->
  (list_to_map [("requestBodySize", a); ("responseBodySize", b);
                ("serverRequestId", c)] : gmap string value) !! k = None.
Proof.
  unfold extraKeys. rewrite !not_elem_of_cons.
  intros (? & ? & ? & _). rewrite !list_to_map_cons.
  rewrite !lookup_insert_ne by congruence. apply lookup_empty.
Qed.

Lemma extra_keys_onError (a b c : value) k :
  k ∉ extraKeys ->
  (list_to_map [("error", a); ("errorMessage", b); ("errorCode", c)]
     : gmap string value) !! k = None.
Proof.
  unfold extraKeys. rewrite !not_elem_of_cons.
  intros (_ & _ & _ & ? & ? & ? & _). rewrite !list_to_map_cons.
  rewrite !lookup_insert_ne by congruence. apply lookup_empty.
Qed.

Lemma triggerMetrics_calls extra w :
  (forall k, k ∉ extraKeys -> extra !! k = None) ->
  World.calls (triggerMetrics extra w) = World.calls w \/
  (reported w = false /\ added w (triggerMetrics extra w) (World.self w)).
Proof.
  intros He. rewrite triggerMetrics_unfold. cbv zeta.
  rewrite cleared_self. unfold reported.
  destruct (Ctx.metricsTriggered (World.self w)) eqn:Ht;
    [left; apply cleared_calls|].
  destruct (getRequestMetrics (World.self w)) as [rm|] eqn:Hrm;
    [|left; simpl; apply cleared_calls].
  destruct (Ctx.metricsCallback (World.self w)) as [f|];
    [|left; simpl; apply cleared_calls].
  right. split; [reflexivity|].
  exists f, rm, extra, (World.timers (cleared w)).
  simpl. rewrite cleared_calls. auto.
Qed.

(** A step leaves the calls alone or adds one, made from the state the
    event's listener has just updated. *)
Lemma step_calls w e :
  World.calls (step w e) = World.calls w \/
  (reported w = false /\
   exists this,
     added w (step w e) this /\
     Ctx.timings this = effect e (Ctx.timings (World.self w)) /\
     Ctx.requestBodySize this = Ctx.requestBodySize (World.self w) /\
     Ctx.responseSize this = Ctx.responseSize (World.self w) /\
     Ctx.serverRequestId this = Ctx.serverRequestId (World.self w) /\
     Ctx.response this = Ctx.response (World.self w) /\
     Ctx.localAddress this = Ctx.localAddress (World.self w) /\
     Ctx.remoteAddress this = Ctx.remoteAddress (World.self w)).
Proof.
  destruct e; handlers;
    lazymatch goal with
    | |- context [triggerMetrics ?x ?w'] =>
        let H := fresh in
        assert (H : forall k, k ∉ extraKeys -> x !! k = None)
          by (intros k Hk;
              lazymatch x with
              | context ["requestBodySize"] => apply extra_keys_onEnd
              | _ => apply extra_keys_onError
              end;
              exact Hk);
        destruct (triggerMetrics_calls x w' H)
          as [Hc | [Hr (f & rm & ex & p & Hc & Hrm & Hex)]];
        [left; exact Hc
        | right; split; [exact Hr|];
          exists (World.self w'); split;
          [exists f, rm, ex, p; split; [exact Hc | split; assumption]
          | repeat split]]
    | |- context [onResponse ?r ?d ?n ?w'] =>
        left; destruct (onResponse_effect r d n w') as (-> & _); reflexivity
    | |- _ => left; reflexivity
    end.
Qed.

(** A timing field of a delivered record is the one [getTimingMetrics]
    computes. *)
Lemma spread_timing rm this extra k v :
  k ∉ extraKeys ->
  (forall k, k ∉ extraKeys -> extra !! k = None) ->
  getTimingMetrics this !! k = Some v ->
  spread rm (getResponseMetrics this) (getTimingMetrics this) extra !! k
    = Some v.
Proof.
  intros Hk He Hv. unfold spread. rewrite lookup_union_r by (apply He, Hk).
  apply lookup_union_Some_l, Hv.
Qed.

(** ** Fields and listeners the reporting handlers leave alone *)

Lemma triggerMetrics_fields extra w :
  let w' := triggerMetrics extra w in
  Ctx.requestBodySize (World.self w') = Ctx.requestBodySize (World.self w) /\
  Ctx.responseSize (World.self w') = Ctx.responseSize (World.self w) /\
  Ctx.serverRequestId (World.self w') = Ctx.serverRequestId (World.self w) /\
  Ctx.response (World.self w') = Ctx.response (World.self w) /\
  World.writeWrapped w' = World.writeWrapped w /\
  World.reqListeners w' = World.reqListeners w /\
  World.reqErrorOnce w' = World.reqErrorOnce w /\
  World.sockListeners w' = World.sockListeners w /\
  World.sockDataOnce w' = World.sockDataOnce w /\
  World.resDataListener w' = World.resDataListener w /\
  World.resEndListener w' = World.resEndListener w /\
  World.console w' = World.console w.
Proof.
  cbv zeta. rewrite triggerMetrics_unfold. cbv zeta. unfold cleared.
  repeat case_match; simpl; repeat split.
Qed.

Lemma onResponse_fields res dl dn w :
  let w' := onResponse res dl dn w in
  Ctx.requestBodySize (World.self w') = Ctx.requestBodySize (World.self w) /\
  Ctx.serverRequestId (World.self w')
    = sor (Res.headers res !! "x-request-id")
          (Res.headers res !! "x-correlation-id") /\
  World.writeWrapped w' = World.writeWrapped w /\
  World.reqErrorOnce w' = World.reqErrorOnce w /\
  World.sockListeners w' = World.sockListeners w /\
  World.sockDataOnce w' = World.sockDataOnce w /\
  World.console w' = World.console w /\
  World.nextTimer w' = S (World.nextTimer w).
Proof.
  unfold onResponse, startNoResponseEndTimer. simpl.
  repeat case_match; simpl; repeat split.
Qed.

(** ** No report before a terminal signal *)

Lemma step_not_terminal w e :
  isError e || isEnd e = false ->
  World.calls (step w e) = World.calls w /\ reported (step w e) = reported w.
Proof.
  intros H. destruct e; try discriminate H.
  all: try (match goal with
            | |- context [step ?w' ?e] =>
                pose proof (step_frame w' e eq_refl) as Hf
            end;
            unfold frame in Hf; injection Hf as Hc Hr _ _ _ _ _ _;
            split; assumption).
  simpl. destruct (World.reqListeners w); [|split; reflexivity].
  destruct (onResponse_effect response deadline dateNow w) as (Hc & Hr & _).
  split; assumption.
Qed.

(** However many non-terminal events are delivered (socket, lookup,
    connect, handshake, data, writes, finish, response headers, body
    chunks), the metrics callback is not invoked and the request stays
    unreported. *)
Theorem no_report_before_terminal_signal parseURL UA requestFn cb now input
    options callback req w0 tr :
  requestWithMetrics parseURL UA requestFn cb now input options callback
    = Some (req, w0) ->
  Forall (fun e => isError e || isEnd e = false) tr ->
  World.calls (run w0 tr) = [] /\ reported (run w0 tr) = false.
Proof.
  intros H Htr.
  apply requestWithMetrics_ready in H as (_ & Hc & Hr & _).
  revert Hc Hr. generalize w0. clear w0.
  induction Htr as [|e tr He _ IH]; intros w Hc Hr; [split; assumption|].
  rewrite run_cons. destruct (step_not_terminal w e He) as [Hc' Hr'].
  apply IH; congruence.
Qed.

Lemma no_report_before_terminal_signal_witness :
  let tr := [ReqSocket (HR 0 100); SockLookup (HR 0 200);
             SockConnect (HR 0 300) None None; Write (Some 12);
             ReqFinish (HR 0 400); SockData (HR 0 500);
             ReqResponse Scenario.response None 0; ResData 42] in
  Scenario.started = Some (Scenario.request, Scenario.world) /\
  Forall (fun e => isError e || isEnd e = false) tr /\
  World.calls (run Scenario.world tr) = [] /\
  reported (run Scenario.world tr) = false.
Proof.
  intros tr. split; [reflexivity|].
  assert (Hf : Forall (fun e => isError e || isEnd e = false) tr)
    by (repeat constructor).
  split; [exact Hf|].
  apply (no_report_before_terminal_signal Scenario.parseURL
           Scenario.USER_AGENT Scenario.httpRequest (Some (Extern 1))
           Scenario.startAt (InStr "https://example.com/api") ArgUndef
           ArgUndef Scenario.request Scenario.world tr eq_refl Hf).
Defined.

(** ** The request body counter *)

Lemma step_requestBodySize w e :
  World.writeWrapped (step w e) = World.writeWrapped w /\
  Ctx.requestBodySize (World.self (step w e)) =
    match e with
    | Write (Some n) =>
        if World.writeWrapped w && negb (n =? 0)
        then add_size (Ctx.requestBodySize (World.self w)) n
        else Ctx.requestBodySize (World.self w)
    | _ => Ctx.requestBodySize (World.self w)
    end.
Proof.
  destruct e as [[n|]| | | | | | | | | | | |];
    [simpl; destruct (World.writeWrapped w) eqn:E; [destruct (n =? 0)|];
     simpl; rewrite ?E; split; reflexivity | ..];
    handlers;
    lazymatch goal with
    | |- context [triggerMetrics ?x ?w'] =>
        destruct (triggerMetrics_fields x w')
          as (-> & _ & _ & _ & -> & _); split; reflexivity
    | |- context [onResponse ?r ?d ?n ?w'] =>
        destruct (onResponse_fields r d n w') as (-> & _ & -> & _);
        split; reflexivity
    | |- _ => split; first [reflexivity | assumption | congruence]
    end.
Qed.

Lemma run_requestBodySize tr : forall w z,
  World.writeWrapped w = true ->
  Ctx.requestBodySize (World.self w) = Some (Num z) ->
  Ctx.requestBodySize (World.self (run w tr)) = Some (Num (z + written tr)).
Proof.
  induction tr as [|e tr IH]; intros w z Hw Hz.
  - simpl. rewrite Hz. f_equal; f_equal; lia.
  - rewrite run_cons. destruct (step_requestBodySize w e) as [Hw' Hs].
    rewrite Hw in Hw', Hs.
    destruct e as [[n|]| | | | | | | | | | | |]; cbv beta iota in Hs;
      try (rewrite (IH _ z Hw' (eq_trans Hs Hz)); reflexivity).
    destruct (n =? 0) eqn:En; cbn [andb negb] in Hs.
    + apply Z.eqb_eq in En. subst n.
      rewrite (IH _ z Hw' (eq_trans Hs Hz)). simpl. f_equal; f_equal; lia.
    + rewrite Hz in Hs. cbn [add_size] in Hs.
      rewrite (IH _ (z + n) Hw' Hs). simpl. f_equal; f_equal; lia.
Qed.

(** A run that has not reported yet has no calls and can report. *)
Lemma unreported_run parseURL UA requestFn cb now input options callback
    req w0 pre :
  requestWithMetrics parseURL UA requestFn cb now input options callback
    = Some (req, w0) ->
  reported (run w0 pre) = false ->
  World.calls (run w0 pre) = [] /\
  Ctx.metricsCallback (World.self (run w0 pre)) = Some (default Noop cb) /\
  exists rm, getRequestMetrics (World.self (run w0 pre)) = Some rm.
Proof.
  intros H Hrep.
  apply requestWithMetrics_ready in H as (Hr & Hc & Hr0 & _ & Hcb & _).
  assert (Ho : once (run w0 pre)).
  { apply run_once; [exact Hr|]. unfold once. rewrite Hc, Hr0. reflexivity. }
  unfold once in Ho. rewrite Hrep in Ho.
  split; [destruct (World.calls (run w0 pre)); [reflexivity|discriminate]|].
  split.
  - pose proof (run_static w0 pre) as Hs. unfold static in Hs. congruence.
  - destruct (run_ready w0 pre Hr) as [[rm Hrm] _]. eauto.
Qed.

(** When the response end makes the report, [requestBodySize] is the
    number of bytes passed to [request.write] until then. *)
Theorem requestBodySize_counts_written_bytes parseURL UA requestFn cb now
    input options callback req w0 pre t post :
  requestWithMetrics parseURL UA requestFn cb now input options callback
    = Some (req, w0) ->
  World.reqListeners w0 = true ->
  reported (run w0 pre) = false ->
  World.resEndListener (run w0 pre) = true ->
  exists c,
    World.calls (run w0 (pre ++ ResEnd t :: post)) = [c] /\
    metrics c !! "requestBodySize" = Some (VNum (inject_Z (written pre))).
Proof.
  intros H Hl Hrep He.
  destruct (unreported_run _ _ _ _ _ _ _ _ _ _ pre H Hrep)
    as (Hc & Hcb & rm & Hrm).
  assert (Hsz : Ctx.requestBodySize (World.self (run w0 pre))
                = Some (Num (0 + written pre))).
  { apply requestWithMetrics_inv in H as (opts & ign & _ & _ & _ & ->).
    destruct ign; [discriminate Hl|].
    apply run_requestBodySize; reflexivity. }
  rewrite run_app, run_cons. simpl step. rewrite He.
  eexists. split.
  - apply (onEnd_only_call t _ rm (default Noop cb)); assumption.
  - simpl. unfold endReport, spread.
    erewrite lookup_union_Some_l; [reflexivity|].
    rewrite list_to_map_cons, lookup_insert_eq. simpl.
    rewrite Hsz. reflexivity.
Qed.

Lemma requestBodySize_counts_written_bytes_witness :
  let pre := [Write (Some 10); ReqSocket (HR 0 100); Write None;
              Write (Some 5); ReqFinish (HR 0 200);
              ReqResponse Scenario.response None 0] in
  Scenario.started = Some (Scenario.request, Scenario.world) /\
  World.reqListeners Scenario.world = true /\
  reported (run Scenario.world pre) = false /\
  World.resEndListener (run Scenario.world pre) = true /\
  exists c,
    World.calls (run Scenario.world (pre ++ ResEnd (HR 1 0) :: [])) = [c] /\
    metrics c !! "requestBodySize" = Some (VNum (inject_Z (written pre))).
Proof.
  intros pre. split; [reflexivity|]. split; [reflexivity|].
  split; [reflexivity|]. split; [reflexivity|].
  apply (requestBodySize_counts_written_bytes Scenario.parseURL
           Scenario.USER_AGENT Scenario.httpRequest (Some (Extern 1))
           Scenario.startAt (InStr "https://example.com/api") ArgUndef
           ArgUndef Scenario.request Scenario.world pre (HR 1 0) []);
    reflexivity.
Defined.

(** ** Error and timeout reports *)

Lemma step_terminal_kind w e :
  ready w -> isError e || isEnd e = true ->
  step w e = w \/ reported (step w e) = true.
Proof.
  intros Hr He. destruct e; try discriminate He; handlers; auto; right;
    apply triggerMetrics_reported, mark_ready;
    (apply (ready_static w); [reflexivity | exact Hr]).
Qed.

(** Until the report is made neither terminal slot is set. *)
Lemma unreported_slots parseURL UA requestFn cb now input options callback
    req w0 tr :
  requestWithMetrics parseURL UA requestFn cb now input options callback
    = Some (req, w0) ->
  reported (run w0 tr) = false ->
  slot (run w0 tr) "endAt" = None /\ slot (run w0 tr) "errorAt" = None /\
  slot (run w0 tr) "startAt" = Some now.
Proof.
  intros H Hrep.
  pose proof (requestWithMetrics_ready _ _ _ _ _ _ _ _ _ _ H)
    as (Hr & _ & _ & _ & _ & _ & Ht).
  assert (Hs : slot (run w0 tr) "startAt" = Some now)
    by (rewrite run_startAt; unfold slot; rewrite Ht; reflexivity).
  assert (H0 : slot w0 "endAt" = None /\ slot w0 "errorAt" = None)
    by (unfold slot; rewrite Ht; split; reflexivity).
  clear H Ht. cut (slot (run w0 tr) "endAt" = None
                   /\ slot (run w0 tr) "errorAt" = None); [tauto|].
  clear Hs. revert H0 Hrep Hr. generalize w0. clear w0.
  induction tr as [|e tr IH]; intros w H0 Hrep Hr; [exact H0|].
  rewrite run_cons in *.
  destruct (isError e || isEnd e) eqn:He.
  - destruct (step_terminal_kind w e Hr He) as [Hsame | Hrep'].
    + rewrite Hsame in *. apply IH; assumption.
    + rewrite run_reported_mono in Hrep by exact Hrep'. discriminate.
  - apply orb_false_elim in He as [He1 He2].
    apply IH; [|exact Hrep|apply step_ready, Hr].
    rewrite step_endAt, step_errorAt by assumption. exact H0.
Qed.

(** The first report, whatever makes it, is the only one of the run. *)
Lemma trigger_only_call extra w rm f post :
  getRequestMetrics (World.self w) = Some rm ->
  Ctx.metricsCallback (World.self w) = Some f ->
  reported w = false -> World.calls w = [] ->
  World.calls (run (triggerMetrics extra w) post)
    = [MkCall f
         (spread rm (getResponseMetrics (World.self w))
            (getTimingMetrics (World.self w)) extra)
         (World.timers (cleared w))].
Proof.
  intros Hrm Hf Hr Hc.
  assert (Hrep : reported (triggerMetrics extra w) = true)
    by (apply triggerMetrics_reported; split; eauto).
  rewrite run_calls_reported by exact Hrep.
  rewrite (triggerMetrics_ready _ _ rm f Hrm Hf), Hr. simpl.
  rewrite Hc. reflexivity.
Qed.

Lemma spread_extra rm res tim extra k v :
  extra !! k = Some v -> spread rm res tim extra !! k = Some v.
Proof. intros H. unfold spread. apply lookup_union_Some_l, H. Qed.

(** The fields of a record that only [onEnd] sets. *)
Lemma error_record_has_no_sizes rm this (a b c : value) k :
  getRequestMetrics this = Some rm ->
  k ∈ ["requestBodySize"; "responseBodySize"; "serverRequestId"] ->
  spread rm (getResponseMetrics this) (getTimingMetrics this)
    (list_to_map [("error", a); ("errorMessage", b); ("errorCode", c)])
    !! k = None.
Proof.
  intros Hrm Hk. unfold spread.
  rewrite !elem_of_cons, elem_of_nil in Hk.
  assert (Hreq : rm !! k = None).
  { apply (getRequestMetrics_other this); [exact Hrm|].
    unfold requestKeys.
    destruct Hk as [-> | [-> | [-> | []]]]; not_in_keys. }
  assert (Hres : getResponseMetrics this !! k = None).
  { unfold getResponseMetrics. destruct (Ctx.response this);
      [|apply lookup_empty].
    destruct Hk as [-> | [-> | [-> | []]]]; reflexivity. }
  rewrite !lookup_union_None. repeat split; try assumption;
    destruct Hk as [-> | [-> | [-> | []]]]; reflexivity.
Qed.

(** When the request's error signal is the first terminal signal, the one
    record delivered carries [error: true], the error's message and code,
    the time from the start to the error as [duration], an undefined
    [durationReceive], and no body sizes or server request id at all. *)
Theorem error_report parseURL UA requestFn cb now input options callback
    req w0 pre t err post :
  requestWithMetrics parseURL UA requestFn cb now input options callback
    = Some (req, w0) ->
  reported (run w0 pre) = false ->
  World.reqErrorOnce (run w0 pre) = true ->
  exists c,
    World.calls (run w0 (pre ++ ReqError t err :: post)) = [c] /\
    metrics c !! "error" = Some (VBool true) /\
    metrics c !! "errorMessage" = Some (Err.message err) /\
    metrics c !! "errorCode" = Some (Err.code err) /\
    metrics c !! "duration" = Some (getDurationInMs (Some now) (Some t)) /\
    metrics c !! "durationReceive" = Some VUndef /\
    metrics c !! "requestBodySize" = None /\
    metrics c !! "responseBodySize" = None /\
    metrics c !! "serverRequestId" = None.
Proof.
  intros H Hrep He.
  destruct (unreported_run _ _ _ _ _ _ _ _ _ _ pre H Hrep)
    as (Hc & Hcb & rm & Hrm).
  destruct (unreported_slots _ _ _ _ _ _ _ _ _ _ pre H Hrep)
    as (Hend & _ & Hstart).
  rewrite run_app, run_cons. set (w := run w0 pre) in *.
  simpl step. rewrite He. unfold onError.
  eexists. split.
  - apply (trigger_only_call _ _ rm (default Noop cb)); assumption.
  - unfold slot in *. cbn [metrics].
    set (this := World.self
                   (World.mark "errorAt" t (World.with_reqErrorOnce false w))).
    assert (Htm : Ctx.timings this
                  = <["errorAt" := t]> (Ctx.timings (World.self w)))
      by reflexivity.
    destruct (getTimingMetrics_lookups this)
      as (Ld & _ & _ & _ & _ & _ & _ & Lr). cbv zeta in Ld, Lr.
    rewrite Htm in Ld, Lr.
    rewrite lookup_insert_eq in Ld.
    rewrite !lookup_insert_ne in Ld, Lr by discriminate.
    rewrite Hstart in Ld. rewrite Hend in Lr.
    rewrite getDurationInMs_unset_r in Lr. simpl hor in Ld.
    split; [apply spread_extra; reflexivity|].
    split; [apply spread_extra; reflexivity|].
    split; [apply spread_extra; reflexivity|].
    split; [apply spread_timing;
            [unfold extraKeys; not_in_keys | apply extra_keys_onError
            | exact Ld]|].
    split; [apply spread_timing;
            [unfold extraKeys; not_in_keys | apply extra_keys_onError
            | exact Lr]|].
    repeat split; apply error_record_has_no_sizes;
      try exact Hrm; rewrite !elem_of_cons; tauto.
Qed.

Lemma error_report_witness :
  let pre := [Write (Some 3)] in
  Scenario.started = Some (Scenario.request, Scenario.world) /\
  reported (run Scenario.world pre) = false /\
  World.reqErrorOnce (run Scenario.world pre) = true /\
  exists c,
    World.calls
      (run Scenario.world
         (pre ++ ReqError (HR 0 700) Scenario.refused :: [])) = [c] /\
    metrics c !! "error" = Some (VBool true) /\
    metrics c !! "errorCode" = Some (VStr "ECONNREFUSED") /\
    metrics c !! "durationReceive" = Some VUndef /\
    metrics c !! "responseBodySize" = None.
Proof.
  intros pre. split; [reflexivity|]. split; [reflexivity|].
  split; [reflexivity|].
  destruct (error_report Scenario.parseURL Scenario.USER_AGENT
              Scenario.httpRequest (Some (Extern 1)) Scenario.startAt
              (InStr "https://example.com/api") ArgUndef ArgUndef
              Scenario.request Scenario.world pre (HR 0 700)
              Scenario.refused [] eq_refl eq_refl eq_refl)
    as (c & Hc & H1 & _ & H3 & _ & H5 & _ & H7 & _).
  exists c. repeat split; assumption.
Defined.

(** When the request's timeout signal is the first terminal signal, the
    one record delivered carries [error: true], the message "Connection
    timed out" and the code 110, and the time from the start to the
    timeout as [duration]. *)
Theorem timeout_report parseURL UA requestFn cb now input options callback
    req w0 pre t post :
  requestWithMetrics parseURL UA requestFn cb now input options callback
    = Some (req, w0) ->
  reported (run w0 pre) = false ->
  World.reqListeners (run w0 pre) = true ->
  exists c,
    World.calls (run w0 (pre ++ ReqTimeout t :: post)) = [c] /\
    metrics c !! "error" = Some (VBool true) /\
    metrics c !! "errorMessage" = Some (VStr "Connection timed out") /\
    metrics c !! "errorCode" = Some (VNum (inject_Z 110)) /\
    metrics c !! "duration" = Some (getDurationInMs (Some now) (Some t)) /\
    metrics c !! "responseBodySize" = None.
Proof.
  intros H Hrep He.
  destruct (unreported_run _ _ _ _ _ _ _ _ _ _ pre H Hrep)
    as (Hc & Hcb & rm & Hrm).
  destruct (unreported_slots _ _ _ _ _ _ _ _ _ _ pre H Hrep)
    as (_ & _ & Hstart).
  rewrite run_app, run_cons. set (w := run w0 pre) in *.
  simpl step. rewrite He. unfold onTimeout.
  eexists. split.
  - apply (trigger_only_call _ _ rm (default Noop cb)); assumption.
  - unfold slot in *. cbn [metrics].
    set (this := World.self (World.mark "errorAt" t w)).
    assert (Htm : Ctx.timings this
                  = <["errorAt" := t]> (Ctx.timings (World.self w)))
      by reflexivity.
    destruct (getTimingMetrics_lookups this) as (Ld & _).
    cbv zeta in Ld. rewrite Htm in Ld.
    rewrite lookup_insert_eq in Ld.
    rewrite !lookup_insert_ne in Ld by discriminate.
    rewrite Hstart in Ld. simpl hor in Ld.
    split; [apply spread_extra; reflexivity|].
    split; [apply spread_extra; reflexivity|].
    split; [apply spread_extra; reflexivity|].
    split; [apply spread_timing;
            [unfold extraKeys; not_in_keys | apply extra_keys_onError
            | exact Ld]|].
    apply error_record_has_no_sizes;
      [exact Hrm | rewrite !elem_of_cons; tauto].
Qed.

Lemma timeout_report_witness :
  let pre := [ReqSocket (HR 0 100)] in
  Scenario.started = Some (Scenario.request, Scenario.world) /\
  reported (run Scenario.world pre) = false /\
  World.reqListeners (run Scenario.world pre) = true /\
  exists c,
    World.calls
      (run Scenario.world (pre ++ ReqTimeout (HR 30 0) :: [])) = [c] /\
    metrics c !! "errorCode" = Some (VNum (inject_Z 110)).
Proof.
  intros pre. split; [reflexivity|]. split; [reflexivity|].
  split; [reflexivity|].
  destruct (timeout_report Scenario.parseURL Scenario.USER_AGENT
              Scenario.httpRequest (Some (Extern 1)) Scenario.startAt
              (InStr "https://example.com/api") ArgUndef ArgUndef
              Scenario.request Scenario.world pre (HR 30 0) []
              eq_refl eq_refl eq_refl)
    as (c & Hc & _ & _ & H3 & _).
  exists c. split; assumption.
Defined.

(** ** The terminal slots *)

(** A terminal signal that reaches its listener writes its own slot and
    leaves the other one alone. *)
Lemma step_terminal_slots w e t :
  terminal w e = true -> instant e = Some t ->
  (isError e = true ->
   slot (step w e) "errorAt" = Some t /\
   slot (step w e) "endAt" = slot w "endAt") /\
  (isEnd e = true ->
   slot (step w e) "endAt" = Some t /\
   slot (step w e) "errorAt" = slot w "errorAt").
Proof.
  intros Ht Hi. destruct e; try discriminate Ht; simpl in Ht;
    injection Hi as <-; (split; intros He; [try discriminate He..]);
    try (apply bool_decide_eq_true in Ht; destruct Ht as [d Hd]);
    unfold slot; simpl; rewrite ?Ht, ?Hd;
    unfold onEnd, onError, onTimeout; rewrite triggerMetrics_timings;
    simpl; rewrite lookup_insert_eq, lookup_insert_ne by discriminate;
    split; reflexivity.
Qed.

(** Anything else leaves both terminal slots as they are. *)
Lemma step_other_slots w e :
  terminal w e = false ->
  slot (step w e) "errorAt" = slot w "errorAt" /\
  slot (step w e) "endAt" = slot w "endAt".
Proof.
  intros Ht.
  destruct (isError e || isEnd e) eqn:He.
  - assert (Hs : step w e = w).
    { destruct e; try discriminate He; simpl in Ht; simpl; rewrite ?Ht;
        try reflexivity.
      apply bool_decide_eq_false in Ht.
      destruct (World.timers w !! h) eqn:E; [|reflexivity].
      exfalso. apply Ht. eauto. }
    rewrite Hs. split; reflexivity.
  - apply orb_false_elim in He as [He1 He2].
    split; [apply step_errorAt, He1 | apply step_endAt, He2].
Qed.

(** The first terminal signal delivers the record, whose duration runs
    from the start to that signal. *)
Lemma first_terminal_duration parseURL UA requestFn cb now input options
    callback req w0 pre e t post :
  requestWithMetrics parseURL UA requestFn cb now input options callback
    = Some (req, w0) ->
  reported (run w0 pre) = false ->
  terminal (run w0 pre) e = true -> instant e = Some t ->
  exists c,
    World.calls (run w0 (pre ++ e :: post)) = [c] /\
    metrics c !! "duration" = Some (getDurationInMs (Some now) (Some t)).
Proof.
  intros H Hrep Ht Hi.
  destruct (unreported_run _ _ _ _ _ _ _ _ _ _ pre H Hrep) as (Hc & _).
  destruct (unreported_slots _ _ _ _ _ _ _ _ _ _ pre H Hrep)
    as (Hend & Herr & Hstart).
  pose proof (requestWithMetrics_ready _ _ _ _ _ _ _ _ _ _ H)
    as (Hr & Hc0 & Hr0 & _).
  assert (Hrw : ready (run w0 pre)) by (apply run_ready, Hr).
  assert (Ho : once (run w0 pre))
    by (apply run_once; [exact Hr|]; unfold once; rewrite Hc0, Hr0;
        reflexivity).
  rewrite run_app, run_cons. set (w := run w0 pre) in *.
  pose proof (step_terminal_reported w e Hrw Ht) as Hrep'.
  pose proof (step_once w e Hrw Ho) as Ho'. unfold once in Ho'.
  rewrite Hrep' in Ho'.
  rewrite run_calls_reported by exact Hrep'.
  destruct (step_calls w e) as [Hsame | (_ & this & Ha & Htm & _)];
    [rewrite Hsame, Hc in Ho'; discriminate Ho'|].
  destruct Ha as (f & rm & extra & p & Hcalls & _ & Hex).
  rewrite Hcalls, Hc. eexists. split; [reflexivity|]. cbn [metrics].
  apply spread_timing; [unfold extraKeys; not_in_keys | exact Hex |].
  destruct (getTimingMetrics_lookups this) as (Ld & _). cbv zeta in Ld.
  rewrite Ld, Htm. unfold slot in *.
  destruct e; try discriminate Ht; injection Hi as <-; simpl effect;
    rewrite ?lookup_insert_eq, ?lookup_insert_ne by discriminate;
    rewrite ?Hstart, ?Herr; reflexivity.
Qed.

(** C5, as the code has it: the start slot holds the constructor's clock
    reading throughout. Both terminal slots are unset until the first
    terminal signal reaches its listener; that signal writes its own slot
    and delivers the record, so only one of the two is set when the record
    is made, and the record's duration runs from the start to that signal.
    Terminal signals that follow still write their slot, an error or a
    timeout the errored one, a response end or the timer the
    response-ended one, whether or not the other is set and whether or not
    the record was delivered; nothing else writes either slot. *)
Theorem start_fixed_terminal_slots_independent parseURL UA requestFn cb now
    input options callback req w0 pre :
  requestWithMetrics parseURL UA requestFn cb now input options callback
    = Some (req, w0) ->
  let w := run w0 pre in
  slot w "startAt" = Some now /\
  (reported w = false ->
   slot w "errorAt" = None /\ slot w "endAt" = None) /\
  (forall e t post,
     reported w = false -> terminal w e = true -> instant e = Some t ->
     (slot (step w e) "errorAt" = None \/ slot (step w e) "endAt" = None) /\
     exists c,
       World.calls (run w0 (pre ++ e :: post)) = [c] /\
       metrics c !! "duration"
         = Some (getDurationInMs (Some now) (Some t))) /\
  (forall e t,
     terminal w e = true -> instant e = Some t -> isError e = true ->
     slot (step w e) "errorAt" = Some t /\
     slot (step w e) "endAt" = slot w "endAt") /\
  (forall e t,
     terminal w e = true -> instant e = Some t -> isEnd e = true ->
     slot (step w e) "endAt" = Some t /\
     slot (step w e) "errorAt" = slot w "errorAt") /\
  (forall e,
     terminal w e = false ->
     slot (step w e) "errorAt" = slot w "errorAt" /\
     slot (step w e) "endAt" = slot w "endAt").
Proof.
  intros H w.
  pose proof (requestWithMetrics_ready _ _ _ _ _ _ _ _ _ _ H)
    as (_ & _ & _ & _ & _ & _ & Ht).
  split; [subst w; rewrite run_startAt; unfold slot; rewrite Ht; reflexivity|].
  split.
  { intros Hrep.
    destruct (unreported_slots _ _ _ _ _ _ _ _ _ _ pre H Hrep)
      as (Hend & Herr & _).
    split; assumption. }
  split.
  { intros e t post Hrep Hterm Hi.
    destruct (unreported_slots _ _ _ _ _ _ _ _ _ _ pre H Hrep)
      as (Hend & Herr & _).
    split; [|apply (first_terminal_duration _ _ _ _ _ _ _ _ _ _ _ _ _ _ H);
             assumption].
    destruct (step_terminal_slots w e t Hterm Hi) as [He1 He2].
    destruct (isError e) eqn:E1.
    - right. destruct (He1 eq_refl) as [_ ->]. exact Hend.
    - left. destruct e; try discriminate Hterm; try discriminate E1;
        (destruct (He2 eq_refl) as [_ ->]; exact Herr). }
  split; [intros e t Hterm Hi He;
          apply (step_terminal_slots w e t Hterm Hi), He|].
  split; [intros e t Hterm Hi He;
          apply (step_terminal_slots w e t Hterm Hi), He|].
  intros e Hterm. apply step_other_slots, Hterm.
Qed.

Lemma start_fixed_terminal_slots_independent_witness :
  let pre := [ReqSocket (HR 0 100); ReqTimeout (HR 1 0);
              ReqResponse Scenario.response None 0] in
  let w := run Scenario.world pre in
  Scenario.started = Some (Scenario.request, Scenario.world) /\
  slot w "startAt" = Some Scenario.startAt /\
  slot w "errorAt" = Some (HR 1 0) /\
  slot (step w (ResEnd (HR 2 0))) "endAt" = Some (HR 2 0) /\
  slot (step w (ResEnd (HR 2 0))) "errorAt" = Some (HR 1 0).
Proof.
  intros pre w. split; [reflexivity|].
  destruct (start_fixed_terminal_slots_independent Scenario.parseURL
              Scenario.USER_AGENT Scenario.httpRequest (Some (Extern 1))
              Scenario.startAt (InStr "https://example.com/api") ArgUndef
              ArgUndef Scenario.request Scenario.world pre eq_refl)
    as (H1 & _ & _ & _ & H5 & _).
  split; [exact H1|]. split; [reflexivity|].
  destruct (H5 (ResEnd (HR 2 0)) (HR 2 0) eq_refl eq_refl eq_refl)
    as [Ha Hb].
  split; [exact Ha|]. exact (eq_trans Hb eq_refl).
Defined.

(** ** The request-sent slot *)

Lemma effect_sent e tm :
  isFinish e = false -> tm !! "sentRequestAt" = None ->
  effect e tm !! "sentRequestAt" = None.
Proof.
  intros He H. destruct e; try discriminate He; simpl;
    rewrite ?lookup_delete_eq, ?lookup_insert_ne by discriminate;
    try exact H; reflexivity.
Qed.

Lemma added_durationSend w w' this c :
  added w w' this -> In c (World.calls w') ->
  In c (World.calls w) \/
  metrics c !! "durationSend"
    = Some (getDurationInMs
              (hor (Ctx.timings this !! "tlsHandshakeAt")
                   (Ctx.timings this !! "tcpConnectionAt"))
              (Ctx.timings this !! "sentRequestAt")).
Proof.
  intros (f & rm & extra & p & Hc & _ & He) Hin. rewrite Hc in Hin.
  apply in_app_or in Hin as [Hin | [<- | []]]; [left; exact Hin|].
  right. simpl. apply spread_timing;
    [unfold extraKeys; not_in_keys | exact He |].
  apply getTimingMetrics_durationSend.
Qed.

Lemma run_sent_unset tr : forall w,
  Forall (fun e => isFinish e = false) tr ->
  slot w "sentRequestAt" = None ->
  Forall (fun c => metrics c !! "durationSend" = Some VUndef)
         (World.calls w) ->
  Forall (fun c => metrics c !! "durationSend" = Some VUndef)
         (World.calls (run w tr)).
Proof.
  induction tr as [|e tr IH]; intros w Htr Hs Hc; [exact Hc|].
  inversion Htr as [|? ? He Htr']; subst. rewrite run_cons. apply IH.
  - exact Htr'.
  - unfold slot in *. destruct (step_timings w e) as [-> | ->];
      [exact Hs | apply effect_sent; assumption].
  - destruct (step_calls w e) as [-> | (_ & this & Ha & Ht & _)];
      [exact Hc|].
    rewrite List.Forall_forall in *. intros c Hin.
    destruct (added_durationSend _ _ _ _ Ha Hin) as [Hold | ->];
      [apply Hc, Hold|].
    rewrite Ht, (effect_sent e) by assumption.
    rewrite getDurationInMs_unset_r. reflexivity.
Qed.

(** When the socket's connect signal is delivered after the request's
    finish signal and no finish follows it, every record delivered has an
    undefined [durationSend]: the connect listener drops the stale
    request-sent reading. *)
Theorem connect_after_finish_send_unknown parseURL UA requestFn cb now
    input options callback req w0 pre t l r mid c :
  requestWithMetrics parseURL UA requestFn cb now input options callback
    = Some (req, w0) ->
  reported (run w0 pre) = false ->
  World.sockListeners (run w0 pre) = true ->
  Forall (fun e => isFinish e = false) mid ->
  In c (World.calls (run w0 (pre ++ SockConnect t l r :: mid))) ->
  metrics c !! "durationSend" = Some VUndef.
Proof.
  intros H Hrep Hl Hmid Hin.
  destruct (unreported_run _ _ _ _ _ _ _ _ _ _ pre H Hrep) as (Hc & _).
  rewrite run_app, run_cons in Hin. set (w := run w0 pre) in *.
  assert (Hall : Forall (fun c => metrics c !! "durationSend" = Some VUndef)
                   (World.calls (run (step w (SockConnect t l r)) mid))).
  { apply run_sent_unset; [exact Hmid | |].
    - unfold slot. simpl. rewrite Hl. simpl. apply lookup_delete_eq.
    - simpl. rewrite Hl. simpl. rewrite Hc. constructor. }
  rewrite List.Forall_forall in Hall. apply Hall, Hin.
Qed.

Lemma connect_after_finish_send_unknown_witness :
  let pre := [ReqSocket (HR 0 100); ReqFinish (HR 0 150)] in
  let mid := [SockData (HR 0 500); ReqResponse Scenario.response None 0;
              ResEnd (HR 0 900)] in
  Scenario.started = Some (Scenario.request, Scenario.world) /\
  reported (run Scenario.world pre) = false /\
  World.sockListeners (run Scenario.world pre) = true /\
  Forall (fun e => isFinish e = false) mid /\
  forall c,
    In c (World.calls
            (run Scenario.world
               (pre ++ SockConnect (HR 0 300) None None :: mid))) ->
    metrics c !! "durationSend" = Some VUndef.
Proof.
  intros pre mid. split; [reflexivity|]. split; [reflexivity|].
  split; [reflexivity|].
  assert (Hm : Forall (fun e => isFinish e = false) mid)
    by (repeat constructor).
  split; [exact Hm|]. intros c.
  apply (connect_after_finish_send_unknown Scenario.parseURL
           Scenario.USER_AGENT Scenario.httpRequest (Some (Extern 1))
           Scenario.startAt (InStr "https://example.com/api") ArgUndef
           ArgUndef Scenario.request Scenario.world pre (HR 0 300) None
           None mid c eq_refl eq_refl eq_refl Hm).
Defined.

(** ** The first response byte *)

Lemma step_first_byte w e :
  isSocket e = false -> World.sockDataOnce w = false ->
  World.sockDataOnce (step w e) = false /\
  slot (step w e) "firstByteAt" = slot w "firstByteAt".
Proof.
  intros He Hd. unfold slot.
  destruct e; try discriminate He; simpl; rewrite ?Hd;
    repeat case_match; unfold onEnd, onError, onTimeout;
    lazymatch goal with
    | |- context [triggerMetrics ?x ?w'] =>
        rewrite triggerMetrics_timings;
        destruct (triggerMetrics_fields x w')
          as (_ & _ & _ & _ & _ & _ & _ & _ & -> & _)
    | |- context [onResponse ?r ?d ?n ?w'] =>
        destruct (onResponse_effect r d n w') as (_ & _ & _ & -> & _);
        destruct (onResponse_fields r d n w')
          as (_ & _ & _ & _ & _ & -> & _)
    | |- _ => idtac
    end;
    simpl;
    repeat first [ rewrite lookup_insert_ne by discriminate
                 | rewrite lookup_delete_ne by discriminate ];
    split; first [reflexivity | assumption].
Qed.

(** The first-byte slot holds the reading taken at the first data signal
    of the socket: later data signals, and every other signal but a new
    socket assignment, leave it as it is. *)
Theorem first_byte_is_first_data w t tr :
  World.sockDataOnce w = true ->
  Forall (fun e => isSocket e = false) tr ->
  slot (run w (SockData t :: tr)) "firstByteAt" = Some t.
Proof.
  intros Hd Htr. rewrite run_cons.
  assert (H1 : World.sockDataOnce (step w (SockData t)) = false)
    by (simpl; rewrite Hd; reflexivity).
  assert (H2 : slot (step w (SockData t)) "firstByteAt" = Some t)
    by (unfold slot; simpl; rewrite Hd; simpl; apply lookup_insert_eq).
  revert H1 H2. generalize (step w (SockData t)). clear w Hd.
  induction Htr as [|e tr He _ IH]; intros w H1 H2; [exact H2|].
  rewrite run_cons. destruct (step_first_byte w e He H1) as [H1' H2'].
  apply IH; [exact H1' | congruence].
Qed.

Lemma first_byte_is_first_data_witness :
  let w := run Scenario.world [ReqSocket (HR 0 100)] in
  let tr := [SockData (HR 0 800); ReqResponse Scenario.response None 0;
             SockData (HR 0 900); ResEnd (HR 1 0)] in
  World.sockDataOnce w = true /\
  Forall (fun e => isSocket e = false) tr /\
  slot (run w (SockData (HR 0 500) :: tr)) "firstByteAt" = Some (HR 0 500).
Proof.
  intros w tr. split; [reflexivity|].
  assert (Hf : Forall (fun e => isSocket e = false) tr)
    by (repeat constructor).
  split; [exact Hf|].
  apply (first_byte_is_first_data w (HR 0 500) tr eq_refl Hf).
Defined.

(** ** [durationSend] is not negative without a late handshake *)

Lemma getDurationInMs_not_negative a b :
  (forall x y, a = Some x -> b = Some y -> nanoseconds x <= nanoseconds y) ->
  not_negative (Some (getDurationInMs a b)).
Proof.
  intros H. destruct a as [x|], b as [y|]; try (left; reflexivity).
  right. destruct (getDurationInMs_elapsed x y) as (q & Hq & Eq).
  exists q. split; [rewrite Hq; reflexivity|].
  rewrite Eq. apply elapsed_ms_nonneg. apply H; reflexivity.
Qed.

Lemma send_inv_not_negative tm last fin :
  send_inv tm last fin ->
  not_negative
    (Some (getDurationInMs
             (hor (tm !! "tlsHandshakeAt") (tm !! "tcpConnectionAt"))
             (tm !! "sentRequestAt"))).
Proof.
  intros (_ & _ & _ & H). apply getDurationInMs_not_negative.
  intros x y Hx Hy. apply (H y x); assumption.
Qed.

Lemma send_inv_weaken tm last fin last' fin' :
  send_inv tm last fin -> last <= last' -> (fin' = false -> fin = false) ->
  send_inv tm last' fin'.
Proof.
  intros (H1 & H2 & H3 & H4) Hl Hf. repeat split.
  - intros b Hb. specialize (H1 b Hb). lia.
  - intros b Hb. specialize (H2 b Hb). lia.
  - intros E. apply H3, Hf, E.
  - exact H4.
Qed.

Lemma send_inv_effect tm last fin e :
  send_inv tm last fin ->
  last <= after_instant last e ->
  (forall t, e = SockSecureConnect t -> fin = false) ->
  send_inv (effect e tm) (after_instant last e) (fin || isFinish e).
Proof.
  intros Hinv Hl Hs.
  assert (Hw : send_inv tm (after_instant last e) (fin || isFinish e)).
  { apply (send_inv_weaken tm last fin); [exact Hinv | exact Hl |].
    intros E. apply orb_false_elim in E. tauto. }
  destruct Hinv as (H1 & H2 & H3 & H4).
  destruct e; try exact Hw; unfold after_instant in *; simpl in *.
  - (* socket *)
    destruct Hw as (W1 & W2 & W3 & W4). repeat split; intros *;
      rewrite ?lookup_insert_ne by discriminate; eauto.
  - (* lookup *)
    destruct Hw as (W1 & W2 & W3 & W4). repeat split; intros *;
      rewrite ?lookup_insert_ne by discriminate; eauto.
  - (* connect *)
    repeat split; intros *;
      rewrite ?lookup_delete_eq, ?lookup_delete_ne by discriminate;
      rewrite ?lookup_insert_eq, ?lookup_insert_ne by discriminate;
      try discriminate; auto.
    + intros Hb. specialize (H1 b Hb). lia.
    + intros [= <-]. lia.
  - (* secureConnect *)
    specialize (Hs now eq_refl). subst fin. specialize (H3 eq_refl).
    repeat split; intros *;
      rewrite ?lookup_insert_eq, ?lookup_insert_ne by discriminate;
      rewrite ?H3; try discriminate; auto.
    + intros [= <-]. lia.
    + intros Hb. specialize (H2 b Hb). lia.
  - (* data *)
    destruct Hw as (W1 & W2 & W3 & W4). repeat split; intros *;
      rewrite ?lookup_insert_ne by discriminate; eauto.
  - (* finish *)
    rewrite orb_true_r. repeat split; intros *;
      rewrite ?lookup_insert_eq, ?lookup_insert_ne by discriminate;
      try discriminate.
    + intros Hb. specialize (H1 b Hb). lia.
    + intros Hb. specialize (H2 b Hb). lia.
    + intros [= <-] Hb.
      destruct (tm !! "tlsHandshakeAt") as [x|] eqn:Ex; simpl in Hb.
      * injection Hb as <-. specialize (H1 x eq_refl). lia.
      * specialize (H2 b Hb). lia.
  - (* end *)
    destruct Hw as (W1 & W2 & W3 & W4). repeat split; intros *;
      rewrite ?lookup_insert_ne by discriminate; eauto.
  - (* error *)
    destruct Hw as (W1 & W2 & W3 & W4). repeat split; intros *;
      rewrite ?lookup_insert_ne by discriminate; eauto.
  - (* timeout *)
    destruct Hw as (W1 & W2 & W3 & W4). repeat split; intros *;
      rewrite ?lookup_insert_ne by discriminate; eauto.
  - (* timer *)
    destruct Hw as (W1 & W2 & W3 & W4). repeat split; intros *;
      rewrite ?lookup_insert_ne by discriminate; eauto.
Qed.

Lemma monotone_cons last e tr :
  monotone last (e :: tr) ->
  last <= after_instant last e /\ monotone (after_instant last e) tr.
Proof.
  unfold after_instant. simpl. destruct (instant e); [tauto|].
  intros H. split; [lia | exact H].
Qed.

Lemma handshake_cons fin e tr :
  handshake_before_finish fin (e :: tr) = true ->
  (forall t, e = SockSecureConnect t -> fin = false) /\
  handshake_before_finish (fin || isFinish e) tr = true.
Proof.
  destruct e; simpl; rewrite ?orb_false_r, ?orb_true_r; intros H;
    try (split; [discriminate | exact H]).
  apply andb_prop in H as [Hf H]. split; [|exact H].
  intros _ _. destruct fin; [discriminate | reflexivity].
Qed.

Lemma run_send_not_negative tr : forall w last fin,
  send_inv (Ctx.timings (World.self w)) last fin ->
  monotone last tr ->
  handshake_before_finish fin tr = true ->
  Forall (fun c => not_negative (metrics c !! "durationSend"))
         (World.calls w) ->
  Forall (fun c => not_negative (metrics c !! "durationSend"))
         (World.calls (run w tr)).
Proof.
  induction tr as [|e tr IH]; intros w last fin Hinv Hm Hh Hc; [exact Hc|].
  rewrite run_cons.
  apply monotone_cons in Hm as [Hl Hm].
  apply handshake_cons in Hh as [Hs Hh].
  pose proof (send_inv_effect _ _ _ e Hinv Hl Hs) as Heff.
  apply (IH _ (after_instant last e) (fin || isFinish e)); try assumption.
  - destruct (step_timings w e) as [-> | ->]; [|exact Heff].
    apply (send_inv_weaken _ last fin); [exact Hinv | exact Hl |].
    intros E. apply orb_false_elim in E. tauto.
  - destruct (step_calls w e) as [-> | (_ & this & Ha & Ht & _)];
      [exact Hc|].
    rewrite List.Forall_forall in *. intros c Hin.
    destruct (added_durationSend _ _ _ _ Ha Hin) as [Hold | ->];
      [apply Hc, Hold|].
    rewrite Ht. apply (send_inv_not_negative _ _ _ Heff).
Qed.

(** With a clock that does not run backwards, and no handshake signal
    delivered after a finish signal (every plain http request, and every
    https request whose body is sent after the handshake), the
    [durationSend] of every delivered record is undefined or not
    negative. *)
Theorem durationSend_not_negative parseURL UA requestFn cb now input
    options callback req w0 tr c :
  requestWithMetrics parseURL UA requestFn cb now input options callback
    = Some (req, w0) ->
  monotone (nanoseconds now) tr ->
  handshake_before_finish false tr = true ->
  In c (World.calls (run w0 tr)) ->
  not_negative (metrics c !! "durationSend").
Proof.
  intros H Hm Hh Hin.
  apply requestWithMetrics_ready in H as (_ & Hc & _ & _ & _ & _ & Ht).
  assert (Hall : Forall (fun c => not_negative (metrics c !! "durationSend"))
                   (World.calls (run w0 tr))).
  { apply (run_send_not_negative tr w0 (nanoseconds now) false);
      [| exact Hm | exact Hh | rewrite Hc; constructor].
    rewrite Ht. repeat split; intros *;
      rewrite ?lookup_singleton_ne by discriminate; try discriminate;
      try reflexivity. }
  rewrite List.Forall_forall in Hall. apply Hall, Hin.
Qed.

Lemma durationSend_not_negative_witness :
  let tr := [ReqSocket (HR 0 100); ReqFinish (HR 0 150);
             SockConnect (HR 0 300) None None; SockData (HR 0 500);
             ReqResponse Scenario.response None 0; ResEnd (HR 0 900)] in
  Scenario.started = Some (Scenario.request, Scenario.world) /\
  monotone (nanoseconds Scenario.startAt) tr /\
  handshake_before_finish false tr = true /\
  forall c, In c (World.calls (run Scenario.world tr)) ->
            not_negative (metrics c !! "durationSend").
Proof.
  intros tr. split; [reflexivity|].
  assert (Hm : monotone (nanoseconds Scenario.startAt) tr)
    by (vm_compute; intuition discriminate).
  split; [exact Hm|]. split; [reflexivity|]. intros c.
  apply (durationSend_not_negative Scenario.parseURL Scenario.USER_AGENT
           Scenario.httpRequest (Some (Extern 1)) Scenario.startAt
           (InStr "https://example.com/api") ArgUndef ArgUndef
           Scenario.request Scenario.world tr c eq_refl Hm eq_refl).
Defined.

(** ** Which requests are ignored *)

(** A request is left unobserved exactly when its User-Agent header is the
    sink's constant (and not empty), or a list of values whose first is
    the constant; an absent, numeric or different header, and an empty
    list, never are. *)
Theorem ignoreRequest_iff UA this req :
  Ctx.request this = Some req ->
  exists b,
    ignoreRequest UA this = Some b /\
    (b = true <-> marksSink UA (Req.getHeader req "User-Agent")).
Proof.
  intros Hreq. unfold ignoreRequest, marksSink. rewrite Hreq.
  destruct (Req.getHeader req "User-Agent") as [|s|z|[|first rest]].
  - exists false. split; [reflexivity|]. split; [discriminate|].
    intros [[_ H] | [r H]]; discriminate.
  - destruct s as [|a s].
    + exists false. split; [reflexivity|]. split; [discriminate|].
      intros [[Hne H] | [r H]]; [|discriminate].
      injection H as <-. contradiction.
    + exists (String.eqb (String a s) UA). split; [reflexivity|].
      rewrite String.eqb_eq. split.
      * intros <-. left. split; [discriminate | reflexivity].
      * intros [[_ H] | [r H]]; [congruence | discriminate].
  - exists false. cbv beta iota. split; [destruct (z =? 0); reflexivity|].
    split; [discriminate|]. intros [[_ H] | [r H]]; discriminate.
  - exists false. split; [reflexivity|]. split; [discriminate|].
    intros [[_ H] | [r H]]; discriminate.
  - exists (String.eqb first UA). split; [reflexivity|].
    rewrite String.eqb_eq. split.
    + intros <-. right. eauto.
    + intros [[_ H] | [r H]]; [discriminate | congruence].
Qed.

Lemma ignoreRequest_iff_witness :
  let this := Ctx.with_request (Some Scenario.sinkRequest)
                (new Scenario.startAt) in
  Ctx.request this = Some Scenario.sinkRequest /\
  exists b,
    ignoreRequest Scenario.USER_AGENT this = Some b /\
    (b = true <->
     marksSink Scenario.USER_AGENT
       (Req.getHeader Scenario.sinkRequest "User-Agent")).
Proof.
  intros this. split; [reflexivity|].
  apply (ignoreRequest_iff Scenario.USER_AGENT this Scenario.sinkRequest
           eq_refl).
Defined.

(** ** Option normalisation *)

Lemma over_same {A} (x : option A) : Opt.over x x = x.
Proof. destruct x; reflexivity. Qed.

Lemma assign_same o : Opt.assign o o = o.
Proof. destruct o. unfold Opt.assign. simpl. rewrite !over_same. reflexivity. Qed.

Lemma assign_empty o : Opt.assign o Opt.empty = o.
Proof. destruct o. reflexivity. Qed.

(** When the first argument is an options object, the normalised options
    are that object, whatever the second argument is and without the URL
    parser; with no first argument they are the empty object. *)
Theorem httpOptions_of_options_object parseURL o options :
  httpOptions parseURL (InOpts o) options = Some o /\
  httpOptions parseURL InUndef options = Some Opt.empty.
Proof.
  unfold httpOptions. simpl. rewrite assign_same. split; reflexivity.
Qed.

Lemma substring_prefix (h s : string) :
  substring 0 (String.length h) (h +:+ s) = h.
Proof.
  induction h as [|c h IH]; simpl.
  - destruct s; reflexivity.
  - rewrite IH. reflexivity.
Qed.

Lemma length_append (a b : string) :
  String.length (a +:+ b) = (String.length a + String.length b)%nat.
Proof. induction a as [|c a IH]; simpl; [reflexivity | rewrite IH; reflexivity]. Qed.

Lemma unbracket_ipv6 h : unbracket ("[" +:+ h +:+ "]") = h.
Proof.
  change ("[" +:+ h +:+ "]") with (String "[" (h +:+ "]")).
  unfold unbracket, startsWith, slice_1_m1.
  cbn [String.prefix String.length substring].
  destruct (ascii_dec "[" "[") as [_|Hne]; [|contradiction].
  replace (String.prefix "" (h +:+ "]")) with true
    by (destruct (h +:+ "]"); reflexivity).
  replace (S (String.length (h +:+ "]")) - 2)%nat with (String.length h)
    by (rewrite length_append; simpl; lia).
  apply substring_prefix.
Qed.

(** [urlToOptions] keeps the URL's scheme and href, takes the brackets off
    an IPv6 literal host, joins path and query, gives a port only when the
    URL has one, and an [auth] only when the URL carries a user name or a
    password. *)
Theorem urlToOptions_fields u :
  let o := urlToOptions u in
  Opt.protocol o = Some (Url.protocol u) /\
  Opt.href o = Some (Url.href u) /\
  Opt.path o = Some (Url.pathname u +:+ Url.search u) /\
  (forall h, Url.hostname u = "[" +:+ h +:+ "]" -> Opt.hostname o = Some h) /\
  (startsWith "[" (Url.hostname u) = false ->
   Opt.hostname o = Some (Url.hostname u)) /\
  (Url.port u = "" -> Opt.port o = None) /\
  (forall n, 0 <= n -> Url.port u = showZ n ->
             Opt.port o = Some (PortNum (Num n))) /\
  (Url.username u = "" -> Url.password u = "" -> Opt.auth o = None) /\
  (Url.username u <> "" ->
   Opt.auth o = Some (Url.username u +:+ ":" +:+ Url.password u)).
Proof.
  cbv zeta. unfold urlToOptions. simpl.
  split; [reflexivity|]. split; [reflexivity|]. split; [reflexivity|].
  split; [intros h Hh; rewrite Hh; f_equal; apply unbracket_ipv6|].
  split; [intros ->; reflexivity|].
  split; [intros ->; reflexivity|].
  split.
  { intros n Hn Hp. rewrite Hp, eqb_empty_false by apply showZ_nonempty.
    rewrite Number_showZ by exact Hn. reflexivity. }
  split; [intros -> ->; reflexivity|].
  intros Hu. rewrite str_truthy_true by exact Hu. reflexivity.
Qed.

Lemma urlToOptions_fields_witness :
  let u :=
    Url.Make "https:" "[::1]" "" "?q=1" "/api"
      "https://u:p@[::1]:8443/api?q=1" "8443" "u" "p" in
  Opt.hostname (urlToOptions u) = Some "::1" /\
  Opt.path (urlToOptions u) = Some "/api?q=1" /\
  Opt.port (urlToOptions u) = Some (PortNum (Num 8443)) /\
  Opt.auth (urlToOptions u) = Some "u:p".
Proof.
  intros u.
  destruct (urlToOptions_fields u)
    as (_ & _ & H3 & H4 & _ & _ & H7 & _ & H9).
  split; [apply (H4 "::1"); reflexivity|].
  split; [exact H3|].
  split; [apply (H7 8443); [lia | reflexivity]|].
  apply H9. discriminate.
Defined.

(** ** [parseInt] on decimal numerals *)

Lemma digits_numeral d : forall acc,
  digits 10 (Some acc) (NilEmpty.string_of_uint d) = Some (uval d acc).
Proof.
  induction d; intros acc; simpl; try reflexivity; apply IHd.
Qed.

Lemma uval_pos d : forall p,
  uval d (Z.pos p) = Z.pos (Pos.of_uint_acc d p).
Proof.
  induction d; intros p; simpl; try reflexivity;
    rewrite <- IHd; f_equal; lia.
Qed.

Lemma uval_zero d : uval d 0 = Z.of_N (Pos.of_uint d).
Proof.
  induction d; simpl; try reflexivity; try exact IHd;
    apply uval_pos.
Qed.

Lemma parseInt_numeral d :
  d <> Decimal.Nil ->
  parseInt (NilEmpty.string_of_uint d) 10
    = Num (Double.nearestZ (Z.of_uint d)).
Proof.
  intros Hd. unfold Z.of_uint. rewrite <- uval_zero.
  destruct d; try contradiction; cbn [NilEmpty.string_of_uint uval];
    match goal with
    | |- parseInt (String ?c ?r) 10 = _ =>
        transitivity
          (match digits 10 None (String c r) with
           | Some n => Num (Double.nearestZ (1 * n))
           | None => NaN
           end); [reflexivity|];
        let k := eval vm_compute in (digitVal 10 c) in
        match k with
        | Some ?v =>
            change (digits 10 None (String c r))
              with (digits 10 (Some (0 * 10 + v)) r)
        end
    end;
    rewrite digits_numeral, Z.mul_1_l; reflexivity.
Qed.

(** [parseInt] reads the decimal form of a natural number that a double
    holds back. *)
Lemma parseInt_showZ n :
  0 <= n <= 2 ^ 53 -> parseInt (showZ n) 10 = Num n.
Proof.
  intros [Hn Hn53]. unfold showZ.
  destruct (n <? 0) eqn:E; [apply Z.ltb_lt in E; lia|].
  pose proof (to_uint_nonnil (Z.to_N n)) as Hnil.
  replace (NilZero.string_of_uint (N.to_uint (Z.to_N n)))
    with (NilEmpty.string_of_uint (N.to_uint (Z.to_N n)))
    by (unfold NilZero.string_of_uint;
        destruct (N.to_uint (Z.to_N n)); try reflexivity; contradiction).
  rewrite parseInt_numeral by exact Hnil.
  unfold Z.of_uint.
  change (Pos.of_uint (N.to_uint (Z.to_N n)))
    with (N.of_uint (N.to_uint (Z.to_N n))).
  rewrite DecimalN.Unsigned.of_to, Z2N.id by exact Hn.
  rewrite nearestZ_exact by lia. reflexivity.
Qed.

(** A longer numeral is rounded: 2^53 + 1 reads as 2^53. *)
Lemma parseInt_rounds_long_numerals :
  parseInt "9007199254740993" 10 = Num 9007199254740992.
Proof. vm_compute. reflexivity. Qed.

(** A [content-length] header that is the decimal form of a natural
    number [n] of at most 2^53, which a double holds, makes the response
    end report [responseBodySize] = [n], whatever is streamed in
    between. *)
Theorem content_length_is_reported parseURL UA requestFn cb now input
    options callback req w0 pre res dl dn mid t post n :
  requestWithMetrics parseURL UA requestFn cb now input options callback
    = Some (req, w0) ->
  World.reqListeners w0 = true ->
  Forall (fun e => quiet e = true) pre ->
  Forall (fun e => quiet e = true) mid ->
  0 <= n <= 2 ^ 53 ->
  Res.headers res !! "content-length" = Some (showZ n) ->
  exists c,
    World.calls
      (run w0 (pre ++ ReqResponse res dl dn :: mid ++ ResEnd t :: post))
      = [c] /\
    metrics c !! "responseBodySize" = Some (VNum (inject_Z n)).
Proof.
  intros H Hl Hpre Hmid Hn Hh.
  destruct (after_response _ _ _ _ _ _ _ _ _ _ pre res dl dn mid H Hl Hpre Hmid)
    as ([[rm Hrm] _] & Hcb & Hrep & Hc & _ & He & _ & Hsz).
  replace (pre ++ ReqResponse res dl dn :: mid ++ ResEnd t :: post)%list
    with ((pre ++ ReqResponse res dl dn :: mid) ++ ResEnd t :: post)%list
    by (rewrite <- app_assoc; reflexivity).
  rewrite run_app, run_cons.
  set (w := run w0 (pre ++ ReqResponse res dl dn :: mid)) in *.
  simpl step. rewrite He.
  eexists. split.
  - apply (onEnd_only_call t w rm (default Noop cb)); assumption.
  - simpl. rewrite endReport_size, Hsz. unfold bodySize.
    rewrite Hh, parseInt_showZ by exact Hn. reflexivity.
Qed.

Lemma content_length_is_reported_witness :
  let pre := [ReqSocket (HR 0 100)] in
  let mid := [ResData 7] in
  Scenario.started = Some (Scenario.request, Scenario.world) /\
  World.reqListeners Scenario.world = true /\
  Forall (fun e => quiet e = true) pre /\
  Forall (fun e => quiet e = true) mid /\
  Res.headers Scenario.response !! "content-length" = Some (showZ 42) /\
  exists c,
    World.calls
      (run Scenario.world
         (pre ++ ReqResponse Scenario.response None 0
              :: mid ++ ResEnd (HR 2 0) :: []))
      = [c] /\
    metrics c !! "responseBodySize" = Some (VNum (inject_Z 42)).
Proof.
  intros pre mid. split; [reflexivity|]. split; [reflexivity|].
  assert (H1 : Forall (fun e => quiet e = true) pre) by (repeat constructor).
  assert (H2 : Forall (fun e => quiet e = true) mid) by (repeat constructor).
  split; [exact H1|]. split; [exact H2|]. split; [reflexivity|].
  apply (content_length_is_reported Scenario.parseURL Scenario.USER_AGENT
           Scenario.httpRequest (Some (Extern 1)) Scenario.startAt
           (InStr "https://example.com/api") ArgUndef ArgUndef
           Scenario.request Scenario.world pre Scenario.response None 0 mid
           (HR 2 0) [] 42 eq_refl eq_refl H1 H2);
    [change (2 ^ 53) with 9007199254740992; lia | reflexivity].
Defined.

(** ** Defaults of the request metrics *)

(** Options that carry an https [href] but no protocol and no port (as
    some client libraries pass them): the protocol is taken from the href,
    yet the default port is that of http, so the record names port 80 and
    the [url] spells it out. *)
Theorem href_scheme_without_protocol this opts req href h p :
  Ctx.httpOptions this = Some opts ->
  Ctx.request this = Some req ->
  Opt.protocol opts = None ->
  Opt.href opts = Some href -> startsWith "https:" href = true ->
  Opt.port opts = None -> Opt.defaultPort opts = None ->
  Opt.hostname opts = Some h -> h <> "" ->
  Opt.path opts = Some p -> p <> "" ->
  exists rm,
    getRequestMetrics this = Some rm /\
    rm !! "protocol" = Some (VStr "https:") /\
    rm !! "port" = Some (VNum (inject_Z 80)) /\
    rm !! "url" = Some (VStr ("https://" +:+ h +:+ ":80" +:+ p)).
Proof.
  intros Ho Hr Hproto Hhref Hs Hport Hdef Hh Hhne Hp Hpne.
  unfold getRequestMetrics. rewrite Ho, Hr. eexists. split; [reflexivity|].
  cbv zeta. rewrite Hproto, Hhref, Hport, Hdef, Hh, Hp.
  assert (Hne : href <> "") by (intros ->; discriminate Hs).
  rewrite !(sor_truthy href) by exact Hne.
  rewrite !(sor_truthy h), !(sor_truthy p) by assumption.
  rewrite Hs. simpl. repeat split.
Qed.

Lemma href_scheme_without_protocol_witness :
  let opts :=
    Opt.Make None (Some "example.com") None None None None (Some "/api")
      (Some "https://example.com/api") None None None in
  let this :=
    Ctx.with_request (Some Scenario.request)
      (Ctx.with_httpOptions (Some opts) (new Scenario.startAt)) in
  exists rm,
    getRequestMetrics this = Some rm /\
    rm !! "protocol" = Some (VStr "https:") /\
    rm !! "port" = Some (VNum (inject_Z 80)) /\
    rm !! "url" = Some (VStr ("https://" +:+ "example.com" +:+ ":80"
                              +:+ "/api")).
Proof.
  intros opts this.
  apply (href_scheme_without_protocol this opts Scenario.request
           "https://example.com/api" "example.com" "/api");
    first [reflexivity | discriminate].
Defined.

(** ** The domain *)

Lemma append_cons x (a b : string) :
  String x a +:+ b = String x (a +:+ b).
Proof. reflexivity. Qed.

Lemma append_assoc_1 (a : string) c (b : string) :
  (a +:+ String c EmptyString) +:+ b = a +:+ String c b.
Proof.
  induction a as [|x a IH]; [reflexivity|].
  rewrite !append_cons. f_equal. exact IH.
Qed.

Lemma append_empty_r (a : string) : a +:+ "" = a.
Proof.
  induction a as [|x a IH]; [reflexivity|].
  rewrite append_cons. f_equal. exact IH.
Qed.

Lemma split_dot_label x : forall cur rest,
  dotfree x = true ->
  split_dot cur (x +:+ rest) = split_dot (cur +:+ x) rest.
Proof.
  induction x as [|c x IH]; intros cur rest Hx.
  - simpl. rewrite append_empty_r. reflexivity.
  - simpl in Hx. apply andb_prop in Hx as [Hc Hx].
    change (String c x +:+ rest) with (String c (x +:+ rest)).
    cbn [split_dot]. destruct (Ascii.eqb c "."); [discriminate Hc|].
    rewrite IH by exact Hx. rewrite append_assoc_1. reflexivity.
Qed.

(** Splitting a host at its dots gives its labels back. *)
Lemma split_dot_join labels :
  labels <> [] -> Forall (fun x => dotfree x = true) labels ->
  split_dot "" (join_dot labels) = labels.
Proof.
  induction labels as [|x [|y r] IH]; intros Hne Hall; [contradiction| |].
  - inversion Hall; subst. simpl.
    rewrite <- (append_empty_r x) at 1.
    rewrite split_dot_label by assumption. reflexivity.
  - inversion Hall as [|? ? Hx Hrest]; subst.
    change (join_dot (x :: y :: r)) with (x +:+ "." +:+ join_dot (y :: r)).
    rewrite split_dot_label by exact Hx.
    change ("." +:+ join_dot (y :: r)) with (String "." (join_dot (y :: r))).
    cbn [split_dot]. simpl Ascii.eqb. cbv iota.
    rewrite IH by (try discriminate; exact Hrest). reflexivity.
Qed.

(** The [domain] metric is made of the last two labels of the host (the
    whole host when it has one or two). *)
Theorem domain_is_last_two_labels this opts req labels :
  Ctx.httpOptions this = Some opts ->
  Ctx.request this = Some req ->
  Opt.hostname opts = Some (join_dot labels) ->
  join_dot labels <> "" ->
  Forall (fun x => dotfree x = true) labels ->
  exists rm,
    getRequestMetrics this = Some rm /\
    rm !! "host" = Some (VStr (join_dot labels)) /\
    rm !! "domain" = Some (VStr (join_dot (last_two labels))).
Proof.
  intros Ho Hr Hh Hne Hall.
  assert (Hl : labels <> []) by (intros ->; apply Hne; reflexivity).
  unfold getRequestMetrics. rewrite Ho, Hr. eexists. split; [reflexivity|].
  cbv zeta. rewrite Hh. rewrite !(sor_truthy (join_dot labels)) by exact Hne.
  change (default "localhost" (Some (join_dot labels)))
    with (join_dot labels).
  rewrite split_dot_join by assumption.
  rewrite !list_to_map_cons. split.
  - rewrite lookup_insert_ne, lookup_insert_eq by discriminate. reflexivity.
  - rewrite !lookup_insert_ne by discriminate. apply lookup_insert_eq.
Qed.

Lemma domain_is_last_two_labels_witness :
  let labels := ["api"; "eu"; "example"; "com"] in
  let opts :=
    Opt.Make (Some "https:") (Some "api.eu.example.com") None None None
      None (Some "/") None None None None in
  let this :=
    Ctx.with_request (Some Scenario.request)
      (Ctx.with_httpOptions (Some opts) (new Scenario.startAt)) in
  exists rm,
    getRequestMetrics this = Some rm /\
    rm !! "host" = Some (VStr "api.eu.example.com") /\
    rm !! "domain" = Some (VStr "example.com").
Proof.
  intros labels opts this.
  apply (domain_is_last_two_labels this opts Scenario.request labels);
    [reflexivity | reflexivity | reflexivity | discriminate
    | repeat constructor].
Defined.

(** ** What the response contributes *)

Lemma step_quiet_server w e :
  quiet e = true ->
  Ctx.serverRequestId (World.self (step w e))
    = Ctx.serverRequestId (World.self w).
Proof.
  destruct e; try discriminate; intros _; simpl; unfold onSocket;
    repeat case_match; reflexivity.
Qed.

Lemma run_quiet_server w tr :
  Forall (fun e => quiet e = true) tr ->
  Ctx.serverRequestId (World.self (run w tr))
    = Ctx.serverRequestId (World.self w).
Proof.
  intros H; revert w; induction H as [|e tr He _ IH]; intros w;
    [reflexivity|].
  rewrite run_cons, IH. apply step_quiet_server, He.
Qed.

Lemma endReport_response now w rm res k v :
  getRequestMetrics (World.self w) = Some rm ->
  Ctx.response (World.self w) = Some res ->
  k ∈ ["responseCode"; "responseStatus"; "contentType"] ->
  getResponseMetrics (World.self w) !! k = Some v ->
  endReport now w rm !! k = Some v.
Proof.
  intros Hrm Hres Hk Hv. unfold endReport, spread.
  rewrite !elem_of_cons, elem_of_nil in Hk.
  rewrite lookup_union_r
    by (destruct Hk as [-> | [-> | [-> | []]]]; reflexivity).
  rewrite lookup_union_r
    by (destruct Hk as [-> | [-> | [-> | []]]]; reflexivity).
  apply lookup_union_Some_l. exact Hv.
Qed.

(** The record delivered at the response end names the response's status
    code and message and its content type, and as [serverRequestId] the
    [x-request-id] header, or [x-correlation-id] when that one is absent
    or empty. *)
Theorem response_fields_are_reported parseURL UA requestFn cb now input
    options callback req w0 pre res dl dn mid t post :
  requestWithMetrics parseURL UA requestFn cb now input options callback
    = Some (req, w0) ->
  World.reqListeners w0 = true ->
  Forall (fun e => quiet e = true) pre ->
  Forall (fun e => quiet e = true) mid ->
  exists c,
    World.calls
      (run w0 (pre ++ ReqResponse res dl dn :: mid ++ ResEnd t :: post))
      = [c] /\
    metrics c !! "responseCode"
      = Some (VNum (inject_Z (Res.statusCode res))) /\
    metrics c !! "responseStatus" = Some (VStr (Res.statusMessage res)) /\
    metrics c !! "contentType"
      = Some (of_str (Res.headers res !! "content-type")) /\
    metrics c !! "serverRequestId"
      = Some (of_str (sor (Res.headers res !! "x-request-id")
                          (Res.headers res !! "x-correlation-id"))).
Proof.
  intros H Hl Hpre Hmid.
  destruct (after_response _ _ _ _ _ _ _ _ _ _ pre res dl dn mid H Hl Hpre Hmid)
    as ([[rm Hrm] _] & Hcb & Hrep & Hc & _ & He & Hres & _).
  assert (Hid : Ctx.serverRequestId
                  (World.self (run w0 (pre ++ ReqResponse res dl dn :: mid)))
                = sor (Res.headers res !! "x-request-id")
                      (Res.headers res !! "x-correlation-id")).
  { rewrite run_app, run_cons, run_quiet_server by exact Hmid.
    pose proof (requestWithMetrics_observed _ _ _ _ _ _ _ _ _ _ H Hl) as Hf0.
    pose proof (run_frame w0 pre Hpre) as Hf. rewrite Hf0 in Hf.
    unfold frame in Hf. injection Hf as _ _ _ _ Hl1 _ _ _.
    simpl step. rewrite Hl1.
    destruct (onResponse_fields res dl dn (run w0 pre)) as (_ & -> & _).
    reflexivity. }
  replace (pre ++ ReqResponse res dl dn :: mid ++ ResEnd t :: post)%list
    with ((pre ++ ReqResponse res dl dn :: mid) ++ ResEnd t :: post)%list
    by (rewrite <- app_assoc; reflexivity).
  rewrite run_app, run_cons.
  set (w := run w0 (pre ++ ReqResponse res dl dn :: mid)) in *.
  simpl step. rewrite He.
  eexists. split.
  - apply (onEnd_only_call t w rm (default Noop cb)); assumption.
  - cbn [metrics].
    assert (Hg : getResponseMetrics (World.self w)
                 = list_to_map
                     [ ("responseCode", VNum (inject_Z (Res.statusCode res)));
                       ("responseStatus", VStr (Res.statusMessage res));
                       ("contentType",
                         of_str (Res.headers res !! "content-type"));
                       ("localIPAddress",
                         of_str (Ctx.localAddress (World.self w)));
                       ("serverIPAddress",
                         of_str (Ctx.remoteAddress (World.self w))) ])
      by (unfold getResponseMetrics; rewrite Hres; reflexivity).
    split; [apply (endReport_response t w rm res); try assumption;
            [rewrite !elem_of_cons; tauto | rewrite Hg; reflexivity]|].
    split; [apply (endReport_response t w rm res); try assumption;
            [rewrite !elem_of_cons; tauto | rewrite Hg; reflexivity]|].
    split; [apply (endReport_response t w rm res); try assumption;
            [rewrite !elem_of_cons; tauto | rewrite Hg; reflexivity]|].
    unfold endReport, spread. erewrite lookup_union_Some_l; [reflexivity|].
    rewrite !list_to_map_cons.
    rewrite !lookup_insert_ne, lookup_insert_eq by discriminate.
    simpl. rewrite Hid. reflexivity.
Qed.

Lemma response_fields_are_reported_witness :
  let pre := [ReqSocket (HR 0 100)] in
  let mid := [ResData 7] in
  Scenario.started = Some (Scenario.request, Scenario.world) /\
  World.reqListeners Scenario.world = true /\
  Forall (fun e => quiet e = true) pre /\
  Forall (fun e => quiet e = true) mid /\
  exists c,
    World.calls
      (run Scenario.world
         (pre ++ ReqResponse Scenario.response None 0
              :: mid ++ ResEnd (HR 2 0) :: []))
      = [c] /\
    metrics c !! "responseCode" = Some (VNum (inject_Z 200)) /\
    metrics c !! "contentType" = Some (VStr "text/plain").
Proof.
  intros pre mid. split; [reflexivity|]. split; [reflexivity|].
  assert (H1 : Forall (fun e => quiet e = true) pre) by (repeat constructor).
  assert (H2 : Forall (fun e => quiet e = true) mid) by (repeat constructor).
  split; [exact H1|]. split; [exact H2|].
  destruct (response_fields_are_reported Scenario.parseURL
              Scenario.USER_AGENT Scenario.httpRequest (Some (Extern 1))
              Scenario.startAt (InStr "https://example.com/api") ArgUndef
              ArgUndef Scenario.request Scenario.world pre
              Scenario.response None 0 mid (HR 2 0) [] eq_refl eq_refl H1 H2)
    as (c & Hc & Hcode & _ & Htype & _).
  exists c. repeat split; assumption.
Defined.

(** ** The delay of the safety-net timer *)

(** The characters of a decimal numeral. *)
Lemma readDigits_numeral d : forall acc count,
  readDigits 10 acc count (list_ascii_of_string (NilEmpty.string_of_uint d))
    = (uval d acc, count + Z.of_nat (Decimal.nb_digits d), []).
Proof.
  induction d; intros acc count;
    cbn [NilEmpty.string_of_uint list_ascii_of_string uval Decimal.nb_digits];
    [cbn [readDigits]; rewrite Z.add_0_r; reflexivity | ..];
    cbn [readDigits];
    match goal with
    | |- context [digitVal 10 ?c] =>
        let k := eval vm_compute in (digitVal 10 c) in
        change (digitVal 10 c) with k
    end;
    cbv iota; rewrite IHd, Nat2Z.inj_succ; f_equal; f_equal; lia.
Qed.

Lemma numeral_no_blank d :
  Forall (fun c => isWhite c = false)
         (list_ascii_of_string (NilEmpty.string_of_uint d)).
Proof.
  induction d; cbn [NilEmpty.string_of_uint list_ascii_of_string];
    [apply List.Forall_nil | ..];
    (apply List.Forall_cons; [reflexivity | exact IHd]).
Qed.

Lemma dropWhite_no_blank l :
  Forall (fun c => isWhite c = false) l -> dropWhite l = l.
Proof.
  intros H. destruct H as [|c l Hc _]; [reflexivity|].
  cbn [dropWhite]. rewrite Hc. reflexivity.
Qed.

Lemma trim_numeral d :
  rev (dropWhite
         (rev (dropWhite
                 (list_ascii_of_string (NilEmpty.string_of_uint d)))))
    = list_ascii_of_string (NilEmpty.string_of_uint d).
Proof.
  pose proof (numeral_no_blank d) as H.
  rewrite (dropWhite_no_blank _ H).
  rewrite dropWhite_no_blank by (apply List.Forall_rev, H).
  apply rev_involutive.
Qed.

Lemma decimal_integer m len :
  0 <= m <= 2 ^ 53 -> 0 <= len ->
  decimal false m len 0 = Double.Fin (inject_Z m).
Proof.
  intros Hm Hl. unfold decimal.
  destruct (m =? 0) eqn:E; [apply Z.eqb_eq in E; subst m; reflexivity|].
  change (400 <? 0) with false. cbv iota.
  destruct (0 + len <? -400) eqn:E2; [apply Z.ltb_lt in E2; lia|].
  change (0 <=? 0) with true. cbv iota.
  rewrite Z.pow_0_r, Z.mul_1_r. apply round_Z. lia.
Qed.

Lemma readDecimal_numeral d :
  d <> Decimal.Nil -> 0 <= uval d 0 <= 2 ^ 53 ->
  readDecimal (list_ascii_of_string (NilEmpty.string_of_uint d))
    = Double.Fin (inject_Z (uval d 0)).
Proof.
  intros Hd Hv. unfold readDecimal.
  assert (Hs : readSign (list_ascii_of_string (NilEmpty.string_of_uint d))
               = (false, list_ascii_of_string (NilEmpty.string_of_uint d)))
    by (destruct d; try contradiction; reflexivity).
  rewrite Hs.
  assert (Hi : String.eqb
                 (string_of_list_ascii
                    (list_ascii_of_string (NilEmpty.string_of_uint d)))
                 "Infinity" = false)
    by (destruct d; try contradiction; reflexivity).
  rewrite Hi, readDigits_numeral.
  assert (Hn : 0 < Z.of_nat (Decimal.nb_digits d))
    by (destruct d; try contradiction; cbn [Decimal.nb_digits]; lia).
  destruct (0 + Z.of_nat (Decimal.nb_digits d) + 0 =? 0) eqn:E;
    [apply Z.eqb_eq in E; lia|].
  apply decimal_integer; lia.
Qed.

Lemma toNumber_numeral d :
  d <> Decimal.Nil -> 0 <= uval d 0 <= 2 ^ 53 ->
  toNumber (NilEmpty.string_of_uint d) = Double.Fin (inject_Z (uval d 0)).
Proof.
  intros Hd Hv. unfold toNumber. rewrite trim_numeral.
  rewrite <- (readDecimal_numeral d Hd Hv).
  destruct d as [|d|d|d|d|d|d|d|d|d|d]; try contradiction; try reflexivity.
  destruct d; reflexivity.
Qed.

(** The decimal form of a natural number that a double holds converts back
    to it. *)
Lemma toNumber_showZ n :
  0 <= n <= 2 ^ 53 -> toNumber (showZ n) = Double.Fin (inject_Z n).
Proof.
  intros [Hn Hn53]. unfold showZ.
  destruct (n <? 0) eqn:E; [apply Z.ltb_lt in E; lia|].
  pose proof (to_uint_nonnil (Z.to_N n)) as Hnil.
  replace (NilZero.string_of_uint (N.to_uint (Z.to_N n)))
    with (NilEmpty.string_of_uint (N.to_uint (Z.to_N n)))
    by (unfold NilZero.string_of_uint;
        destruct (N.to_uint (Z.to_N n)); try reflexivity; contradiction).
  assert (Hv : uval (N.to_uint (Z.to_N n)) 0 = n).
  { rewrite uval_zero.
    change (Pos.of_uint (N.to_uint (Z.to_N n)))
      with (N.of_uint (N.to_uint (Z.to_N n))).
    rewrite DecimalN.Unsigned.of_to, Z2N.id by exact Hn. reflexivity. }
  rewrite toNumber_numeral by (rewrite ?Hv; auto; lia).
  rewrite Hv. reflexivity.
Qed.

Lemma delayOf_cases dn :
  delayOf None dn = Double.Fin 300000 /\
  delayOf (Some "") dn = Double.Fin 300000 /\
  forall D,
    0 <= D <= 2 ^ 53 -> 0 <= dn <= 2 ^ 53 - 10000 ->
    delayOf (Some (showZ D)) dn = Double.Fin (inject_Z (D - dn - 10000)).
Proof.
  split; [reflexivity|]. split; [reflexivity|].
  intros D HD Hdn. unfold delayOf.
  pose proof (showZ_nonempty D) as Hne.
  destruct (showZ D) as [|c r] eqn:E; [contradiction|].
  assert (H53 : 2 ^ 53 = 9007199254740992) by reflexivity.
  rewrite <- E, toNumber_showZ by exact HD.
  rewrite !of_Z_exact by lia.
  rewrite !sub_exact by lia. reflexivity.
Qed.

Lemma onResponse_timer res dl dn w :
  World.timers (onResponse res dl dn w)
    = <[World.nextTimer w := delayOf dl dn]> (World.timers w).
Proof.
  unfold onResponse, startNoResponseEndTimer, delayOf, sor.
  destruct dl as [[|c r]|]; simpl; repeat case_match; reflexivity.
Qed.

(** When the response arrives, a timer is started and kept in
    [this.noResponseEndTimer]; when it fires, its delay is what is logged.
    The delay is five minutes without [__OW_DEADLINE] or with an empty
    one; with the decimal form of a deadline [D] that a double holds, and
    such a clock reading, it ends ten seconds before the deadline. *)
Theorem safety_net_delay w res dl dn t :
  World.reqListeners w = true ->
  let h := World.nextTimer w in
  let w' := step w (ReqResponse res dl dn) in
  Ctx.noResponseEndTimer (World.self w') = Some h /\
  World.timers w' !! h = Some (delayOf dl dn) /\
  World.console (step w' (TimerFire h t))
    = (World.console w ++ [delayOf dl dn])%list /\
  delayOf None dn = Double.Fin 300000 /\
  delayOf (Some "") dn = Double.Fin 300000 /\
  (forall D,
     0 <= D <= 2 ^ 53 -> 0 <= dn <= 2 ^ 53 - 10000 ->
     delayOf (Some (showZ D)) dn = Double.Fin (inject_Z (D - dn - 10000))).
Proof.
  intros Hl h w'. subst h w'. simpl step. rewrite Hl.
  destruct (delayOf_cases dn) as (H1 & H2 & H3).
  assert (Ht : World.timers (onResponse res dl dn w) !! World.nextTimer w
               = Some (delayOf dl dn))
    by (rewrite onResponse_timer; apply lookup_insert_eq).
  assert (Hc : World.console (onResponse res dl dn w) = World.console w)
    by (destruct (onResponse_fields res dl dn w)
          as (_ & _ & _ & _ & _ & _ & Hc & _); exact Hc).
  split; [destruct (onResponse_effect res dl dn w)
            as (_ & _ & _ & _ & _ & Hh & _); exact Hh|].
  split; [exact Ht|]. split; [|repeat split; assumption].
  rewrite Ht. unfold onEnd.
  match goal with
  | |- context [triggerMetrics ?x ?w'] =>
      destruct (triggerMetrics_fields x w')
        as (_ & _ & _ & _ & _ & _ & _ & _ & _ & _ & _ & Hcons)
  end.
  rewrite Hcons. unfold World.mark, World.this.
  cbn [World.console World.with_self World.with_console].
  rewrite Hc. reflexivity.
Qed.

Lemma safety_net_delay_witness :
  let w := run Scenario.world [ReqSocket (HR 0 100)] in
  World.reqListeners w = true /\
  World.timers
    (step w (ReqResponse Scenario.response (Some (showZ 1700000060000))
               1700000000000))
    !! World.nextTimer w
    = Some (delayOf (Some (showZ 1700000060000)) 1700000000000) /\
  delayOf (Some (showZ 1700000060000)) 1700000000000 = Double.Fin 50000.
Proof.
  intros w. split; [reflexivity|].
  destruct (safety_net_delay w Scenario.response
              (Some (showZ 1700000060000)) 1700000000000 (HR 60 0) eq_refl)
    as (_ & H2 & _ & _ & _ & H6).
  split; [exact H2|].
  apply (H6 1700000060000); change (2 ^ 53) with 9007199254740992; lia.
Defined.

(** Any numeric literal is a deadline: blanks around it are dropped, and a
    fraction or an exponent is read; what is no literal gives NaN. *)
Lemma delayOf_other_literals :
  delayOf (Some " 1700000060000") 1700000000000 = Double.Fin 50000 /\
  delayOf (Some "1.70000006e12") 1700000000000 = Double.Fin 50000 /\
  delayOf (Some "0x18BCFE56800") 1700000000000 = Double.Fin (-10000) /\
  delayOf (Some "soon") 1700000000000 = Double.NaN.
Proof. repeat split; vm_compute; reflexivity. Qed.

(** ** Phases whose milestone was never signalled *)

Lemma effect_unset e tm s :
  milestone e <> Some s -> tm !! s = None -> effect e tm !! s = None.
Proof.
  intros He H. destruct e; simpl in *;
    try exact H;
    try (rewrite lookup_insert_ne by congruence; exact H).
  destruct (decide (s = "sentRequestAt")) as [->|Hne];
    [apply lookup_delete_eq|].
  rewrite lookup_delete_ne by congruence.
  rewrite lookup_insert_ne by congruence. exact H.
Qed.

Lemma phase_unset this k s :
  In (k, s) phases -> Ctx.timings this !! s = None ->
  getTimingMetrics this !! k = Some VUndef.
Proof.
  intros Hin Hs.
  destruct (getTimingMetrics_lookups this)
    as (_ & H1 & H2 & H3 & H4 & H5 & H6 & H7).
  unfold phases in Hin. simpl in Hin.
  repeat (destruct Hin as [Hin | Hin];
          [injection Hin as <- <-;
           first [rewrite H1 | rewrite H2 | rewrite H3 | rewrite H4
                 | rewrite H5 | rewrite H6 | rewrite H7];
           rewrite Hs, getDurationInMs_unset_r; reflexivity|]).
  destruct Hin.
Qed.

Lemma phase_not_extra k s : In (k, s) phases -> k ∉ extraKeys.
Proof.
  unfold phases. simpl. intros Hin.
  repeat (destruct Hin as [Hin | Hin];
          [injection Hin as <- <-; unfold extraKeys; not_in_keys|]).
  destruct Hin.
Qed.

Lemma run_phase_unset k s tr : forall w,
  In (k, s) phases ->
  Forall (fun e => milestone e <> Some s) tr ->
  slot w s = None ->
  Forall (fun c => metrics c !! k = Some VUndef) (World.calls w) ->
  Forall (fun c => metrics c !! k = Some VUndef) (World.calls (run w tr)).
Proof.
  induction tr as [|e tr IH]; intros w Hk Htr Hs Hc; [exact Hc|].
  inversion Htr as [|? ? He Htr']; subst. rewrite run_cons. apply IH.
  - exact Hk.
  - exact Htr'.
  - unfold slot in *. destruct (step_timings w e) as [-> | ->];
      [exact Hs | apply effect_unset; assumption].
  - destruct (step_calls w e) as [-> | (_ & this & Ha & Ht & _)];
      [exact Hc|].
    destruct Ha as (f & rm & extra & p & Hcalls & _ & Hex).
    rewrite Hcalls. apply Forall_app. split; [exact Hc|].
    constructor; [|constructor]. simpl.
    apply spread_timing; [eapply phase_not_extra, Hk | exact Hex |].
    apply (phase_unset this k s Hk).
    rewrite Ht. apply effect_unset; assumption.
Qed.

(** A phase whose closing milestone is never signalled is reported as
    undefined in every record: no handshake signal gives an undefined
    [durationSSL], no lookup signal an undefined [durationDNS], no finish
    signal an undefined [durationSend], and so on for the seven phases. *)
Theorem unsignalled_phase_is_undefined parseURL UA requestFn cb now input
    options callback req w0 k s tr c :
  requestWithMetrics parseURL UA requestFn cb now input options callback
    = Some (req, w0) ->
  In (k, s) phases ->
  Forall (fun e => milestone e <> Some s) tr ->
  In c (World.calls (run w0 tr)) ->
  metrics c !! k = Some VUndef.
Proof.
  intros H Hk Htr Hin.
  apply requestWithMetrics_ready in H as (_ & Hc & _ & _ & _ & _ & Ht).
  assert (Hall : Forall (fun c => metrics c !! k = Some VUndef)
                   (World.calls (run w0 tr))).
  { apply (run_phase_unset k s tr w0 Hk Htr); [|rewrite Hc; constructor].
    unfold slot. rewrite Ht. apply lookup_singleton_ne.
    unfold phases in Hk. simpl in Hk.
    repeat (destruct Hk as [Hk | Hk]; [injection Hk as <- <-; discriminate|]).
    destruct Hk. }
  rewrite List.Forall_forall in Hall. apply Hall, Hin.
Qed.

Lemma unsignalled_phase_is_undefined_witness :
  let tr := [ReqSocket (HR 0 100); SockLookup (HR 0 200);
             SockConnect (HR 0 300) (Some "10.0.0.1") (Some "10.0.0.2");
             ReqFinish (HR 0 400); SockData (HR 0 500);
             ReqResponse Scenario.response None 0; ResEnd (HR 0 900)] in
  exists c,
    In c (World.calls (run Scenario.world tr)) /\
    metrics c !! "durationSSL" = Some VUndef.
Proof.
  intros tr.
  destruct (World.calls (run Scenario.world tr)) as [|c l] eqn:E;
    [vm_compute in E; discriminate E|].
  exists c. split; [left; reflexivity|].
  apply (unsignalled_phase_is_undefined Scenario.parseURL Scenario.USER_AGENT
           Scenario.httpRequest (Some (Extern 1)) Scenario.startAt
           (InStr "https://example.com/api") ArgUndef ArgUndef
           Scenario.request Scenario.world "durationSSL" "tlsHandshakeAt" tr c).
  - reflexivity.
  - unfold phases. simpl. tauto.
  - subst tr. repeat constructor; discriminate.
  - rewrite E. left. reflexivity.
Defined.

(** ** The wrapper hands back the original request *)

Lemma ignoreRequest_total UA this req :
  Ctx.request this = Some req -> exists b, ignoreRequest UA this = Some b.
Proof.
  intros H. unfold ignoreRequest. rewrite H.
  destruct (Req.getHeader req "User-Agent") as [|s|z|[|first l]];
    cbv beta iota zeta; repeat case_match; eauto.
Qed.

(** The function installed in place of [http.request] returns exactly the
    request the original function returns for the same three arguments,
    observed or not; it fails only when the original function fails or a
    URL string does not parse. *)
Theorem wrapper_returns_original_request parseURL UA requestFn cb now input
    options callback req :
  (exists w0,
     requestWithMetrics parseURL UA requestFn cb now input options callback
       = Some (req, w0))
  <-> (requestFn input options callback = Some req /\
       forall s, input = InStr s -> parseURL s <> None).
Proof.
  split.
  - intros [w0 H].
    apply requestWithMetrics_inv in H as (opts & ign & Ho & Hr & _).
    split; [exact Hr|]. intros s -> Hs. unfold httpOptions in Ho.
    rewrite Hs in Ho. discriminate Ho.
  - intros [Hr Hs]. unfold requestWithMetrics, getRequest. simpl.
    assert (Ho : exists opts, httpOptions parseURL input options = Some opts).
    { unfold httpOptions. destruct input as [s|u|o|].
      - specialize (Hs s eq_refl). destruct (parseURL s); [|contradiction].
        destruct options; eauto.
      - destruct options; eauto.
      - eauto.
      - eauto. }
    destruct Ho as [opts ->]. rewrite Hr.
    match goal with
    | |- context [ignoreRequest UA ?c] =>
        destruct (ignoreRequest_total UA c req eq_refl) as [[|] ->]
    end; eauto.
Qed.

(** ** The addresses of the connection *)

Lemma triggerMetrics_addresses extra w :
  Ctx.localAddress (World.self (triggerMetrics extra w))
    = Ctx.localAddress (World.self w) /\
  Ctx.remoteAddress (World.self (triggerMetrics extra w))
    = Ctx.remoteAddress (World.self w).
Proof.
  rewrite triggerMetrics_unfold. cbv zeta. unfold cleared.
  repeat case_match; simpl; repeat split.
Qed.

Lemma onResponse_addresses res dl dn w :
  Ctx.localAddress (World.self (onResponse res dl dn w))
    = Ctx.localAddress (World.self w) /\
  Ctx.remoteAddress (World.self (onResponse res dl dn w))
    = Ctx.remoteAddress (World.self w).
Proof.
  unfold onResponse, startNoResponseEndTimer. simpl.
  repeat case_match; simpl; repeat split.
Qed.

Lemma step_addresses w e :
  isConnect e = false ->
  Ctx.localAddress (World.self (step w e)) = Ctx.localAddress (World.self w) /\
  Ctx.remoteAddress (World.self (step w e))
    = Ctx.remoteAddress (World.self w).
Proof.
  intros He. destruct e; try discriminate He; handlers;
    lazymatch goal with
    | |- context [triggerMetrics ?x ?w'] =>
        destruct (triggerMetrics_addresses x w') as [-> ->];
        split; reflexivity
    | |- context [onResponse ?r ?d ?n ?w'] =>
        destruct (onResponse_addresses r d n w') as [-> ->];
        split; reflexivity
    | |- _ => split; reflexivity
    end.
Qed.

Lemma run_addresses tr : forall w,
  Forall (fun e => isConnect e = false) tr ->
  Ctx.localAddress (World.self (run w tr)) = Ctx.localAddress (World.self w) /\
  Ctx.remoteAddress (World.self (run w tr))
    = Ctx.remoteAddress (World.self w).
Proof.
  induction tr as [|e tr IH]; intros w H; [split; reflexivity|].
  inversion H as [|? ? He Htr]; subst. rewrite run_cons.
  destruct (IH (step w e) Htr) as [-> ->]. apply step_addresses, He.
Qed.

Lemma step_holds_response w e : holds_response w -> holds_response (step w e).
Proof.
  unfold holds_response. intros H.
  destruct e; handlers;
    lazymatch goal with
    | |- context [triggerMetrics ?x ?w'] =>
        destruct (triggerMetrics_fields x w')
          as (_ & _ & _ & -> & _ & _ & _ & _ & _ & _ & -> & _);
        simpl; intros Hx; apply H;
        first [exact Hx | reflexivity | congruence]
    | |- context [onResponse ?r ?d ?n ?w'] =>
        destruct (onResponse_effect r d n w')
          as (_ & _ & _ & _ & _ & _ & _ & _ & -> & _); eauto
    | |- _ =>
        simpl; intros Hx; apply H;
        first [exact Hx | reflexivity | congruence]
    end.
Qed.

Lemma run_holds_response tr : forall w,
  holds_response w -> holds_response (run w tr).
Proof.
  induction tr as [|e tr IH]; intros w H; [exact H|].
  rewrite run_cons. apply IH, step_holds_response, H.
Qed.

Lemma endReport_address now w rm res k v :
  Ctx.response (World.self w) = Some res ->
  k ∈ ["localIPAddress"; "serverIPAddress"] ->
  getResponseMetrics (World.self w) !! k = Some v ->
  endReport now w rm !! k = Some v.
Proof.
  intros Hres Hk Hv. unfold endReport, spread.
  rewrite !elem_of_cons, elem_of_nil in Hk.
  rewrite lookup_union_r
    by (destruct Hk as [-> | [-> | []]]; reflexivity).
  rewrite lookup_union_r
    by (destruct Hk as [-> | [-> | []]]; reflexivity).
  apply lookup_union_Some_l. exact Hv.
Qed.

(** The record delivered at the response end names, as [localIPAddress]
    and [serverIPAddress], the socket's addresses at the last connect
    signal. *)
Theorem addresses_of_last_connect parseURL UA requestFn cb now input
    options callback req w0 pre t l r mid t' post :
  requestWithMetrics parseURL UA requestFn cb now input options callback
    = Some (req, w0) ->
  World.sockListeners (run w0 pre) = true ->
  Forall (fun e => isConnect e = false) mid ->
  reported (run w0 (pre ++ SockConnect t l r :: mid)) = false ->
  World.resEndListener (run w0 (pre ++ SockConnect t l r :: mid)) = true ->
  exists c,
    World.calls
      (run w0 (pre ++ SockConnect t l r :: mid ++ ResEnd t' :: post)) = [c] /\
    metrics c !! "localIPAddress" = Some (of_str l) /\
    metrics c !! "serverIPAddress" = Some (of_str r).
Proof.
  intros H Hs Hmid Hrep He.
  destruct (unreported_run _ _ _ _ _ _ _ _ _ _ _ H Hrep)
    as (Hc & Hcb & rm & Hrm).
  assert (Hh : holds_response (run w0 (pre ++ SockConnect t l r :: mid))).
  { apply run_holds_response.
    apply requestWithMetrics_inv in H as (opts & ign & _ & _ & _ & ->).
    unfold holds_response. destruct ign; simpl; discriminate. }
  destruct (Hh He) as [res Hres].
  assert (Ha : Ctx.localAddress
                 (World.self (run w0 (pre ++ SockConnect t l r :: mid))) = l /\
               Ctx.remoteAddress
                 (World.self (run w0 (pre ++ SockConnect t l r :: mid))) = r).
  { rewrite run_app, run_cons.
    destruct (run_addresses mid (step (run w0 pre) (SockConnect t l r)) Hmid)
      as [-> ->].
    simpl. rewrite Hs. split; reflexivity. }
  destruct Ha as [Hl Hr].
  replace (pre ++ SockConnect t l r :: mid ++ ResEnd t' :: post)%list
    with ((pre ++ SockConnect t l r :: mid) ++ ResEnd t' :: post)%list
    by (rewrite <- app_assoc; reflexivity).
  rewrite run_app, run_cons.
  set (w := run w0 (pre ++ SockConnect t l r :: mid)) in *.
  simpl step. rewrite He.
  eexists. split.
  - apply (onEnd_only_call t' w rm (default Noop cb)); assumption.
  - cbn [metrics].
    split; apply (endReport_address t' w rm res); try assumption;
      try (rewrite !elem_of_cons; tauto);
      unfold getResponseMetrics; rewrite Hres, ?Hl, ?Hr; reflexivity.
Qed.

Lemma addresses_of_last_connect_witness :
  let pre := [ReqSocket (HR 0 100)] in
  let mid := [SockData (HR 0 500); ReqResponse Scenario.response None 0] in
  Scenario.started = Some (Scenario.request, Scenario.world) /\
  exists c,
    World.calls
      (run Scenario.world
         (pre ++ SockConnect (HR 0 300) (Some "10.0.0.1") (Some "10.0.0.2")
              :: mid ++ ResEnd (HR 0 900) :: [])) = [c] /\
    metrics c !! "localIPAddress" = Some (VStr "10.0.0.1") /\
    metrics c !! "serverIPAddress" = Some (VStr "10.0.0.2").
Proof.
  intros pre mid. split; [reflexivity|].
  apply (addresses_of_last_connect Scenario.parseURL Scenario.USER_AGENT
           Scenario.httpRequest (Some (Extern 1)) Scenario.startAt
           (InStr "https://example.com/api") ArgUndef ArgUndef
           Scenario.request Scenario.world pre (HR 0 300)
           (Some "10.0.0.1") (Some "10.0.0.2") mid (HR 0 900) []).
  - reflexivity.
  - reflexivity.
  - subst mid. repeat constructor.
  - reflexivity.
  - reflexivity.
Defined.
